(** * EJFAT load-balancer control-plane client (lb_cplane.cc / lb_cplane.h)

    A shallow embedding of the two client classes of lb_cplane.cc,
    [LbControlPlaneClient] and [LbReservation], of the helpers
    [is_ipv4], [is_ipv6] and [resolve_host], of the control plane's
    record of a backend, [BackEnd], and of the functions of the earlier
    revisions of the file that have since changed ([Legacy]).

    Conventions of the embedding:
    - a [std::string] is a [string] (one [ascii] per byte);
    - every fixed-width integer is a [Z], with the conversions the C++
      performs written out ([to_uint16], [to_int32]);
    - a [float] is only ever copied by this code, never computed with,
      and is carried as its 32-bit pattern;
    - the gRPC stub is the channel target it was created for; the
      control plane answering on the other side is a record of handlers
      [ControlPlane], passed to every method that performs a call;
    - every blocking exchange with the outside world (one RPC, one
      [getaddrinfo]) is recorded as an [event]; a method returns the
      events it performed, in order, next to its C++ result;
    - the clock read by [clock_gettime(CLOCK_REALTIME, _)] is an argument;
    - text written to [std::cout] / [std::cerr] is not represented. *)

From Stdlib Require Import ZArith String Ascii List Bool Lia DecimalString.
From stdpp Require Import base gmap strings list.

Local Open Scope string_scope.
Local Open Scope list_scope.
Local Open Scope Z_scope.

(** ** Machine integers and their decimal rendering *)

Definition to_uint16 (z : Z) : Z := z mod 65536.

Definition to_uint32 (z : Z) : Z := z mod 4294967296.

(** Reinterpretation of a 32-bit pattern as an [int] (what [%d] reads). *)
Definition to_int32 (z : Z) : Z :=
  let u := to_uint32 z in
  if u <? 2147483648 then u else u - 4294967296.

(** Wrap-around of a 64-bit signed result. *)
Definition to_int64 (z : Z) : Z :=
  let u := z mod 18446744073709551616 in
  if u <? 9223372036854775808 then u else u - 18446744073709551616.

(** Decimal text of an integer: [std::to_string], [%d], [%hu]. *)
Definition to_string (z : Z) : string := NilZero.string_of_int (Z.to_int z).

Definition float : Type := Z.

(** ** Protocol messages (loadbalancer.proto, as used by the client) *)

Record Timestamp := mkTimestamp { seconds : Z; nanos : Z }.

Definition PortRange : Type := Z.

Record RegisterRequest := mkRegisterRequest {
  reg_token : string;
  reg_name : string;
  reg_lbid : string;
  reg_weight : float;
  reg_ipaddress : string;
  reg_udpport : Z;
  reg_portrange : PortRange }.

Record RegisterReply := mkRegisterReply {
  regrep_token : string;
  regrep_sessionid : string }.

Record DeregisterRequest := mkDeregisterRequest {
  dereg_token : string;
  dereg_lbid : string;
  dereg_sessionid : string }.

Record SendStateRequest := mkSendStateRequest {
  ss_token : string;
  ss_lbid : string;
  ss_sessionid : string;
  ss_timestamp : Timestamp;
  ss_fillpercent : float;
  ss_controlsignal : float;
  ss_isready : bool }.

Record ReserveLoadBalancerRequest := mkReserveLoadBalancerRequest {
  res_token : string;
  res_name : string;
  res_until : Timestamp }.

Record ReserveLoadBalancerReply := mkReserveLoadBalancerReply {
  rep_token : string;
  rep_lbid : string;
  rep_syncipaddress : string;
  rep_syncudpport : Z;
  rep_dataipv4address : string;
  rep_dataipv6address : string }.

Record FreeLoadBalancerRequest := mkFreeLoadBalancerRequest {
  free_token : string;
  free_lbid : string }.

Record LoadBalancerStatusRequest := mkLoadBalancerStatusRequest {
  st_token : string;
  st_lbid : string }.

Record WorkerStatus := mkWorkerStatus {
  w_name : string;
  w_fillpercent : float;
  w_controlsignal : float;
  w_slotsassigned : Z;
  w_lastupdated : Timestamp }.

Record LoadBalancerStatusReply := mkLoadBalancerStatusReply {
  workers : list WorkerStatus }.

Record GetLoadBalancerRequest := mkGetLoadBalancerRequest {
  get_token : string;
  get_lbid : string }.

(** ** grpc::Status *)

Record Status := mkStatus { error_code : Z; error_message : string }.

Definition ok (s : Status) : bool := error_code s =? 0.

Definition OK : Status := mkStatus 0 "".

(** ** The outside world *)

(** The control plane reached through a stub, and the resolver behind
    [getaddrinfo].  Each handler receives the channel target the stub was
    built for.  [getaddrinfo] yields [None] when the call fails, and
    otherwise the [inet_ntop] text of each entry of the result list. *)
Record ControlPlane := mkControlPlane {
  cp_Register : string -> RegisterRequest -> Status * RegisterReply;
  cp_Deregister : string -> DeregisterRequest -> Status;
  cp_SendState : string -> SendStateRequest -> Status;
  cp_ReserveLoadBalancer :
    string -> ReserveLoadBalancerRequest -> Status * ReserveLoadBalancerReply;
  cp_FreeLoadBalancer : string -> FreeLoadBalancerRequest -> Status;
  cp_LoadBalancerStatus :
    string -> LoadBalancerStatusRequest -> Status * LoadBalancerStatusReply;
  cp_GetLoadBalancer :
    string -> GetLoadBalancerRequest -> Status * ReserveLoadBalancerReply;
  getaddrinfo : string -> option (list string) }.

Inductive event :=
| CallRegister (target : string) (req : RegisterRequest)
| CallDeregister (target : string) (req : DeregisterRequest)
| CallSendState (target : string) (req : SendStateRequest)
| CallReserveLoadBalancer (target : string) (req : ReserveLoadBalancerRequest)
| CallFreeLoadBalancer (target : string) (req : FreeLoadBalancerRequest)
| CallLoadBalancerStatus (target : string) (req : LoadBalancerStatusRequest)
| CallGetLoadBalancer (target : string) (req : GetLoadBalancerRequest)
| Resolve (host : string).

(** The reading of [clock_gettime(CLOCK_REALTIME, _)]. *)
Record timespec := mkTimespec { tv_sec : Z; tv_nsec : Z }.

(** ** LbControlPlaneClient *)

Module LbControlPlaneClient.

Record t := mk {
  stub_ : string;
  cpAddr : string;
  cpPort : Z;
  token : string;
  name : string;
  lbId : string;
  weight : float;
  beAddr : string;
  bePort : Z;
  beRange : PortRange;
  sessionToken : string;
  sessionId : string;
  fillPercent : float;
  pidError : float;
  isReady : bool }.

(** The constructor.  [fillPercent] and [pidError] have no initialiser in
    the class; they start at 0 here and are set by [update]. *)
Definition new (cpIP : string) (cpPort0 : Z) (beIP : string) (bePort0 : Z)
    (beRange0 : PortRange) (cliName token0 lbId0 : string) (weight0 : float) : t :=
  let cpPort1 := to_uint16 cpPort0 in
  let cpTarget := cpIP +:+ ":" +:+ to_string cpPort1 in
  {| stub_ := cpTarget;
     cpAddr := cpIP; cpPort := cpPort1;
     token := token0; name := cliName; lbId := lbId0; weight := weight0;
     beAddr := beIP; bePort := to_uint16 bePort0; beRange := beRange0;
     sessionToken := ""; sessionId := "";
     fillPercent := 0; pidError := 0; isReady := true |}.

Definition update (c : t) (fill pidErr : float) (ready : bool) : t :=
  {| stub_ := stub_ c;
     cpAddr := cpAddr c; cpPort := cpPort c;
     token := token c; name := name c; lbId := lbId c; weight := weight c;
     beAddr := beAddr c; bePort := bePort c; beRange := beRange c;
     sessionToken := sessionToken c; sessionId := sessionId c;
     fillPercent := fill; pidError := pidErr; isReady := ready |}.

Definition set_session (c : t) (sid tok : string) : t :=
  {| stub_ := stub_ c;
     cpAddr := cpAddr c; cpPort := cpPort c;
     token := token c; name := name c; lbId := lbId c; weight := weight c;
     beAddr := beAddr c; bePort := bePort c; beRange := beRange c;
     sessionToken := tok; sessionId := sid;
     fillPercent := fillPercent c; pidError := pidError c;
     isReady := isReady c |}.

Definition RegisterRequest_of (c : t) : RegisterRequest :=
  {| reg_token := token c;
     reg_name := name c;
     reg_lbid := lbId c;
     reg_weight := weight c;
     reg_ipaddress := beAddr c;
     reg_udpport := bePort c;
     reg_portrange := beRange c |}.

(** [int LbControlPlaneClient::Register()]: result, object afterwards,
    exchanges performed. *)
Definition Register (cp : ControlPlane) (c : t) : Z * t * list event :=
  let request := RegisterRequest_of c in
  let '(status, reply) := cp_Register cp (stub_ c) request in
  let evs := [CallRegister (stub_ c) request] in
  if negb (ok status) then (1, c, evs)
  else (0, set_session c (regrep_sessionid reply) (regrep_token reply), evs).

Definition DeregisterRequest_of (c : t) : DeregisterRequest :=
  {| dereg_token := sessionToken c;
     dereg_lbid := lbId c;
     dereg_sessionid := sessionId c |}.

(** [int LbControlPlaneClient::Deregister() const]. *)
Definition Deregister (cp : ControlPlane) (c : t) : Z * t * list event :=
  let request := DeregisterRequest_of c in
  let status := cp_Deregister cp (stub_ c) request in
  let evs := [CallDeregister (stub_ c) request] in
  if negb (ok status) then (1, c, evs) else (0, c, evs).

Definition SendStateRequest_of (c : t) (t1 : timespec) : SendStateRequest :=
  {| ss_token := sessionToken c;
     ss_lbid := lbId c;
     ss_sessionid := sessionId c;
     ss_timestamp := mkTimestamp (tv_sec t1) (tv_nsec t1);
     ss_fillpercent := fillPercent c;
     ss_controlsignal := pidError c;
     ss_isready := isReady c |}.

(** [int LbControlPlaneClient::SendState() const]; [t1] is the clock
    reading taken inside the call. *)
Definition SendState (cp : ControlPlane) (t1 : timespec) (c : t)
  : Z * t * list event :=
  let request := SendStateRequest_of c t1 in
  let status := cp_SendState cp (stub_ c) request in
  let evs := [CallSendState (stub_ c) request] in
  if negb (ok status) then (1, c, evs) else (0, c, evs).

Definition getSessionToken (c : t) : string := sessionToken c.

(** *** Histories of calls on one client

    The caller drives one object through a sequence of calls; the control
    plane seen by each call and the clock read inside [SendState] are
    part of the call. *)
Inductive call :=
| DoUpdate (fill pidErr : float) (ready : bool)
| DoRegister (cp : ControlPlane)
| DoSendState (cp : ControlPlane) (t1 : timespec)
| DoDeregister (cp : ControlPlane).

Definition step (c : t) (k : call) : Z * t * list event :=
  match k with
  | DoUpdate fill pidErr ready => (0, update c fill pidErr ready, [])
  | DoRegister cp => Register cp c
  | DoSendState cp t1 => SendState cp t1 c
  | DoDeregister cp => Deregister cp c
  end.

(** The object and the exchanges after a history of calls. *)
Fixpoint run (c : t) (ks : list call) : t * list event :=
  match ks with
  | [] => (c, [])
  | k :: ks' =>
      let '(_, c', evs) := step c k in
      let '(c'', evs') := run c' ks' in
      (c'', evs ++ evs')
  end.

(** Whether some [Register] of the history returned 0. *)
Fixpoint registered (c : t) (ks : list call) : bool :=
  match ks with
  | [] => false
  | k :: ks' =>
      let '(rc, c', _) := step c k in
      (match k with DoRegister _ => rc =? 0 | _ => false end)
      || registered c' ks'
  end.

Definition is_Register (k : call) : bool :=
  match k with DoRegister _ => true | _ => false end.

(** The session credentials an exchange carries, if it is a [SendState]
    or a [Deregister]. *)
Definition session_of (ev : event) : option (string * string) :=
  match ev with
  | CallSendState _ req => Some (ss_sessionid req, ss_token req)
  | CallDeregister _ req => Some (dereg_sessionid req, dereg_token req)
  | _ => None
  end.

End LbControlPlaneClient.

(** ** Regular expressions of [is_ipv4] and [is_ipv6]

    [std::regex_match] succeeds when the whole subject is in the
    language of the pattern.  The patterns of this program use character
    classes, concatenation, alternation, [?] and bounded repetition
    only; membership is decided by Brzozowski derivatives. *)

Inductive regex :=
| Void
| Eps
| Class (ranges : list (ascii * ascii))
| Seq (r1 r2 : regex)
| Alt (r1 r2 : regex).

Definition in_range (c : ascii) (rg : ascii * ascii) : bool :=
  (nat_of_ascii (fst rg) <=? nat_of_ascii c)%nat
  && (nat_of_ascii c <=? nat_of_ascii (snd rg))%nat.

Definition in_class (c : ascii) (ranges : list (ascii * ascii)) : bool :=
  existsb (in_range c) ranges.

(** A literal character, [r?], [r{n}] and [r{m,n}]. *)
Definition lit (c : ascii) : regex := Class [(c, c)].

Definition opt (r : regex) : regex := Alt r Eps.

Fixpoint times (n : nat) (r : regex) : regex :=
  match n with
  | O => Eps
  | S n' => Seq r (times n' r)
  end.

Fixpoint upto (k : nat) (r : regex) : regex :=
  match k with
  | O => Eps
  | S k' => opt (Seq r (upto k' r))
  end.

Definition between (m n : nat) (r : regex) : regex :=
  Seq (times m r) (upto (n - m) r).

Fixpoint nullable (r : regex) : bool :=
  match r with
  | Void => false
  | Eps => true
  | Class _ => false
  | Seq r1 r2 => nullable r1 && nullable r2
  | Alt r1 r2 => nullable r1 || nullable r2
  end.

Fixpoint deriv (c : ascii) (r : regex) : regex :=
  match r with
  | Void => Void
  | Eps => Void
  | Class ranges => if in_class c ranges then Eps else Void
  | Seq r1 r2 =>
      if nullable r1 then Alt (Seq (deriv c r1) r2) (deriv c r2)
      else Seq (deriv c r1) r2
  | Alt r1 r2 => Alt (deriv c r1) (deriv c r2)
  end.

Fixpoint regex_match (s : string) (r : regex) : bool :=
  match s with
  | EmptyString => nullable r
  | String c s' => regex_match s' (deriv c r)
  end.

(** The language of a pattern, and the length of its longest word. *)
Fixpoint lang (r : regex) (s : string) : Prop :=
  match r with
  | Void => False
  | Eps => s = ""
  | Class ranges => exists c, s = String c "" /\ in_class c ranges = true
  | Seq r1 r2 => exists s1 s2, s = s1 +:+ s2 /\ lang r1 s1 /\ lang r2 s2
  | Alt r1 r2 => lang r1 s \/ lang r2 s
  end.

Fixpoint max_len (r : regex) : nat :=
  match r with
  | Void => 0
  | Eps => 0
  | Class _ => 1
  | Seq r1 r2 => max_len r1 + max_len r2
  | Alt r1 r2 => Nat.max (max_len r1) (max_len r2)
  end.

Local Open Scope char_scope.

(** [(25[0-5]|2[0-4][0-9]|[01]?[0-9][0-9]?)] *)
Definition octet_regex : regex :=
  Alt (Seq (lit "2") (Seq (lit "5") (Class [("0", "5")])))
 (Alt (Seq (lit "2") (Seq (Class [("0", "4")]) (Class [("0", "9")])))
      (Seq (opt (Class [("0", "1")]))
           (Seq (Class [("0", "9")]) (opt (Class [("0", "9")]))))).

(** [^((25[0-5]|2[0-4][0-9]|[01]?[0-9][0-9]?)\.){3}(25[0-5]|2[0-4][0-9]|[01]?[0-9][0-9]?)$] *)
Definition ipv4_regex : regex :=
  Seq (times 3 (Seq octet_regex (lit "."))) octet_regex.

(** [[0-9a-fA-F]] *)
Definition hex_class : regex :=
  Class [("0", "9"); ("a", "f"); ("A", "F")].

(** [^([0-9a-fA-F]{1,4}:){7}[0-9a-fA-F]{1,4}$] *)
Definition ipv6_regex : regex :=
  Seq (times 7 (Seq (between 1 4 hex_class) (lit ":")))
      (between 1 4 hex_class).

Local Close Scope char_scope.

Definition is_ipv4 (str : string) : bool := regex_match str ipv4_regex.

Definition is_ipv6 (str : string) : bool := regex_match str ipv6_regex.

(** *** The two patterns in the words of the specification

    "Four dot-separated octets 0-255" and "eight colon-separated
    1-4-hex-digit groups", written without regular expressions, to be
    compared with [is_ipv4] and [is_ipv6]. *)

Definition is_digit (c : ascii) : bool := in_range c ("0", "9")%char.

Definition is_hex_digit (c : ascii) : bool :=
  is_digit c || in_range c ("a", "f")%char || in_range c ("A", "F")%char.

Fixpoint all_chars (p : ascii -> bool) (s : string) : bool :=
  match s with
  | EmptyString => true
  | String c s' => p c && all_chars p s'
  end.

(** The number a string of decimal digits denotes, after [acc]. *)
Fixpoint decimal_value (acc : nat) (s : string) : nat :=
  match s with
  | EmptyString => acc
  | String c s' => decimal_value (10 * acc + (nat_of_ascii c - 48)) s'
  end.

(** One to three decimal digits denoting at most 255. *)
Definition is_octet (s : string) : bool :=
  if (1 <=? String.length s)%nat && (String.length s <=? 3)%nat
     && all_chars is_digit s
  then (decimal_value 0 s <=? 255)%nat
  else false.

(** One to four hexadecimal digits. *)
Definition is_hex_group (s : string) : bool :=
  (1 <=? String.length s)%nat && (String.length s <=? 4)%nat
  && all_chars is_hex_digit s.

(** No character of [s] is [sep]. *)
Definition sep_free (sep : ascii) (s : string) : bool :=
  all_chars (fun c => negb (Ascii.eqb c sep)) s.

(** The pieces of [s] between the occurrences of [sep]. *)
Fixpoint split_on (sep : ascii) (s : string) : list string :=
  match s with
  | EmptyString => [EmptyString]
  | String c s' =>
      if Ascii.eqb c sep then EmptyString :: split_on sep s'
      else match split_on sep s' with
           | piece :: pieces => String c piece :: pieces
           | [] => [String c EmptyString]
           end
  end.

(** [s] consists of exactly [n] pieces separated by [sep], each
    accepted by [piece]. *)
Definition separated (sep : ascii) (n : nat) (piece : string -> bool)
    (s : string) : bool :=
  (List.length (split_on sep s) =? n)%nat && forallb piece (split_on sep s).

Definition dotted_quad (s : string) : bool := separated "." 4 is_octet s.

Definition colon_groups (s : string) : bool := separated ":" 8 is_hex_group s.

(** ** C strings *)

(** What [s.c_str()] denotes to a reader of C strings ([%s],
    [getaddrinfo]): the bytes before the first NUL. *)
Fixpoint c_str (s : string) : string :=
  match s with
  | EmptyString => EmptyString
  | String c s' => if Ascii.eqb c zero then EmptyString else String c (c_str s')
  end.

(** [char url[256]; sprintf(url, ...); return std::string(url);]
    The formatted text and its terminating NUL must fit the buffer;
    writing past its end has no defined result. *)
Definition url_size : nat := 256.

Definition sprintf_url (text : string) : option string :=
  if (String.length text <? url_size)%nat then Some text else None.

(** The formatted text leaves room for its terminating NUL in [url]. *)
Definition fits_url (text : string) : Prop :=
  (String.length text < url_size)%nat.

(** ** resolve_host *)

(** The loop over the [addrinfo] list: [ipstr] is the text of the current
    entry; each match overwrites the corresponding output. *)
Fixpoint scan_addrinfo (result : list string) (ipv4 ipv6 : string)
  : string * string :=
  match result with
  | [] => (ipv4, ipv6)
  | ipstr :: p =>
      let ipv4' := if is_ipv4 ipstr then ipstr else ipv4 in
      let ipv6' := if is_ipv6 ipstr then ipstr else ipv6 in
      scan_addrinfo p ipv4' ipv6'
  end.

(** [static bool resolve_host(host_name, ipv4&, ipv6&)]: the returned
    flag, the two outputs afterwards, and the lookup performed. *)
Definition resolve_host (cp : ControlPlane) (host_name ipv4 ipv6 : string)
  : bool * (string * string) * list event :=
  let evs := [Resolve (c_str host_name)] in
  match getaddrinfo cp (c_str host_name) with
  | None => (false, (ipv4, ipv6), evs)
  | Some result => (true, scan_addrinfo result ipv4 ipv6, evs)
  end.

(** ** LbClientStatus *)

Record LbClientStatus := mkLbClientStatus {
  fillPercent : float;
  controlSignal : float;
  slotsAssigned : Z;
  lastUpdated : Timestamp;
  updateTime : Z }.

(** A default-constructed [LbClientStatus] ([updateTime] has no
    initialiser in the class; it is 0 here). *)
Definition LbClientStatus_new : LbClientStatus :=
  {| fillPercent := 0; controlSignal := 0; slotsAssigned := 0;
     lastUpdated := mkTimestamp 0 0; updateTime := 0 |}.

Definition set_fillPercent (s : LbClientStatus) (v : float) : LbClientStatus :=
  {| fillPercent := v; controlSignal := controlSignal s;
     slotsAssigned := slotsAssigned s; lastUpdated := lastUpdated s;
     updateTime := updateTime s |}.

Definition set_controlSignal (s : LbClientStatus) (v : float) : LbClientStatus :=
  {| fillPercent := fillPercent s; controlSignal := v;
     slotsAssigned := slotsAssigned s; lastUpdated := lastUpdated s;
     updateTime := updateTime s |}.

Definition set_slotsAssigned (s : LbClientStatus) (v : Z) : LbClientStatus :=
  {| fillPercent := fillPercent s; controlSignal := controlSignal s;
     slotsAssigned := v; lastUpdated := lastUpdated s;
     updateTime := updateTime s |}.

Definition set_lastUpdated (s : LbClientStatus) (v : Timestamp) : LbClientStatus :=
  {| fillPercent := fillPercent s; controlSignal := controlSignal s;
     slotsAssigned := slotsAssigned s; lastUpdated := v;
     updateTime := updateTime s |}.

Definition set_updateTime (s : LbClientStatus) (v : Z) : LbClientStatus :=
  {| fillPercent := fillPercent s; controlSignal := controlSignal s;
     slotsAssigned := slotsAssigned s; lastUpdated := lastUpdated s;
     updateTime := v |}.

(** [google::protobuf::util::TimeUtil::TimestampToMilliseconds]:
    seconds times 1000 plus the nanoseconds divided by 10^6, rounded
    toward zero, in 64-bit arithmetic. *)
Definition TimestampToMilliseconds (ts : Timestamp) : Z :=
  to_int64 (seconds ts * 1000 + Z.quot (nanos ts) 1000000).

(** One iteration of the loop over [reply.workers(j)], shared by the
    member and the static [LoadBalancerStatus]. *)
Definition store_worker (clientStats : gmap string LbClientStatus)
    (w : WorkerStatus) : gmap string LbClientStatus :=
  let name := w_name w in
  (* auto & stats = clientStats[name]; *)
  let stats := default LbClientStatus_new (clientStats !! name) in
  let stats := set_fillPercent stats (w_fillpercent w) in
  let stats := set_controlSignal stats (w_controlsignal w) in
  let stats := set_slotsAssigned stats (to_uint32 (w_slotsassigned w)) in
  let stats := set_lastUpdated stats (w_lastupdated w) in
  let stats := set_updateTime stats (TimestampToMilliseconds (lastUpdated stats)) in
  <[name := stats]> clientStats.

(** The record a reported worker stands for: its four reported fields
    and the millisecond form of its timestamp. *)
Definition snapshot_of (w : WorkerStatus) : LbClientStatus :=
  {| fillPercent := w_fillpercent w;
     controlSignal := w_controlsignal w;
     slotsAssigned := to_uint32 (w_slotsassigned w);
     lastUpdated := w_lastupdated w;
     updateTime := TimestampToMilliseconds (w_lastupdated w) |}.

(** The last worker of a reply that bears a given name, if any. *)
Fixpoint last_named (n : string) (ws : list WorkerStatus) : option WorkerStatus :=
  match ws with
  | [] => None
  | w :: ws' =>
      match last_named n ws' with
      | Some w' => Some w'
      | None => if String.eqb (w_name w) n then Some w else None
      end
  end.

Definition store_workers (clientStats : gmap string LbClientStatus)
    (ws : list WorkerStatus) : gmap string LbClientStatus :=
  fold_left store_worker ws clientStats.

(** ** Address and URI construction of the static paths *)

(** The block shared by the static [ReserveLoadBalancer] and [GetLbUri]
    that turns [cpIP] into the address written into the URI. *)
Definition cp_ip_addr (cp : ControlPlane) (cpIP : string) (useIPv6 : bool)
  : string * list event :=
  let ipAddr := cpIP in
  if negb (is_ipv4 cpIP || is_ipv6 cpIP) then
    let '(ran, (ipV4, ipV6), evs) := resolve_host cp cpIP "" "" in
    if useIPv6 && negb (String.eqb ipV6 "") then (ipV6, evs)
    else if negb (String.eqb ipV4 "") then (ipV4, evs)
    else (ipAddr, evs)
  else (ipAddr, []).

(** The work-around for a blank [syncIpAddress]; [fallback] is [cpAddr]
    in the member function and [ipAddr] in the static ones. *)
Definition sync_ip (reply : ReserveLoadBalancerReply) (fallback : string) : string :=
  let syncIP := rep_syncipaddress reply in
  if String.eqb syncIP "" || (String.length syncIP <? 16)%nat then fallback
  else syncIP.

(** ["ejfat://%s@%s:%hu/lb/%s?data=%s:%d&sync=%s:%d"] *)
Definition format_reserve_uri (tok ipAddr : string) (cpPort : Z)
    (lbid dataAddr : string) (dataPort : Z) (syncIP : string) (syncPort : Z)
  : string :=
  "ejfat://" +:+ c_str tok +:+ "@" +:+ c_str ipAddr +:+ ":"
  +:+ to_string (to_uint16 cpPort) +:+ "/lb/" +:+ c_str lbid
  +:+ "?data=" +:+ c_str dataAddr +:+ ":" +:+ to_string (to_int32 dataPort)
  +:+ "&sync=" +:+ c_str syncIP +:+ ":" +:+ to_string (to_int32 syncPort).

(** ["ejfat://%s:%hu/lb/%s?data=%s:%d&sync=%s:%d"] *)
Definition format_lookup_uri (ipAddr : string) (cpPort : Z)
    (lbid dataAddr : string) (dataPort : Z) (syncIP : string) (syncPort : Z)
  : string :=
  "ejfat://" +:+ c_str ipAddr +:+ ":"
  +:+ to_string (to_uint16 cpPort) +:+ "/lb/" +:+ c_str lbid
  +:+ "?data=" +:+ c_str dataAddr +:+ ":" +:+ to_string (to_int32 dataPort)
  +:+ "&sync=" +:+ c_str syncIP +:+ ":" +:+ to_string (to_int32 syncPort).

(** ["error = %s"] *)
Definition format_error (msg : string) : string := "error = " +:+ c_str msg.

(** ** LbReservation *)

Module LbReservation.

Record t := mk {
  isReserved : bool;
  stub_ : string;
  cpAddr : string;
  cpPort : Z;
  lbName : string;
  adminToken : string;
  untilSeconds : Z;
  syncIpAddress : string;
  syncUdpPort : Z;
  dataIpv4Address : string;
  dataIpv6Address : string;
  lbId : string;
  instanceToken : string;
  clientStats : gmap string LbClientStatus }.

(** The constructor ([syncUdpPort] has no initialiser in the class; it
    is 0 here until a reservation sets it). *)
Definition new (cpIP : string) (cpPort0 : Z) (name admintoken : string)
    (until : Z) : t :=
  let cpPort1 := to_uint16 cpPort0 in
  let cpTarget := cpIP +:+ ":" +:+ to_string cpPort1 in
  {| isReserved := false;
     stub_ := cpTarget;
     cpAddr := cpIP; cpPort := cpPort1;
     lbName := name; adminToken := admintoken;
     untilSeconds := to_int64 until;
     syncIpAddress := ""; syncUdpPort := 0;
     dataIpv4Address := ""; dataIpv6Address := "";
     lbId := ""; instanceToken := "";
     clientStats := ∅ |}.

(** The assignments at the end of a successful member
    [ReserveLoadBalancer]. *)
Definition set_reservation (r : t) (reply : ReserveLoadBalancerReply)
    (syncIP : string) : t :=
  {| isReserved := true;
     stub_ := stub_ r;
     cpAddr := cpAddr r; cpPort := cpPort r;
     lbName := lbName r; adminToken := adminToken r;
     untilSeconds := untilSeconds r;
     syncIpAddress := syncIP;
     syncUdpPort := to_uint16 (rep_syncudpport reply);
     dataIpv4Address := rep_dataipv4address reply;
     dataIpv6Address := rep_dataipv6address reply;
     lbId := rep_lbid reply;
     instanceToken := rep_token reply;
     clientStats := clientStats r |}.

Definition set_clientStats (r : t) (m : gmap string LbClientStatus) : t :=
  {| isReserved := isReserved r;
     stub_ := stub_ r;
     cpAddr := cpAddr r; cpPort := cpPort r;
     lbName := lbName r; adminToken := adminToken r;
     untilSeconds := untilSeconds r;
     syncIpAddress := syncIpAddress r;
     syncUdpPort := syncUdpPort r;
     dataIpv4Address := dataIpv4Address r;
     dataIpv6Address := dataIpv6Address r;
     lbId := lbId r;
     instanceToken := instanceToken r;
     clientStats := m |}.

Definition ReserveRequest_of (token0 name0 : string) (until : Z)
  : ReserveLoadBalancerRequest :=
  {| res_token := token0; res_name := name0;
     res_until := mkTimestamp until 0 |}.

(** [int LbReservation::ReserveLoadBalancer()] *)
Definition ReserveLoadBalancer (cp : ControlPlane) (r : t) : Z * t * list event :=
  let request := ReserveRequest_of (adminToken r) (lbName r) (untilSeconds r) in
  let '(status, reply) := cp_ReserveLoadBalancer cp (stub_ r) request in
  let evs := [CallReserveLoadBalancer (stub_ r) request] in
  if negb (ok status) then (1, r, evs)
  else
    let syncIP := sync_ip reply (cpAddr r) in
    (0, set_reservation r reply syncIP, evs).

(** [int LbReservation::FreeLoadBalancer() const] *)
Definition FreeLoadBalancer (cp : ControlPlane) (r : t) : Z * t * list event :=
  let request := mkFreeLoadBalancerRequest (adminToken r) (lbId r) in
  let status := cp_FreeLoadBalancer cp (stub_ r) request in
  let evs := [CallFreeLoadBalancer (stub_ r) request] in
  if negb (ok status) then (1, r, evs) else (0, r, evs).

(** [int LbReservation::LoadBalancerStatus()] *)
Definition LoadBalancerStatus (cp : ControlPlane) (r : t) : Z * t * list event :=
  let request := mkLoadBalancerStatusRequest (adminToken r) (lbId r) in
  let '(status, reply) := cp_LoadBalancerStatus cp (stub_ r) request in
  let evs := [CallLoadBalancerStatus (stub_ r) request] in
  if negb (ok status) then (1, r, evs)
  else (0, set_clientStats r (store_workers (clientStats r) (workers reply)), evs).

(** [static std::string ReserveLoadBalancer(cpIP, cpPort, lbName,
    adminToken, untilSeconds, useIPv6)]: the returned string, when the
    call has a defined result, and the exchanges performed. *)
Definition ReserveLoadBalancer_static (cp : ControlPlane) (cpIP : string)
    (cpPort0 : Z) (lbName0 adminToken0 : string) (untilSeconds0 : Z)
    (useIPv6 : bool) : option string * list event :=
  let cpPort1 := to_uint16 cpPort0 in
  let cpTarget := cpIP +:+ ":" +:+ to_string cpPort1 in
  let request := ReserveRequest_of adminToken0 lbName0 (to_int64 untilSeconds0) in
  let '(status, reply) := cp_ReserveLoadBalancer cp cpTarget request in
  let '(ipAddr, resolved) := cp_ip_addr cp cpIP useIPv6 in
  let evs := CallReserveLoadBalancer cpTarget request :: resolved in
  let syncIP := sync_ip reply ipAddr in
  if negb (ok status) then
    (sprintf_url (format_error (error_message status)), evs)
  else if useIPv6 then
    (sprintf_url (format_reserve_uri (rep_token reply) ipAddr cpPort1
                    (rep_lbid reply) (rep_dataipv6address reply) 19522
                    syncIP (rep_syncudpport reply)), evs)
  else
    (sprintf_url (format_reserve_uri (rep_token reply) ipAddr cpPort1
                    (rep_lbid reply) (rep_dataipv4address reply) 19522
                    syncIP (rep_syncudpport reply)), evs).

(** [static int FreeLoadBalancer(cpIP, cpPort, lbId, adminToken)] *)
Definition FreeLoadBalancer_static (cp : ControlPlane) (cpIP : string)
    (cpPort0 : Z) (lbId0 adminToken0 : string) : Z * list event :=
  let cpTarget := cpIP +:+ ":" +:+ to_string (to_uint16 cpPort0) in
  let request := mkFreeLoadBalancerRequest adminToken0 lbId0 in
  let status := cp_FreeLoadBalancer cp cpTarget request in
  let evs := [CallFreeLoadBalancer cpTarget request] in
  if negb (ok status) then (1, evs) else (0, evs).

(** [static int LoadBalancerStatus(cpIP, cpPort, lbId, adminToken,
    clientStats&)]: the result, the caller's map afterwards, and the
    exchanges performed. *)
Definition LoadBalancerStatus_static (cp : ControlPlane) (cpIP : string)
    (cpPort0 : Z) (lbId0 adminToken0 : string)
    (stats : gmap string LbClientStatus)
  : Z * gmap string LbClientStatus * list event :=
  let cpTarget := cpIP +:+ ":" +:+ to_string (to_uint16 cpPort0) in
  let request := mkLoadBalancerStatusRequest adminToken0 lbId0 in
  let '(status, reply) := cp_LoadBalancerStatus cp cpTarget request in
  let evs := [CallLoadBalancerStatus cpTarget request] in
  if negb (ok status) then (1, stats, evs)
  else (0, store_workers stats (workers reply), evs).

(** [static std::string GetLbUri(cpIP, cpPort, lbId, adminToken, useIPv6)] *)
Definition GetLbUri (cp : ControlPlane) (cpIP : string) (cpPort0 : Z)
    (lbId0 adminToken0 : string) (useIPv6 : bool) : option string * list event :=
  let cpPort1 := to_uint16 cpPort0 in
  let cpTarget := cpIP +:+ ":" +:+ to_string cpPort1 in
  let request := mkGetLoadBalancerRequest adminToken0 lbId0 in
  let '(status, reply) := cp_GetLoadBalancer cp cpTarget request in
  let '(ipAddr, resolved) := cp_ip_addr cp cpIP useIPv6 in
  let evs := CallGetLoadBalancer cpTarget request :: resolved in
  let syncIP := sync_ip reply ipAddr in
  if negb (ok status) then
    (sprintf_url (format_error (error_message status)), evs)
  else if useIPv6 then
    (sprintf_url (format_lookup_uri ipAddr cpPort1
                    (rep_lbid reply) (rep_dataipv6address reply) 19522
                    syncIP (rep_syncudpport reply)), evs)
  else
    (sprintf_url (format_lookup_uri ipAddr cpPort1
                    (rep_lbid reply) (rep_dataipv4address reply) 19522
                    syncIP (rep_syncudpport reply)), evs).

Definition getSyncAddr (r : t) : string := syncIpAddress r.

Definition getDataPort (r : t) : Z := 19522.

(** [bool LbReservation::reservationElapsed() const]; [now] is the clock
    reading taken inside the call. *)
Definition reservationElapsed (now : timespec) (r : t) : bool :=
  if tv_sec now >? untilSeconds r then true else false.

(** [bool LbReservation::reserved() const] *)
Definition reserved (now : timespec) (r : t) : bool :=
  isReserved r && negb (reservationElapsed now r).

Definition getClientStats (r : t) : gmap string LbClientStatus := clientStats r.

(** *** Histories of calls on one reservation object

    The two predicates are const members that read the clock and the
    object and nothing else: as calls they return their answer (1 for
    true), the object as it was, and no exchange. *)
Inductive call :=
| DoReserve (cp : ControlPlane)
| DoFree (cp : ControlPlane)
| DoStatus (cp : ControlPlane)
| DoReserved (now : timespec)
| DoReservationElapsed (now : timespec).

Definition step (r : t) (k : call) : Z * t * list event :=
  match k with
  | DoReserve cp => ReserveLoadBalancer cp r
  | DoFree cp => FreeLoadBalancer cp r
  | DoStatus cp => LoadBalancerStatus cp r
  | DoReserved now => (Z.b2z (reserved now r), r, [])
  | DoReservationElapsed now => (Z.b2z (reservationElapsed now r), r, [])
  end.

Fixpoint run (r : t) (ks : list call) : t * list event :=
  match ks with
  | [] => (r, [])
  | k :: ks' =>
      let '(_, r', evs) := step r k in
      let '(r'', evs') := run r' ks' in
      (r'', evs ++ evs')
  end.

Definition is_Reserve (k : call) : bool :=
  match k with DoReserve _ => true | _ => false end.

(** Whether some [ReserveLoadBalancer] of the history returned 0. *)
Fixpoint reserve_succeeded (r : t) (ks : list call) : bool :=
  match ks with
  | [] => false
  | k :: ks' =>
      let '(rc, r', _) := step r k in
      (match k with DoReserve _ => rc =? 0 | _ => false end)
      || reserve_succeeded r' ks'
  end.

End LbReservation.

(** ** Stub control planes and fixtures of the scenarios *)

(** A control plane that answers every call with the same status and
    the same replies, and resolves host names through [hosts]. *)
Definition stub_control_plane (status : Status) (reg : RegisterReply)
    (lb : ReserveLoadBalancerReply) (ws : list WorkerStatus)
    (hosts : string -> option (list string)) : ControlPlane :=
  {| cp_Register := fun _ _ => (status, reg);
     cp_Deregister := fun _ _ => status;
     cp_SendState := fun _ _ => status;
     cp_ReserveLoadBalancer := fun _ _ => (status, lb);
     cp_FreeLoadBalancer := fun _ _ => status;
     cp_LoadBalancerStatus := fun _ _ => (status, mkLoadBalancerStatusReply ws);
     cp_GetLoadBalancer := fun _ _ => (status, lb);
     getaddrinfo := hosts |}.

Definition no_hosts : string -> option (list string) := fun _ => None.

Definition UNAVAILABLE : Status := mkStatus 14 "failed to connect to all addresses".

(** A failure status with the kind of message gRPC reports when the
    target host name cannot be resolved. *)
Definition DNS_FAILURE : Status :=
  mkStatus 14
    ("DNS resolution failed for ejfat-lb.example.org:18347: UNAVAILABLE: "
     +:+ "errors resolving ejfat-lb.example.org:18347: "
     +:+ "[C-ares status is not ARES_SUCCESS qtype=A "
     +:+ "name=ejfat-lb.example.org is_balancer=0: Domain name not found; "
     +:+ "C-ares status is not ARES_SUCCESS qtype=AAAA "
     +:+ "name=ejfat-lb.example.org is_balancer=0: Domain name not found]").

Definition scenario_register_reply : RegisterReply :=
  {| regrep_token := "sess-token-1"; regrep_sessionid := "sess-42" |}.

(** The reply of the end-to-end reservation scenario. *)
Definition scenario_reply : ReserveLoadBalancerReply :=
  {| rep_token := "tok123";
     rep_lbid := "lb7";
     rep_syncipaddress := "10.0.0.1";
     rep_syncudpport := 18000;
     rep_dataipv4address := "10.0.0.5";
     rep_dataipv6address := "" |}.

Definition scenario_workers : list WorkerStatus :=
  [ mkWorkerStatus "be1" 25 1 128 (mkTimestamp 1700000000 250000000);
    mkWorkerStatus "be2" 75 2 384 (mkTimestamp 1700000001 999999999) ].

Definition scenario_cp : ControlPlane :=
  stub_control_plane OK scenario_register_reply scenario_reply
    scenario_workers no_hosts.

Definition failing_cp : ControlPlane :=
  stub_control_plane UNAVAILABLE scenario_register_reply scenario_reply
    scenario_workers no_hosts.

(** A resolver that knows one host name, with an IPv4 and an IPv6
    address. *)
Definition scenario_hosts (host : string) : option (list string) :=
  if String.eqb host "cp.example.org"
  then Some ["192.168.0.3"; "2001:db8:1:2:3:4:5:6"]
  else None.

Definition resolving_cp : ControlPlane :=
  stub_control_plane OK scenario_register_reply scenario_reply
    scenario_workers scenario_hosts.

(** The scenario reply with another sync address. *)
Definition with_sync (sync : string) : ReserveLoadBalancerReply :=
  {| rep_token := "tok123";
     rep_lbid := "lb7";
     rep_syncipaddress := sync;
     rep_syncudpport := 18000;
     rep_dataipv4address := "10.0.0.5";
     rep_dataipv6address := "" |}.

Definition unresolved_cp : ControlPlane :=
  stub_control_plane DNS_FAILURE scenario_register_reply scenario_reply
    scenario_workers no_hosts.

Definition scenario_client : LbControlPlaneClient.t :=
  LbControlPlaneClient.new "192.168.0.3" 18347 "192.168.0.10" 17750 0
    "be1" "tok123" "lb7" 1.

Definition scenario_now : timespec := mkTimespec 1700000000 0.

Definition scenario_reservation : LbReservation.t :=
  LbReservation.new "192.168.0.3" 18347 "test" "admin-token"
    (tv_sec scenario_now + 3600).

(** ** BackEnd

    The control plane's record of one registered backend.  [isReady]
    and [isActive] have no initialiser in the class and no assignment in
    the constructor: they are [None] until something assigns them. *)

Module BackEnd.

Record t := mk {
  adminToken : string;
  instanceToken : string;
  sessionId : string;
  name : string;
  lbId : string;
  weight : float;
  ipAddress : string;
  udpPort : Z;
  portRange : Z;
  timestamp : Timestamp;
  time : Z;
  localTime : Z;
  isReady : option bool;
  isActive : option bool }.

(** [BackEnd::BackEnd(const RegisterRequest* req)]; [udpPort] and
    [portRange] are [uint16_t] members. *)
Definition new (req : RegisterRequest) : t :=
  {| adminToken := reg_token req;
     instanceToken := "";
     sessionId := "";
     name := reg_name req;
     lbId := reg_lbid req;
     weight := reg_weight req;
     ipAddress := reg_ipaddress req;
     udpPort := to_uint16 (reg_udpport req);
     portRange := to_uint16 (reg_portrange req);
     timestamp := mkTimestamp 0 0;
     time := 0;
     localTime := 0;
     isReady := None;
     isActive := None |}.

(** [void BackEnd::update(const SendStateRequest* state)];
    [has_timestamp] is [state->has_timestamp()] and [now_ms] the local
    clock in milliseconds read inside the call. *)
Definition update (b : t) (state : SendStateRequest) (has_timestamp : bool)
    (now_ms : Z) : t :=
  {| adminToken := adminToken b;
     instanceToken := instanceToken b;
     sessionId := ss_sessionid state;
     name := name b;
     lbId := lbId b;
     weight := weight b;
     ipAddress := ipAddress b;
     udpPort := udpPort b;
     portRange := portRange b;
     timestamp := if has_timestamp then ss_timestamp state else timestamp b;
     time := if has_timestamp then TimestampToMilliseconds (ss_timestamp state)
             else time b;
     localTime := now_ms;
     isReady := isReady b;
     isActive := isActive b |}.

(** [void BackEnd::setIsActive(bool active)] *)
Definition setIsActive (b : t) (active : bool) : t :=
  {| adminToken := adminToken b;
     instanceToken := instanceToken b;
     sessionId := sessionId b;
     name := name b;
     lbId := lbId b;
     weight := weight b;
     ipAddress := ipAddress b;
     udpPort := udpPort b;
     portRange := portRange b;
     timestamp := timestamp b;
     time := time b;
     localTime := localTime b;
     isReady := isReady b;
     isActive := Some active |}.

Definition getName (b : t) : string := name b.
Definition getLbId (b : t) : string := lbId b.
Definition getAdminToken (b : t) : string := adminToken b.
Definition getSessionId (b : t) : string := sessionId b.
Definition getIpAddress (b : t) : string := ipAddress b.
Definition getWeight (b : t) : float := weight b.
Definition getUdpPort (b : t) : Z := udpPort b.
Definition getPortRange (b : t) : Z := portRange b.
Definition getTimestamp (b : t) : Timestamp := timestamp b.
Definition getTime (b : t) : Z := time b.
Definition getLocalTime (b : t) : Z := localTime b.
Definition getIsReady (b : t) : option bool := isReady b.
Definition getIsActive (b : t) : option bool := isActive b.

(** *** Histories of calls on one record *)
Inductive call :=
| DoUpdate (state : SendStateRequest) (has_timestamp : bool) (now_ms : Z)
| DoSetIsActive (active : bool).

Definition step (b : t) (k : call) : t :=
  match k with
  | DoUpdate state has_timestamp now_ms => update b state has_timestamp now_ms
  | DoSetIsActive active => setIsActive b active
  end.

Definition run (b : t) (ks : list call) : t := fold_left step ks b.

End BackEnd.

(** ** Reading a history of client calls

    What a history of calls on a [LbControlPlaneClient] contains, read
    off the calls themselves: the reply of the last [Register] the
    control plane accepted, the values of the last [update], the calls
    that perform an exchange. *)

Module ClientHistory.

Import LbControlPlaneClient.

Definition registration_of (c0 : t) (k : call) : option RegisterReply :=
  match k with
  | DoRegister cp =>
      let '(status, reply) := cp_Register cp (stub_ c0) (RegisterRequest_of c0) in
      if ok status then Some reply else None
  | _ => None
  end.

Fixpoint last_registration (c0 : t) (ks : list call) : option RegisterReply :=
  match ks with
  | [] => None
  | k :: ks' =>
      match last_registration c0 ks' with
      | Some reply => Some reply
      | None => registration_of c0 k
      end
  end.

Fixpoint last_update (ks : list call) : option (float * float * bool) :=
  match ks with
  | [] => None
  | k :: ks' =>
      match last_update ks' with
      | Some u => Some u
      | None =>
          match k with
          | DoUpdate fill pidErr ready => Some (fill, pidErr, ready)
          | _ => None
          end
      end
  end.

Definition is_exchange (k : call) : bool :=
  match k with DoUpdate _ _ _ => false | _ => true end.

End ClientHistory.

(** The channel target an exchange goes to ([None] for a host lookup). *)
Definition target_of (ev : event) : option string :=
  match ev with
  | CallRegister target _ => Some target
  | CallDeregister target _ => Some target
  | CallSendState target _ => Some target
  | CallReserveLoadBalancer target _ => Some target
  | CallFreeLoadBalancer target _ => Some target
  | CallLoadBalancerStatus target _ => Some target
  | CallGetLoadBalancer target _ => Some target
  | Resolve _ => None
  end.

(** What a history of calls on a [BackEnd] contains: the last state
    message, the last one that had a timestamp, the last activity flag. *)

Module BackEndHistory.

Import BackEnd.

Fixpoint last_state (ks : list call) : option (SendStateRequest * Z) :=
  match ks with
  | [] => None
  | k :: ks' =>
      match last_state ks' with
      | Some u => Some u
      | None =>
          match k with
          | DoUpdate state _ now_ms => Some (state, now_ms)
          | DoSetIsActive _ => None
          end
      end
  end.

Fixpoint last_timestamp (ks : list call) : option Timestamp :=
  match ks with
  | [] => None
  | k :: ks' =>
      match last_timestamp ks' with
      | Some ts => Some ts
      | None =>
          match k with
          | DoUpdate state true _ => Some (ss_timestamp state)
          | _ => None
          end
      end
  end.

Fixpoint last_active (ks : list call) : option bool :=
  match ks with
  | [] => None
  | k :: ks' =>
      match last_active ks' with
      | Some a => Some a
      | None =>
          match k with
          | DoSetIsActive active => Some active
          | DoUpdate _ _ _ => None
          end
      end
  end.

End BackEndHistory.

(** What a history of calls on a [LbReservation] contains. *)

Module ReservationHistory.

Import LbReservation.

Definition reservation_of (r0 : t) (k : call) : option ReserveLoadBalancerReply :=
  match k with
  | DoReserve cp =>
      let '(status, reply) :=
        cp_ReserveLoadBalancer cp (stub_ r0)
          (ReserveRequest_of (adminToken r0) (lbName r0) (untilSeconds r0)) in
      if ok status then Some reply else None
  | _ => None
  end.

Fixpoint last_reservation (r0 : t) (ks : list call)
  : option ReserveLoadBalancerReply :=
  match ks with
  | [] => None
  | k :: ks' =>
      match last_reservation r0 ks' with
      | Some reply => Some reply
      | None => reservation_of r0 k
      end
  end.

Definition is_exchange (k : call) : bool :=
  match k with
  | DoReserve _ | DoFree _ | DoStatus _ => true
  | DoReserved _ | DoReservationElapsed _ => false
  end.

Definition is_Status (k : call) : bool :=
  match k with DoStatus _ => true | _ => false end.

(** The fields a reservation reply is stored in, as a tuple. *)
Definition granted (r : t)
  : bool * string * string * string * Z * string * string :=
  (isReserved r, instanceToken r, lbId r, syncIpAddress r, syncUdpPort r,
   dataIpv4Address r, dataIpv6Address r).

End ReservationHistory.

(** ** The shortest word of a pattern *)

Fixpoint min_len (r : regex) : nat :=
  match r with
  | Void => 0
  | Eps => 0
  | Class _ => 1
  | Seq r1 r2 => min_len r1 + min_len r2
  | Alt r1 r2 => Nat.min (min_len r1) (min_len r2)
  end.

(** The characters of a dotted quad, and of a colon-separated address. *)
Definition is_ipv4_char (c : ascii) : bool := is_digit c || Ascii.eqb c ".".

Definition is_ipv6_char (c : ascii) : bool := is_hex_digit c || Ascii.eqb c ":".

(** ** The earlier revisions of lb_cplane.cc

    The functions of the two earlier revisions of the file that differ
    from the current ones: [update] without the readiness argument, and
    the two [ReserveLoadBalancer] before host names were resolved and a
    short sync address was replaced. *)

Module Legacy.

(** [void LbControlPlaneClient::update(float fill, float pidErr)] *)
Definition update (c : LbControlPlaneClient.t) (fill pidErr : float)
  : LbControlPlaneClient.t :=
  {| LbControlPlaneClient.stub_ := LbControlPlaneClient.stub_ c;
     LbControlPlaneClient.cpAddr := LbControlPlaneClient.cpAddr c;
     LbControlPlaneClient.cpPort := LbControlPlaneClient.cpPort c;
     LbControlPlaneClient.token := LbControlPlaneClient.token c;
     LbControlPlaneClient.name := LbControlPlaneClient.name c;
     LbControlPlaneClient.lbId := LbControlPlaneClient.lbId c;
     LbControlPlaneClient.weight := LbControlPlaneClient.weight c;
     LbControlPlaneClient.beAddr := LbControlPlaneClient.beAddr c;
     LbControlPlaneClient.bePort := LbControlPlaneClient.bePort c;
     LbControlPlaneClient.beRange := LbControlPlaneClient.beRange c;
     LbControlPlaneClient.sessionToken := LbControlPlaneClient.sessionToken c;
     LbControlPlaneClient.sessionId := LbControlPlaneClient.sessionId c;
     LbControlPlaneClient.fillPercent := fill;
     LbControlPlaneClient.pidError := pidErr;
     LbControlPlaneClient.isReady := true |}.

(** *** Histories of calls on one client of the earlier revision

    [Register], [SendState] and [Deregister] are those of the current
    revision, unchanged since. *)
Inductive call :=
| DoUpdate (fill pidErr : float)
| DoRegister (cp : ControlPlane)
| DoSendState (cp : ControlPlane) (t1 : timespec)
| DoDeregister (cp : ControlPlane).

Definition step (c : LbControlPlaneClient.t) (k : call)
  : Z * LbControlPlaneClient.t * list event :=
  match k with
  | DoUpdate fill pidErr => (0, update c fill pidErr, [])
  | DoRegister cp => LbControlPlaneClient.Register cp c
  | DoSendState cp t1 => LbControlPlaneClient.SendState cp t1 c
  | DoDeregister cp => LbControlPlaneClient.Deregister cp c
  end.

Fixpoint run (c : LbControlPlaneClient.t) (ks : list call)
  : LbControlPlaneClient.t * list event :=
  match ks with
  | [] => (c, [])
  | k :: ks' =>
      let '(_, c', evs) := step c k in
      let '(c'', evs') := run c' ks' in
      (c'', evs ++ evs')
  end.

(** The same call on a client of the current revision, where [update]
    takes the readiness, true when left out. *)
Definition upgrade (k : call) : LbControlPlaneClient.call :=
  match k with
  | DoUpdate fill pidErr => LbControlPlaneClient.DoUpdate fill pidErr true
  | DoRegister cp => LbControlPlaneClient.DoRegister cp
  | DoSendState cp t1 => LbControlPlaneClient.DoSendState cp t1
  | DoDeregister cp => LbControlPlaneClient.DoDeregister cp
  end.

(** A state report that says the backend is ready, or another exchange. *)
Definition reports_ready (ev : event) : bool :=
  match ev with
  | CallSendState _ req => ss_isready req
  | _ => true
  end.

(** [int LbReservation::ReserveLoadBalancer()] *)
Definition ReserveLoadBalancer (cp : ControlPlane) (r : LbReservation.t)
  : Z * LbReservation.t * list event :=
  let request :=
    LbReservation.ReserveRequest_of (LbReservation.adminToken r)
      (LbReservation.lbName r) (LbReservation.untilSeconds r) in
  let '(status, reply) :=
    cp_ReserveLoadBalancer cp (LbReservation.stub_ r) request in
  let evs := [CallReserveLoadBalancer (LbReservation.stub_ r) request] in
  if negb (ok status) then (1, r, evs)
  else (0, LbReservation.set_reservation r reply (rep_syncipaddress reply), evs).

(** [static std::string ReserveLoadBalancer(cpIP, cpPort, lbName,
    adminToken, untilSeconds, ipv6)] *)
Definition ReserveLoadBalancer_static (cp : ControlPlane) (cpIP : string)
    (cpPort0 : Z) (lbName0 adminToken0 : string) (untilSeconds0 : Z)
    (ipv6 : bool) : option string * list event :=
  let cpPort1 := to_uint16 cpPort0 in
  let cpTarget := cpIP +:+ ":" +:+ to_string cpPort1 in
  let request :=
    LbReservation.ReserveRequest_of adminToken0 lbName0 (to_int64 untilSeconds0) in
  let '(status, reply) := cp_ReserveLoadBalancer cp cpTarget request in
  let evs := [CallReserveLoadBalancer cpTarget request] in
  if negb (ok status) then
    (sprintf_url (format_error (error_message status)), evs)
  else if ipv6 then
    (sprintf_url (format_reserve_uri (rep_token reply) cpIP cpPort1
                    (rep_lbid reply) (rep_dataipv6address reply) 19522
                    (rep_syncipaddress reply) (rep_syncudpport reply)), evs)
  else
    (sprintf_url (format_reserve_uri (rep_token reply) cpIP cpPort1
                    (rep_lbid reply) (rep_dataipv4address reply) 19522
                    (rep_syncipaddress reply) (rep_syncudpport reply)), evs).

End Legacy.


(** A resolver that knows one host name, with an IPv4 address only. *)
Definition ipv4_only_hosts (host : string) : option (list string) :=
  if String.eqb host "lb.example.org" then Some ["10.1.2.3"] else None.

Definition ipv4_only_cp : ControlPlane :=
  stub_control_plane OK scenario_register_reply scenario_reply
    scenario_workers ipv4_only_hosts.

(** * Properties *)

(** ** Backend session client *)

Section ClientFacts.

Import LbControlPlaneClient.

Implicit Types (c : t) (cp : ControlPlane) (k : call) (ks : list call).

Lemma Register_events cp c :
  snd (Register cp c) = [CallRegister (stub_ c) (RegisterRequest_of c)].
Proof.
  unfold Register; cbv zeta.
  destruct (cp_Register cp (stub_ c) (RegisterRequest_of c)) as [status reply].
  destruct (ok status); reflexivity.
Qed.

Lemma SendState_unfold cp t1 c :
  SendState cp t1 c =
  (if ok (cp_SendState cp (stub_ c) (SendStateRequest_of c t1)) then 0 else 1,
   c, [CallSendState (stub_ c) (SendStateRequest_of c t1)]).
Proof. unfold SendState. destruct (ok _); reflexivity. Qed.

Lemma Deregister_unfold cp c :
  Deregister cp c =
  (if ok (cp_Deregister cp (stub_ c) (DeregisterRequest_of c)) then 0 else 1,
   c, [CallDeregister (stub_ c) (DeregisterRequest_of c)]).
Proof. unfold Deregister. destruct (ok _); reflexivity. Qed.

(** What one call does to the session credentials: nothing, unless it is
    a [Register] that returns 0, which installs the reply's pair. *)
Lemma step_session c k :
  let '(rc, c', _) := step c k in
  (sessionId c' = sessionId c /\ sessionToken c' = sessionToken c)
  \/ exists cp,
       k = DoRegister cp
       /\ rc = 0
       /\ ok (fst (cp_Register cp (stub_ c) (RegisterRequest_of c))) = true
       /\ sessionId c' =
            regrep_sessionid (snd (cp_Register cp (stub_ c) (RegisterRequest_of c)))
       /\ sessionToken c' =
            regrep_token (snd (cp_Register cp (stub_ c) (RegisterRequest_of c))).
Proof.
  destruct k as [fill pidErr ready | cp | cp t1 | cp]; simpl.
  - left; split; reflexivity.
  - unfold Register; cbv zeta.
    destruct (cp_Register cp (stub_ c) (RegisterRequest_of c))
      as [status reply] eqn:Hcall.
    destruct (ok status) eqn:Hok; cbv beta iota; cbn [negb fst snd].
    + right. exists cp. rewrite Hcall; cbn [fst snd]. rewrite Hok.
      repeat split; reflexivity.
    + left; split; reflexivity.
  - rewrite SendState_unfold. left; split; reflexivity.
  - rewrite Deregister_unfold. left; split; reflexivity.
Qed.

(** A history without a successful [Register] leaves the credentials as
    they were. *)
Lemma run_keeps_session ks : forall c,
  registered c ks = false ->
  sessionId (fst (run c ks)) = sessionId c
  /\ sessionToken (fst (run c ks)) = sessionToken c.
Proof.
  induction ks as [|k ks IH]; intros c Hreg; simpl in *.
  - split; reflexivity.
  - pose proof (step_session c k) as Hstep.
    destruct (step c k) as [[rc c'] evs].
    apply orb_false_iff in Hreg as [Hk Hrest].
    specialize (IH c' Hrest).
    destruct (run c' ks) as [c'' evs']; simpl in *.
    destruct Hstep as [[Hid Htok] | (cp & -> & -> & _)].
    + destruct IH as [IH1 IH2]. split; congruence.
    + discriminate Hk.
Qed.

(** Every [SendState] and [Deregister] of a history without a successful
    [Register] carries the credentials the object started with. *)
Lemma run_carries_session ks : forall c,
  registered c ks = false ->
  Forall (fun ev => forall p, session_of ev = Some p ->
                              p = (sessionId c, sessionToken c))
         (snd (run c ks)).
Proof.
  induction ks as [|k ks IH]; intros c Hreg; simpl in *.
  - constructor.
  - pose proof (step_session c k) as Hstep.
    assert (Hevs : Forall (fun ev => forall p, session_of ev = Some p ->
                              p = (sessionId c, sessionToken c))
                     (snd (step c k))).
    { destruct k as [fill pidErr ready | cp | cp t1 | cp]; simpl.
      - constructor.
      - rewrite Register_events. constructor; [|constructor].
        intros p Hp; discriminate Hp.
      - rewrite SendState_unfold; simpl. constructor; [|constructor].
        intros p Hp; simpl in Hp. congruence.
      - rewrite Deregister_unfold; simpl. constructor; [|constructor].
        intros p Hp; simpl in Hp. congruence. }
    destruct (step c k) as [[rc c'] evs].
    apply orb_false_iff in Hreg as [Hk Hrest].
    specialize (IH c' Hrest).
    destruct (run c' ks) as [c'' evs']; simpl in *.
    apply Forall_app; split; [exact Hevs|].
    destruct Hstep as [[Hid Htok] | (cp & -> & -> & _)].
    + rewrite Hid, Htok in IH. exact IH.
    + discriminate Hk.
Qed.

(** C2, as the specification states it, fails: on a freshly constructed
    client, on which [Register] was never called, [SendState] performs
    the exchange (with empty session id and token) and returns 0 when
    the control plane accepts it; it neither fails nor stays off the
    network. *)
Lemma SendState_before_Register_counterexample :
  registered scenario_client [DoUpdate 40 3 true] = false
  /\ SendState scenario_cp scenario_now
       (fst (run scenario_client [DoUpdate 40 3 true]))
     = (0, fst (run scenario_client [DoUpdate 40 3 true]),
        [CallSendState "192.168.0.3:18347"
           {| ss_token := ""; ss_lbid := "lb7"; ss_sessionid := "";
              ss_timestamp := mkTimestamp 1700000000 0;
              ss_fillpercent := 40; ss_controlsignal := 3;
              ss_isready := true |}])
  /\ ~ (fst (fst (SendState scenario_cp scenario_now
                    (fst (run scenario_client [DoUpdate 40 3 true])))) <> 0
        /\ snd (SendState scenario_cp scenario_now
                  (fst (run scenario_client [DoUpdate 40 3 true]))) = []).
Proof.
  split; [reflexivity|]. split; [reflexivity|].
  intros [Hrc _]. apply Hrc. reflexivity.
Qed.

(** C2, amended: after any history of calls on a new client in which no
    [Register] has succeeded, [SendState] still performs exactly one
    SendState exchange; the request carries the stored session id and
    session token, which are both empty; the call returns 0 when the
    reply status is OK and 1 otherwise, and leaves the object as it
    was. *)
Theorem SendState_before_Register
    cpIP cpPort0 beIP bePort0 beRange0 cliName token0 lbId0 weight0 ks cp t1 :
  let c0 := new cpIP cpPort0 beIP bePort0 beRange0 cliName token0 lbId0 weight0 in
  registered c0 ks = false ->
  let c := fst (run c0 ks) in
  let request := SendStateRequest_of c t1 in
  SendState cp t1 c =
    (if ok (cp_SendState cp (stub_ c) request) then 0 else 1,
     c, [CallSendState (stub_ c) request])
  /\ ss_sessionid request = ""
  /\ ss_token request = "".
Proof.
  intros c0 Hreg c request.
  destruct (run_keeps_session ks c0 Hreg) as [Hid Htok].
  split; [apply SendState_unfold|].
  split; [exact Hid | exact Htok].
Qed.

Lemma SendState_before_Register_witness :
  registered scenario_client [DoUpdate 40 3 true; DoRegister failing_cp] = false
  /\ ss_sessionid
       (SendStateRequest_of
          (fst (run scenario_client [DoUpdate 40 3 true; DoRegister failing_cp]))
          scenario_now) = "".
Proof.
  split; [reflexivity|].
  apply (SendState_before_Register "192.168.0.3" 18347 "192.168.0.10" 17750 0
           "be1" "tok123" "lb7" 1
           [DoUpdate 40 3 true; DoRegister failing_cp] scenario_cp scenario_now).
  reflexivity.
Defined.

(** C6: when the Register exchange fails, [Register] returns 1 and the
    object, its session id and session token included, is exactly what
    it was; and whatever call is made on a client, its session id and
    session token either stay as they were or are the pair found in the
    reply of a [Register] that returned 0. *)
Theorem Register_failure_keeps_session cp c :
  ok (fst (cp_Register cp (stub_ c) (RegisterRequest_of c))) = false ->
  Register cp c = (1, c, [CallRegister (stub_ c) (RegisterRequest_of c)])
  /\ forall c1 k,
       (sessionId (snd (fst (step c1 k))) = sessionId c1
        /\ sessionToken (snd (fst (step c1 k))) = sessionToken c1)
       \/ exists cp1,
            k = DoRegister cp1
            /\ fst (fst (step c1 k)) = 0
            /\ ok (fst (cp_Register cp1 (stub_ c1) (RegisterRequest_of c1))) = true
            /\ sessionId (snd (fst (step c1 k))) =
                 regrep_sessionid
                   (snd (cp_Register cp1 (stub_ c1) (RegisterRequest_of c1)))
            /\ sessionToken (snd (fst (step c1 k))) =
                 regrep_token
                   (snd (cp_Register cp1 (stub_ c1) (RegisterRequest_of c1))).
Proof.
  intros Hfail. split.
  - unfold Register; cbv zeta.
    destruct (cp_Register cp (stub_ c) (RegisterRequest_of c)) as [status reply].
    cbn [fst] in Hfail. rewrite Hfail. reflexivity.
  - intros c1 k. pose proof (step_session c1 k) as Hstep.
    destruct (step c1 k) as [[rc c'] evs]. exact Hstep.
Qed.

Lemma Register_failure_keeps_session_witness :
  Register failing_cp
    (set_session scenario_client "sess-7" "sess-token-7")
  = (1, set_session scenario_client "sess-7" "sess-token-7",
     [CallRegister "192.168.0.3:18347"
        (RegisterRequest_of scenario_client)]).
Proof.
  apply (Register_failure_keeps_session failing_cp
           (set_session scenario_client "sess-7" "sess-token-7")).
  reflexivity.
Defined.

(** C8: a [Register] whose exchange succeeds returns 0 and stores the
    reply's session id and token; in every later history of calls in
    which no further [Register] succeeds, each SendState and each
    Deregister request carries exactly that pair; in particular a
    [SendState] followed by a [Deregister] sends the two requests
    written out below. *)
Theorem Register_SendState_Deregister cp c ks cp2 t2 cp3 :
  ok (fst (cp_Register cp (stub_ c) (RegisterRequest_of c))) = true ->
  let reply := snd (cp_Register cp (stub_ c) (RegisterRequest_of c)) in
  let c1 := snd (fst (Register cp c)) in
  registered c1 ks = false ->
  fst (fst (Register cp c)) = 0
  /\ sessionId c1 = regrep_sessionid reply
  /\ sessionToken c1 = regrep_token reply
  /\ Forall (fun ev => forall p, session_of ev = Some p ->
                p = (regrep_sessionid reply, regrep_token reply))
            (snd (run c1 ks))
  /\ snd (run c1 [DoSendState cp2 t2; DoDeregister cp3]) =
       [CallSendState (stub_ c)
          {| ss_token := regrep_token reply; ss_lbid := lbId c;
             ss_sessionid := regrep_sessionid reply;
             ss_timestamp := mkTimestamp (tv_sec t2) (tv_nsec t2);
             ss_fillpercent := fillPercent c;
             ss_controlsignal := pidError c;
             ss_isready := isReady c |};
        CallDeregister (stub_ c)
          {| dereg_token := regrep_token reply; dereg_lbid := lbId c;
             dereg_sessionid := regrep_sessionid reply |}].
Proof.
  intros Hok reply c1 Hreg.
  assert (Hc1 : Register cp c =
                (0, set_session c (regrep_sessionid reply) (regrep_token reply),
                 [CallRegister (stub_ c) (RegisterRequest_of c)])).
  { subst reply. unfold Register; cbv zeta.
    destruct (cp_Register cp (stub_ c) (RegisterRequest_of c)) as [status rp].
    cbn [fst snd] in *. rewrite Hok. reflexivity. }
  assert (Hc1' : c1 = set_session c (regrep_sessionid reply) (regrep_token reply)).
  { subst c1. rewrite Hc1. reflexivity. }
  split; [rewrite Hc1; reflexivity|].
  split; [rewrite Hc1'; reflexivity|].
  split; [rewrite Hc1'; reflexivity|].
  split.
  - pose proof (run_carries_session ks c1 Hreg) as Hall.
    assert (Hid : sessionId c1 = regrep_sessionid reply)
      by (rewrite Hc1'; reflexivity).
    assert (Htok : sessionToken c1 = regrep_token reply)
      by (rewrite Hc1'; reflexivity).
    rewrite Hid, Htok in Hall. exact Hall.
  - rewrite Hc1'. cbn [run step].
    rewrite SendState_unfold, Deregister_unfold. reflexivity.
Qed.

Lemma Register_SendState_Deregister_witness :
  snd (run (snd (fst (Register scenario_cp scenario_client)))
           [DoSendState scenario_cp scenario_now; DoDeregister scenario_cp])
  = [CallSendState "192.168.0.3:18347"
       {| ss_token := "sess-token-1"; ss_lbid := "lb7";
          ss_sessionid := "sess-42";
          ss_timestamp := mkTimestamp 1700000000 0;
          ss_fillpercent := 0; ss_controlsignal := 0; ss_isready := true |};
     CallDeregister "192.168.0.3:18347"
       {| dereg_token := "sess-token-1"; dereg_lbid := "lb7";
          dereg_sessionid := "sess-42" |}].
Proof.
  apply (Register_SendState_Deregister scenario_cp scenario_client
           [DoUpdate 40 3 true; DoSendState scenario_cp scenario_now;
            DoRegister failing_cp; DoDeregister scenario_cp]
           scenario_cp scenario_now scenario_cp).
  - reflexivity.
  - reflexivity.
Defined.

End ClientFacts.

(** ** Reservation client *)

Section ReservationFacts.

Import LbReservation.

Implicit Types (r : t) (cp : ControlPlane) (k : call) (ks : list call).

Lemma FreeLoadBalancer_unfold cp r :
  FreeLoadBalancer cp r =
  (if ok (cp_FreeLoadBalancer cp (stub_ r)
            (mkFreeLoadBalancerRequest (adminToken r) (lbId r)))
   then 0 else 1,
   r,
   [CallFreeLoadBalancer (stub_ r)
      (mkFreeLoadBalancerRequest (adminToken r) (lbId r))]).
Proof. unfold FreeLoadBalancer. destruct (ok _); reflexivity. Qed.

Lemma ReserveLoadBalancer_failure cp r :
  ok (fst (cp_ReserveLoadBalancer cp (stub_ r)
             (ReserveRequest_of (adminToken r) (lbName r) (untilSeconds r))))
    = false ->
  ReserveLoadBalancer cp r =
  (1, r,
   [CallReserveLoadBalancer (stub_ r)
      (ReserveRequest_of (adminToken r) (lbName r) (untilSeconds r))]).
Proof.
  intros Hfail. unfold ReserveLoadBalancer; cbv zeta.
  destruct (cp_ReserveLoadBalancer _ _ _) as [status reply].
  cbn [fst] in Hfail. rewrite Hfail. reflexivity.
Qed.

Lemma ReserveLoadBalancer_success cp r :
  ok (fst (cp_ReserveLoadBalancer cp (stub_ r)
             (ReserveRequest_of (adminToken r) (lbName r) (untilSeconds r))))
    = true ->
  let reply :=
    snd (cp_ReserveLoadBalancer cp (stub_ r)
           (ReserveRequest_of (adminToken r) (lbName r) (untilSeconds r))) in
  ReserveLoadBalancer cp r =
  (0, set_reservation r reply (sync_ip reply (cpAddr r)),
   [CallReserveLoadBalancer (stub_ r)
      (ReserveRequest_of (adminToken r) (lbName r) (untilSeconds r))]).
Proof.
  intros Hok reply. subst reply. unfold ReserveLoadBalancer; cbv zeta.
  destruct (cp_ReserveLoadBalancer _ _ _) as [status reply].
  cbn [fst snd] in *. rewrite Hok. reflexivity.
Qed.

(** One call never changes the expiry instant, and raises the reserved
    flag exactly when it is a [ReserveLoadBalancer] returning 0. *)
Lemma step_flag r k :
  let '(rc, r', _) := step r k in
  untilSeconds r' = untilSeconds r
  /\ isReserved r' =
       isReserved r || match k with DoReserve _ => rc =? 0 | _ => false end.
Proof.
  destruct k as [cp | cp | cp | now | now]; cbn [step].
  4, 5: split; [reflexivity | apply eq_sym, orb_false_r].
  - unfold ReserveLoadBalancer; cbv zeta.
    destruct (cp_ReserveLoadBalancer _ _ _) as [status reply].
    destruct (ok status); cbn [negb]; cbv beta iota.
    + split; [reflexivity|]. cbn. apply eq_sym, orb_true_r.
    + split; [reflexivity|]. cbn. apply eq_sym, orb_false_r.
  - rewrite FreeLoadBalancer_unfold. split; [reflexivity|].
    apply eq_sym, orb_false_r.
  - unfold LoadBalancerStatus; cbv zeta.
    destruct (cp_LoadBalancerStatus _ _ _) as [status reply].
    destruct (ok status); cbn [negb]; cbv beta iota;
      (split; [reflexivity|]); cbn; apply eq_sym, orb_false_r.
Qed.

Lemma run_flag ks : forall r,
  untilSeconds (fst (run r ks)) = untilSeconds r
  /\ isReserved (fst (run r ks)) = isReserved r || reserve_succeeded r ks.
Proof.
  induction ks as [|k ks IH]; intros r; cbn [run reserve_succeeded].
  - split; [reflexivity|]. apply eq_sym, orb_false_r.
  - pose proof (step_flag r k) as Hstep.
    destruct (step r k) as [[rc r'] evs].
    destruct Hstep as [Hu Hf].
    destruct (IH r') as [IHu IHf].
    destruct (run r' ks) as [r'' evs']; cbn [fst] in *.
    split; [congruence|].
    rewrite IHf, Hf. apply eq_sym, orb_assoc.
Qed.

Lemma reserve_succeeded_without_Reserve ks : forall r,
  reserve_succeeded r (List.filter (fun k => negb (is_Reserve k)) ks) = false.
Proof.
  induction ks as [|k ks IH]; intros r; [reflexivity|].
  destruct k as [cp | cp | cp | now | now]; cbn [List.filter is_Reserve negb];
    [apply IH | | | | ];
    cbn [reserve_succeeded];
    match goal with
    | |- context [step r ?k] => destruct (step r k) as [[rc r'] evs]
    end;
    cbn [orb]; apply IH.
Qed.

(** C3: on an object built by the constructor and driven through any
    history of calls (reservations, frees, status polls and earlier
    reads of the two predicates), [reserved] read at clock [now] is true
    exactly when some [ReserveLoadBalancer] of the history returned 0
    and the seconds of [now] do not exceed the stored expiry instant,
    which is the one given to the constructor; it is false on the new
    object and after any history without a [ReserveLoadBalancer] call;
    a read performs no exchange and leaves the object as it
    was, and each read answers for its own clock reading: true at the
    expiry instant, false one second later; [reservationElapsed] is
    true exactly when the seconds of [now] exceed the expiry instant. *)
Theorem reserved_iff cpIP cpPort0 name admintoken until ks now :
  let r0 := new cpIP cpPort0 name admintoken until in
  let r := fst (run r0 ks) in
  reserved now r = reserve_succeeded r0 ks && (tv_sec now <=? untilSeconds r)
  /\ reservationElapsed now r = (untilSeconds r <? tv_sec now)
  /\ untilSeconds r = to_int64 until
  /\ reserved now r0 = false
  /\ reserved now
       (fst (run r0 (List.filter (fun k => negb (is_Reserve k)) ks))) = false
  /\ step r (DoReserved now) = (Z.b2z (reserved now r), r, [])
  /\ step r (DoReservationElapsed now) =
       (Z.b2z (reservationElapsed now r), r, [])
  /\ reserved (mkTimespec (untilSeconds r) 0) r = reserve_succeeded r0 ks
  /\ reserved (mkTimespec (untilSeconds r + 1) 0)
       (snd (fst (step r (DoReserved (mkTimespec (untilSeconds r) 0)))))
     = false.
Proof.
  intros r0 r.
  destruct (run_flag ks r0) as [Hu Hf]. fold r in Hu, Hf.
  assert (Hel : forall t, reservationElapsed t r = (untilSeconds r <? tv_sec t)).
  { intros t. unfold reservationElapsed.
    rewrite Z.gtb_ltb. destruct (_ <? _); reflexivity. }
  assert (Hres : forall t, reserved t r =
                   reserve_succeeded r0 ks && (tv_sec t <=? untilSeconds r)).
  { intros t. unfold reserved. rewrite Hel, Hf. cbn [isReserved r0 new orb].
    f_equal. rewrite Z.leb_antisym. reflexivity. }
  split; [apply Hres|]. split; [apply Hel|]. split; [exact Hu|].
  split; [reflexivity|].
  split.
  { unfold reserved.
    destruct (run_flag (List.filter (fun k => negb (is_Reserve k)) ks) r0) as [_ ->].
    rewrite reserve_succeeded_without_Reserve. reflexivity. }
  split; [reflexivity|]. split; [reflexivity|].
  split.
  - rewrite Hres. cbn [tv_sec]. rewrite Z.leb_refl. apply andb_true_r.
  - cbn [step fst snd]. rewrite Hres. cbn [tv_sec].
    replace (untilSeconds r + 1 <=? untilSeconds r) with false
      by (symmetry; apply Z.leb_gt; lia).
    apply andb_false_r.
Qed.

(** C9: [FreeLoadBalancer], whatever the control plane answers, returns
    the object exactly as it was, reserved flag and stored reservation
    fields included, so [reserved] answers as before the call; after a
    successful reservation and a successful free the scenario object
    still reports itself reserved until the expiry instant has passed. *)
Theorem FreeLoadBalancer_keeps_reservation cp r now :
  snd (fst (FreeLoadBalancer cp r)) = r
  /\ isReserved (snd (fst (FreeLoadBalancer cp r))) = isReserved r
  /\ reserved now (snd (fst (FreeLoadBalancer cp r))) = reserved now r
  /\ fst (fst (step (fst (run scenario_reservation [DoReserve scenario_cp]))
                 (DoFree scenario_cp))) = 0
  /\ reserved scenario_now
       (fst (run scenario_reservation [DoReserve scenario_cp; DoFree scenario_cp]))
     = true
  /\ reserved (mkTimespec (tv_sec scenario_now + 3601) 0)
       (fst (run scenario_reservation [DoReserve scenario_cp; DoFree scenario_cp]))
     = false.
Proof.
  rewrite FreeLoadBalancer_unfold. cbn [fst snd].
  repeat split; reflexivity.
Qed.

End ReservationFacts.

(** ** Client Stats *)

Section StatsFacts.

Implicit Types (m : gmap string LbClientStatus) (w : WorkerStatus)
  (ws : list WorkerStatus) (n : string).

(** The five assignments of one loop iteration overwrite every field, so
    the entry that was there (or the default one) does not show. *)
Lemma store_worker_insert m w :
  store_worker m w = <[w_name w := snapshot_of w]> m.
Proof.
  unfold store_worker; cbv zeta.
  destruct (m !! w_name w) as [old|]; reflexivity.
Qed.

Lemma store_worker_lookup m w n :
  store_worker m w !! n =
  if String.eqb (w_name w) n then Some (snapshot_of w) else m !! n.
Proof.
  rewrite store_worker_insert.
  destruct (String.eqb_spec (w_name w) n) as [->|Hne].
  - apply lookup_insert_eq.
  - apply lookup_insert_ne. exact Hne.
Qed.

Lemma store_workers_lookup ws : forall m n,
  store_workers m ws !! n =
  match last_named n ws with
  | Some w => Some (snapshot_of w)
  | None => m !! n
  end.
Proof.
  induction ws as [|w ws IH]; intros m n; cbn [store_workers fold_left last_named].
  - reflexivity.
  - fold (store_workers (store_worker m w) ws). rewrite IH.
    destruct (last_named n ws) as [w'|]; [reflexivity|].
    rewrite store_worker_lookup.
    destruct (String.eqb (w_name w) n); reflexivity.
Qed.

Lemma last_named_name n ws w :
  last_named n ws = Some w -> w_name w = n /\ In w ws.
Proof.
  induction ws as [|w0 ws IH]; cbn [last_named]; [discriminate|].
  destruct (last_named n ws) as [w'|].
  - intros [= <-]. destruct (IH eq_refl) as [Hn Hin].
    split; [exact Hn | right; exact Hin].
  - destruct (String.eqb_spec (w_name w0) n) as [Heq|Hne]; [|discriminate].
    intros [= <-]. split; [exact Heq | left; reflexivity].
Qed.

Lemma last_named_In ws w :
  In w ws -> exists w', last_named (w_name w) ws = Some w'.
Proof.
  induction ws as [|w0 ws IH]; cbn [last_named In]; [intros []|].
  intros [-> | Hin].
  - destruct (last_named (w_name w) ws) as [w'|]; [eauto|].
    rewrite String.eqb_refl. eauto.
  - destruct (IH Hin) as [w' ->]. eauto.
Qed.

Lemma last_named_NoDup ws w :
  List.NoDup (map w_name ws) -> In w ws -> last_named (w_name w) ws = Some w.
Proof.
  induction ws as [|w0 ws IH]; cbn [map last_named In]; [intros _ []|].
  intros Hnd Hin. apply List.NoDup_cons_iff in Hnd as [Hfresh Hnd].
  destruct Hin as [-> | Hin].
  - destruct (last_named (w_name w) ws) as [w'|] eqn:Hlast.
    + apply last_named_name in Hlast as [Hn Hin'].
      exfalso. apply Hfresh. rewrite <- Hn. apply in_map. exact Hin'.
    + rewrite String.eqb_refl. reflexivity.
  - rewrite (IH Hnd Hin). reflexivity.
Qed.

(** Storing the same reply a second time changes nothing. *)
Lemma store_workers_idempotent m ws :
  store_workers (store_workers m ws) ws = store_workers m ws.
Proof.
  apply map_eq; intros n. rewrite store_workers_lookup.
  destruct (last_named n ws) as [w|] eqn:Hlast; [|reflexivity].
  rewrite store_workers_lookup, Hlast. reflexivity.
Qed.

(** What storing a reply does to a map, in the terms of C4. *)
Lemma store_workers_spec m ws :
  (forall n, store_workers m ws !! n =
             match last_named n ws with
             | Some w => Some (snapshot_of w)
             | None => m !! n
             end)
  /\ (forall w, In w ws ->
        exists w', In w' ws /\ w_name w' = w_name w
                   /\ store_workers m ws !! w_name w = Some (snapshot_of w'))
  /\ (List.NoDup (map w_name ws) ->
      forall w, In w ws -> store_workers m ws !! w_name w = Some (snapshot_of w))
  /\ (forall n, ~ In n (map w_name ws) -> store_workers m ws !! n = m !! n)
  /\ (forall n, is_Some (m !! n) -> is_Some (store_workers m ws !! n))
  /\ store_workers (store_workers m ws) ws = store_workers m ws.
Proof.
  split; [apply store_workers_lookup|].
  split.
  { intros w Hin. destruct (last_named_In ws w Hin) as [w' Hlast].
    exists w'. rewrite store_workers_lookup, Hlast.
    apply last_named_name in Hlast as [Hn Hin']. auto. }
  split.
  { intros Hnd w Hin. rewrite store_workers_lookup.
    rewrite (last_named_NoDup ws w Hnd Hin). reflexivity. }
  split.
  { intros n Hn. rewrite store_workers_lookup.
    destruct (last_named n ws) as [w|] eqn:Hlast; [|reflexivity].
    apply last_named_name in Hlast as [Hname Hin].
    exfalso. apply Hn. rewrite <- Hname. apply in_map. exact Hin. }
  split.
  { intros n Hsome. rewrite store_workers_lookup.
    destruct (last_named n ws); [eauto | exact Hsome]. }
  apply store_workers_idempotent.
Qed.

End StatsFacts.

Section StatusFacts.

Import LbReservation.

Lemma LoadBalancerStatus_success cp r :
  ok (fst (cp_LoadBalancerStatus cp (stub_ r)
             (mkLoadBalancerStatusRequest (adminToken r) (lbId r)))) = true ->
  LoadBalancerStatus cp r =
  (0,
   set_clientStats r
     (store_workers (clientStats r)
        (workers (snd (cp_LoadBalancerStatus cp (stub_ r)
                         (mkLoadBalancerStatusRequest (adminToken r) (lbId r)))))),
   [CallLoadBalancerStatus (stub_ r)
      (mkLoadBalancerStatusRequest (adminToken r) (lbId r))]).
Proof.
  intros Hok. unfold LoadBalancerStatus; cbv zeta.
  destruct (cp_LoadBalancerStatus _ _ _) as [status reply].
  cbn [fst snd] in *. rewrite Hok. reflexivity.
Qed.

Lemma LoadBalancerStatus_static_success cp cpIP cpPort0 lbId0 adminToken0 stats :
  ok (fst (cp_LoadBalancerStatus cp (cpIP +:+ ":" +:+ to_string (to_uint16 cpPort0))
             (mkLoadBalancerStatusRequest adminToken0 lbId0))) = true ->
  LoadBalancerStatus_static cp cpIP cpPort0 lbId0 adminToken0 stats =
  (0,
   store_workers stats
     (workers (snd (cp_LoadBalancerStatus cp
                      (cpIP +:+ ":" +:+ to_string (to_uint16 cpPort0))
                      (mkLoadBalancerStatusRequest adminToken0 lbId0)))),
   [CallLoadBalancerStatus (cpIP +:+ ":" +:+ to_string (to_uint16 cpPort0))
      (mkLoadBalancerStatusRequest adminToken0 lbId0)]).
Proof.
  intros Hok. unfold LoadBalancerStatus_static; cbv zeta.
  destruct (cp_LoadBalancerStatus _ _ _) as [status reply].
  cbn [fst snd] in *. rewrite Hok. reflexivity.
Qed.

(** C4: a [LoadBalancerStatus] call (member or static) whose exchange
    succeeds returns 0 and leaves a Client Stats map in which
    - the entry of every name found in the reply is the record made of
      the four reported fields of the last worker bearing that name and
      of the millisecond form of its timestamp, nothing of the previous
      entry remaining, whether or not an entry existed before;
    - when the names of the reply are distinct, that is the record of
      the worker itself;
    - every name absent from the reply keeps the entry it had, and no
      entry disappears;
    the map of a newly constructed object is empty; and a second
    successful poll that receives the same list of workers leaves
    exactly the same map. *)
Theorem LoadBalancerStatus_overwrites cp cp2 r cpIP cpPort0 lbId0 adminToken0 stats :
  let request := mkLoadBalancerStatusRequest (adminToken r) (lbId r) in
  let target := cpIP +:+ ":" +:+ to_string (to_uint16 cpPort0) in
  let request_s := mkLoadBalancerStatusRequest adminToken0 lbId0 in
  ok (fst (cp_LoadBalancerStatus cp (stub_ r) request)) = true ->
  ok (fst (cp_LoadBalancerStatus cp target request_s)) = true ->
  ok (fst (cp_LoadBalancerStatus cp2 (stub_ r) request)) = true ->
  ok (fst (cp_LoadBalancerStatus cp2 target request_s)) = true ->
  workers (snd (cp_LoadBalancerStatus cp2 (stub_ r) request))
    = workers (snd (cp_LoadBalancerStatus cp (stub_ r) request)) ->
  workers (snd (cp_LoadBalancerStatus cp2 target request_s))
    = workers (snd (cp_LoadBalancerStatus cp target request_s)) ->
  let ws := workers (snd (cp_LoadBalancerStatus cp (stub_ r) request)) in
  let ws_s := workers (snd (cp_LoadBalancerStatus cp target request_s)) in
  let r' := snd (fst (LoadBalancerStatus cp r)) in
  let stats' :=
    snd (fst (LoadBalancerStatus_static cp cpIP cpPort0 lbId0 adminToken0 stats)) in
  (* member function *)
  fst (fst (LoadBalancerStatus cp r)) = 0
  /\ (forall name0 until0,
        clientStats (new cpIP cpPort0 name0 adminToken0 until0) = ∅)
  /\ (forall n, clientStats r' !! n =
                match last_named n ws with
                | Some w => Some (snapshot_of w)
                | None => clientStats r !! n
                end)
  /\ (forall w, In w ws ->
        exists w', In w' ws /\ w_name w' = w_name w
                   /\ clientStats r' !! w_name w = Some (snapshot_of w'))
  /\ (List.NoDup (map w_name ws) ->
      forall w, In w ws -> clientStats r' !! w_name w = Some (snapshot_of w))
  /\ (forall n, ~ In n (map w_name ws) -> clientStats r' !! n = clientStats r !! n)
  /\ (forall n, is_Some (clientStats r !! n) -> is_Some (clientStats r' !! n))
  /\ clientStats (snd (fst (LoadBalancerStatus cp2 r'))) = clientStats r'
  (* static function *)
  /\ fst (fst (LoadBalancerStatus_static cp cpIP cpPort0 lbId0 adminToken0 stats)) = 0
  /\ (forall n, stats' !! n =
                match last_named n ws_s with
                | Some w => Some (snapshot_of w)
                | None => stats !! n
                end)
  /\ (forall n, ~ In n (map w_name ws_s) -> stats' !! n = stats !! n)
  /\ (forall n, is_Some (stats !! n) -> is_Some (stats' !! n))
  /\ snd (fst (LoadBalancerStatus_static cp2 cpIP cpPort0 lbId0 adminToken0 stats'))
     = stats'.
Proof.
  intros request target request_s Hok Hok_s Hok2 Hok2_s Hsame Hsame_s
    ws ws_s r' stats'.
  pose proof (LoadBalancerStatus_success cp r Hok) as Hm.
  pose proof (LoadBalancerStatus_static_success cp cpIP cpPort0 lbId0
                adminToken0 stats Hok_s) as Hs.
  fold request in Hm. fold ws in Hm. fold target request_s in Hs. fold ws_s in Hs.
  assert (Hr' : r' = set_clientStats r (store_workers (clientStats r) ws))
    by (subst r'; rewrite Hm; reflexivity).
  assert (Hstats' : stats' = store_workers stats ws_s)
    by (subst stats'; rewrite Hs; reflexivity).
  destruct (store_workers_spec (clientStats r) ws)
    as (Hlook & Hin & Hnd & Hout & Hkeep & Hidem).
  destruct (store_workers_spec stats ws_s)
    as (Hlook_s & _ & _ & Hout_s & Hkeep_s & Hidem_s).
  assert (Hcs : clientStats r' = store_workers (clientStats r) ws)
    by (rewrite Hr'; reflexivity).
  split; [rewrite Hm; reflexivity|].
  split; [reflexivity|].
  rewrite Hcs.
  split; [exact Hlook|]. split; [exact Hin|]. split; [exact Hnd|].
  split; [exact Hout|]. split; [exact Hkeep|].
  split.
  { assert (Hreq : mkLoadBalancerStatusRequest (adminToken r') (lbId r') = request)
      by (rewrite Hr'; reflexivity).
    assert (Hstub : stub_ r' = stub_ r) by (rewrite Hr'; reflexivity).
    rewrite LoadBalancerStatus_success; rewrite Hreq, Hstub; [|exact Hok2].
    cbn [fst snd clientStats set_clientStats].
    rewrite Hsame. fold ws. rewrite Hcs. exact Hidem. }
  split; [rewrite Hs; reflexivity|].
  rewrite Hstats'.
  split; [exact Hlook_s|]. split; [exact Hout_s|]. split; [exact Hkeep_s|].
  rewrite LoadBalancerStatus_static_success; [|exact Hok2_s].
  cbn [fst snd]. fold target request_s. rewrite Hsame_s. exact Hidem_s.
Qed.

Lemma LoadBalancerStatus_overwrites_witness :
  let r' := snd (fst (LoadBalancerStatus scenario_cp scenario_reservation)) in
  clientStats r' !! "be2" =
    Some {| fillPercent := 75; controlSignal := 2; slotsAssigned := 384;
            lastUpdated := mkTimestamp 1700000001 999999999;
            updateTime := 1700000001999 |}
  /\ clientStats (snd (fst (LoadBalancerStatus scenario_cp r'))) = clientStats r'.
Proof.
  pose proof (LoadBalancerStatus_overwrites scenario_cp scenario_cp
                scenario_reservation "192.168.0.3" 18347 "lb7" "admin-token" ∅
                eq_refl eq_refl eq_refl eq_refl eq_refl eq_refl) as H.
  cbv zeta in H.
  destruct H as (_ & _ & Hlook & _ & _ & _ & _ & Hidem & _).
  split; [rewrite Hlook; reflexivity | exact Hidem].
Defined.

End StatusFacts.

(** ** Matching *)

Section RegexFacts.

Implicit Types (r : regex) (s : string) (c : ascii).

Lemma append_cons c s1 s2 : String c s1 +:+ s2 = String c (s1 +:+ s2).
Proof. reflexivity. Qed.

Lemma append_nil_l s : "" +:+ s = s.
Proof. reflexivity. Qed.

Lemma length_append s1 s2 :
  String.length (s1 +:+ s2) = (String.length s1 + String.length s2)%nat.
Proof.
  induction s1 as [|c s1 IH]; [reflexivity|].
  rewrite append_cons. cbn [String.length]. rewrite IH. reflexivity.
Qed.

Lemma append_nil_r s : s +:+ "" = s.
Proof.
  induction s as [|c s IH]; [reflexivity|].
  rewrite append_cons, IH. reflexivity.
Qed.

Lemma append_assoc s1 s2 s3 : (s1 +:+ s2) +:+ s3 = s1 +:+ (s2 +:+ s3).
Proof.
  induction s1 as [|c s1 IH]; [reflexivity|].
  rewrite !append_cons, IH. reflexivity.
Qed.

Lemma append_eq_nil s1 s2 : s1 +:+ s2 = "" -> s1 = "" /\ s2 = "".
Proof.
  destruct s1 as [|c s1]; [auto|]. rewrite append_cons. discriminate.
Qed.

Lemma nullable_lang r : nullable r = true <-> lang r "".
Proof.
  induction r as [| |ranges|r1 IH1 r2 IH2|r1 IH1 r2 IH2]; cbn [nullable lang].
  - split; [discriminate | intros []].
  - split; reflexivity.
  - split; [discriminate | intros (c & Hc & _); discriminate Hc].
  - rewrite andb_true_iff, IH1, IH2. split.
    + intros [H1 H2]. exists "", "". auto.
    + intros (s1 & s2 & Heq & H1 & H2).
      symmetry in Heq. apply append_eq_nil in Heq as [-> ->]. auto.
  - rewrite orb_true_iff, IH1, IH2. reflexivity.
Qed.

Lemma deriv_lang r : forall c s, lang (deriv c r) s <-> lang r (String c s).
Proof.
  induction r as [| |ranges|r1 IH1 r2 IH2|r1 IH1 r2 IH2]; intros c s;
    cbn [deriv lang].
  - reflexivity.
  - split; [intros [] | discriminate].
  - destruct (in_class c ranges) eqn:Hc; cbn [lang]; split.
    + intros ->. exists c. auto.
    + intros (c' & [= <- ->] & _). reflexivity.
    + intros [].
    + intros (c' & [= <- _] & Hc'). congruence.
  - assert (Hhead : (exists s1 s2, s = s1 +:+ s2 /\ lang (deriv c r1) s1 /\ lang r2 s2)
                    <-> (exists s1 s2, String c s = String c s1 +:+ s2
                                       /\ lang r1 (String c s1) /\ lang r2 s2)).
    { split; intros (s1 & s2 & Heq & H1 & H2); exists s1, s2.
      - subst s. apply IH1 in H1. auto.
      - rewrite append_cons in Heq. injection Heq as ->. apply IH1 in H1. auto. }
    destruct (nullable r1) eqn:Hn; cbn [lang]; split.
    + intros [H | H].
      * apply Hhead in H as (s1 & s2 & Heq & H1 & H2).
        exists (String c s1), s2. auto.
      * apply IH2 in H. apply nullable_lang in Hn.
        exists "", (String c s). auto.
    + intros (s1 & s2 & Heq & H1 & H2). destruct s1 as [|c1 s1].
      * right. rewrite append_nil_l in Heq. subst s2. apply IH2. exact H2.
      * left. rewrite append_cons in Heq. injection Heq as <- ->. apply Hhead.
        exists s1, s2. auto.
    + intros H. apply Hhead in H as (s1 & s2 & Heq & H1 & H2).
      exists (String c s1), s2. auto.
    + intros (s1 & s2 & Heq & H1 & H2). destruct s1 as [|c1 s1].
      * apply nullable_lang in H1. congruence.
      * rewrite append_cons in Heq. injection Heq as <- ->. apply Hhead.
        exists s1, s2. auto.
  - rewrite IH1, IH2. reflexivity.
Qed.

(** The matcher decides membership in the language of the pattern. *)
Lemma regex_match_lang s : forall r, regex_match s r = true <-> lang r s.
Proof.
  induction s as [|c s IH]; intros r; cbn [regex_match].
  - apply nullable_lang.
  - rewrite IH. apply deriv_lang.
Qed.

Lemma lang_length r : forall s, lang r s -> (String.length s <= max_len r)%nat.
Proof.
  induction r as [| |ranges|r1 IH1 r2 IH2|r1 IH1 r2 IH2]; intros s;
    cbn [lang max_len].
  - intros [].
  - intros ->. cbn. lia.
  - intros (c & -> & _). cbn. lia.
  - intros (s1 & s2 & -> & H1 & H2). rewrite length_append.
    specialize (IH1 _ H1). specialize (IH2 _ H2). lia.
  - intros [H | H]; [specialize (IH1 _ H) | specialize (IH2 _ H)]; lia.
Qed.

(** A dotted-decimal IPv4 literal has at most 15 characters, and a full
    IPv6 literal at most 39. *)
Lemma is_ipv4_length s : is_ipv4 s = true -> (String.length s <= 15)%nat.
Proof.
  intros H. apply regex_match_lang, lang_length in H. exact H.
Qed.

Lemma is_ipv6_length s : is_ipv6 s = true -> (String.length s <= 39)%nat.
Proof.
  intros H. apply regex_match_lang, lang_length in H. exact H.
Qed.

End RegexFacts.

(** ** The address patterns against their description *)

Section PatternFacts.

Implicit Types (r : regex) (s g rest : string) (c sep : ascii)
  (l : list string).

Lemma in_range_bounds c lo hi :
  in_range c (lo, hi) = true <->
  (nat_of_ascii lo <= nat_of_ascii c <= nat_of_ascii hi)%nat.
Proof.
  unfold in_range; cbn [fst snd].
  rewrite andb_true_iff, !Nat.leb_le. reflexivity.
Qed.

Lemma in_class_one c lo hi :
  in_class c [(lo, hi)] = true <->
  (nat_of_ascii lo <= nat_of_ascii c <= nat_of_ascii hi)%nat.
Proof.
  unfold in_class; cbn [existsb]. rewrite orb_false_r. apply in_range_bounds.
Qed.

Lemma nat_of_ascii_inj c1 c2 : nat_of_ascii c1 = nat_of_ascii c2 -> c1 = c2.
Proof.
  intros H. rewrite <- (ascii_nat_embedding c1), <- (ascii_nat_embedding c2).
  rewrite H. reflexivity.
Qed.

Lemma lang_lit sep s : lang (lit sep) s <-> s = String sep "".
Proof.
  unfold lit; cbn [lang]. split.
  - intros (c & -> & Hc). apply in_class_one in Hc.
    f_equal. apply nat_of_ascii_inj. lia.
  - intros ->. exists sep. split; [reflexivity|]. apply in_class_one. lia.
Qed.

Lemma split_on_nonempty sep s : split_on sep s <> [].
Proof.
  destruct s as [|c s]; cbn [split_on]; [discriminate|].
  destruct (Ascii.eqb c sep); [discriminate|].
  destruct (split_on sep s); discriminate.
Qed.

Lemma split_on_free sep g : sep_free sep g = true -> split_on sep g = [g].
Proof.
  unfold sep_free. induction g as [|c g IH]; cbn [all_chars split_on];
    [reflexivity|].
  intros H. apply andb_true_iff in H as [Hc Hg].
  apply negb_true_iff in Hc. rewrite Hc, (IH Hg). reflexivity.
Qed.

Lemma split_on_app sep g rest :
  sep_free sep g = true ->
  split_on sep (g +:+ String sep rest) = g :: split_on sep rest.
Proof.
  unfold sep_free. induction g as [|c g IH]; cbn [all_chars].
  - intros _. rewrite append_nil_l. cbn [split_on].
    rewrite Ascii.eqb_refl. reflexivity.
  - intros H. apply andb_true_iff in H as [Hc Hg].
    apply negb_true_iff in Hc. rewrite append_cons. cbn [split_on].
    rewrite Hc, (IH Hg). reflexivity.
Qed.

Lemma split_on_inv sep s : forall g l,
  split_on sep s = g :: l ->
  sep_free sep g = true
  /\ ((l = [] /\ s = g)
      \/ exists rest, s = g +:+ String sep rest /\ split_on sep rest = l).
Proof.
  induction s as [|c s IH]; intros g l; cbn [split_on].
  - intros [= <- <-]. split; [reflexivity | left; auto].
  - destruct (Ascii.eqb_spec c sep) as [->|Hne].
    + intros [= <- <-]. split; [reflexivity|]. right. exists s. auto.
    + destruct (split_on sep s) as [|piece pieces] eqn:Hs.
      * exfalso. exact (split_on_nonempty sep s Hs).
      * intros [= <- <-]. destruct (IH piece pieces eq_refl) as [Hfree Hcases].
        split.
        { unfold sep_free in *. cbn [all_chars]. rewrite Hfree, andb_true_r.
          apply negb_true_iff, Ascii.eqb_neq. exact Hne. }
        destruct Hcases as [[-> ->] | (rest & -> & Hrest)].
        { left. auto. }
        { right. exists rest. rewrite append_cons. auto. }
Qed.

(** A pattern [(G sep){n} G] whose pieces cannot contain the separator
    accepts exactly the strings made of [n + 1] pieces of [G] separated
    by [sep]. *)
Lemma lang_separated r (piece : string -> bool) sep :
  (forall s, lang r s <-> piece s = true) ->
  (forall s, piece s = true -> sep_free sep s = true) ->
  forall n s,
    lang (Seq (times n (Seq r (lit sep))) r) s
    <-> separated sep (S n) piece s = true.
Proof.
  intros Hpiece Hfree. unfold separated.
  induction n as [|n IH]; intros s; cbn [times].
  - split.
    + intros (s1 & s2 & -> & Hs1 & Hs2). cbn [lang] in Hs1. subst s1.
      rewrite append_nil_l. apply Hpiece in Hs2.
      rewrite (split_on_free sep s2 (Hfree _ Hs2)). cbn. rewrite Hs2. reflexivity.
    + intros H. apply andb_true_iff in H as [Hlen Hall].
      destruct (split_on sep s) as [|g [|g' l]] eqn:Hs; try discriminate Hlen.
      destruct (split_on_inv sep s g [] Hs) as [_ [[_ ->] | (rest & _ & Hrest)]].
      * cbn in Hall. rewrite andb_true_r in Hall.
        exists "", g. split; [reflexivity|]. split; [reflexivity|].
        apply Hpiece, Hall.
      * exfalso. exact (split_on_nonempty sep rest Hrest).
  - split.
    + intros (s1 & s2 & -> & (s3 & s4 & -> & (g & x & -> & Hg & Hx) & Hs4) & Hs2).
      apply lang_lit in Hx. subst x.
      assert (Hrest : lang (Seq (times n (Seq r (lit sep))) r) (s4 +:+ s2))
        by (exists s4, s2; auto).
      apply IH in Hrest. apply andb_true_iff in Hrest as [Hlen Hall].
      apply Hpiece in Hg.
      replace (((g +:+ String sep "") +:+ s4) +:+ s2)
        with (g +:+ String sep (s4 +:+ s2))
        by (rewrite !append_assoc; reflexivity).
      rewrite (split_on_app sep g _ (Hfree _ Hg)).
      cbn [List.length forallb]. rewrite Hg, Hall.
      change (S (List.length (split_on sep (s4 +:+ s2))) =? S (S n))%nat
        with (List.length (split_on sep (s4 +:+ s2)) =? S n)%nat.
      rewrite Hlen. reflexivity.
    + intros H. apply andb_true_iff in H as [Hlen Hall].
      destruct (split_on sep s) as [|g l] eqn:Hs; [discriminate Hlen|].
      cbn [forallb] in Hall. apply andb_true_iff in Hall as [Hg Hall].
      destruct (split_on_inv sep s g l Hs) as [_ [[-> _] | (rest & -> & Hrest)]];
        [discriminate Hlen|].
      assert (Hrest' : lang (Seq (times n (Seq r (lit sep))) r) rest).
      { apply IH. rewrite Hrest. apply andb_true_iff. split; [exact Hlen | exact Hall]. }
      destruct Hrest' as (s4 & s2 & -> & Hs4 & Hs2).
      exists ((g +:+ String sep "") +:+ s4), s2.
      split; [rewrite !append_assoc; reflexivity|].
      split; [|exact Hs2].
      exists (g +:+ String sep ""), s4. split; [reflexivity|].
      split; [|exact Hs4].
      exists g, (String sep ""). split; [reflexivity|].
      split; [apply Hpiece, Hg | apply lang_lit; reflexivity].
Qed.

(** Replaces the codes of literal characters by their values. *)
Ltac ascii_codes :=
  repeat match goal with
  | |- context [nat_of_ascii (Ascii ?a ?b ?c ?d ?e ?f ?g ?h)] =>
      let v := eval vm_compute in (nat_of_ascii (Ascii a b c d e f g h)) in
      change (nat_of_ascii (Ascii a b c d e f g h)) with v
  | H : context [nat_of_ascii (Ascii ?a ?b ?c ?d ?e ?f ?g ?h)] |- _ =>
      let v := eval vm_compute in (nat_of_ascii (Ascii a b c d e f g h)) in
      change (nat_of_ascii (Ascii a b c d e f g h)) with v in H
  end.

Lemma is_digit_bounds c :
  is_digit c = true <-> (48 <= nat_of_ascii c <= 57)%nat.
Proof. unfold is_digit. rewrite in_range_bounds. ascii_codes. reflexivity. Qed.

Lemma all_chars_impl (p q : ascii -> bool) s :
  (forall c, p c = true -> q c = true) ->
  all_chars p s = true -> all_chars q s = true.
Proof.
  intros Hpq. induction s as [|c s IH]; cbn [all_chars]; [reflexivity|].
  intros H. apply andb_true_iff in H as [Hc Hs].
  rewrite (Hpq c Hc), (IH Hs). reflexivity.
Qed.

Lemma is_octet_iff s :
  is_octet s = true <->
  (1 <= String.length s <= 3)%nat
  /\ all_chars is_digit s = true
  /\ (decimal_value 0 s <= 255)%nat.
Proof.
  unfold is_octet.
  destruct ((1 <=? String.length s)%nat && (String.length s <=? 3)%nat
            && all_chars is_digit s) eqn:Hguard.
  - apply andb_true_iff in Hguard as [Hlen Hall].
    apply andb_true_iff in Hlen as [Hlo Hhi].
    apply Nat.leb_le in Hlo, Hhi. rewrite Nat.leb_le. tauto.
  - split; [discriminate|]. intros ((Hlo & Hhi) & Hall & _).
    apply Nat.leb_le in Hlo, Hhi. rewrite Hlo, Hhi, Hall in Hguard.
    discriminate Hguard.
Qed.

Lemma lang_class_intro c lo hi :
  (nat_of_ascii lo <= nat_of_ascii c <= nat_of_ascii hi)%nat ->
  lang (Class [(lo, hi)]) (String c "").
Proof. intros H. exists c. split; [reflexivity | apply in_class_one, H]. Qed.

Lemma lang_seq_cons r1 r2 c s :
  lang r1 (String c "") -> lang r2 s -> lang (Seq r1 r2) (String c s).
Proof. intros H1 H2. exists (String c ""), s. auto. Qed.

Lemma lang_seq_nil r1 r2 s : lang r1 "" -> lang r2 s -> lang (Seq r1 r2) s.
Proof. intros H1 H2. exists "", s. auto. Qed.

Lemma lang_opt_none r : lang (opt r) "".
Proof. right. reflexivity. Qed.

Lemma lang_opt_some r s : lang r s -> lang (opt r) s.
Proof. intros H. left. exact H. Qed.

(** From the bounds of its characters to [is_octet]. *)
Ltac octet_from_bounds :=
  repeat (rewrite append_cons || rewrite append_nil_l);
  apply is_octet_iff; cbn [String.length all_chars decimal_value];
  split; [lia|]; split;
  [ repeat match goal with
           | |- context [is_digit ?c] =>
               rewrite (proj2 (is_digit_bounds c)) by lia
           end;
    reflexivity
  | lia ].

(** The octet alternative of the IPv4 pattern accepts one to three
    decimal digits denoting at most 255. *)
Lemma lang_octet s : lang octet_regex s <-> is_octet s = true.
Proof.
  unfold octet_regex, lit, opt. split.
  - cbn [lang].
    intros [H | [H | H]].
    + destruct H as (s1 & s2 & -> & (c1 & -> & H1)
                     & (s3 & s4 & -> & (c2 & -> & H2) & (c3 & -> & H3))).
      apply in_class_one in H1, H2, H3. ascii_codes. octet_from_bounds.
    + destruct H as (s1 & s2 & -> & (c1 & -> & H1)
                     & (s3 & s4 & -> & (c2 & -> & H2) & (c3 & -> & H3))).
      apply in_class_one in H1, H2, H3. ascii_codes. octet_from_bounds.
    + destruct H as (s1 & s2 & -> & Hopt1
                     & (s3 & s4 & -> & (c2 & -> & H2) & Hopt3)).
      apply in_class_one in H2. ascii_codes.
      destruct Hopt1 as [(c1 & -> & H1) | ->];
        destruct Hopt3 as [(c3 & -> & H3) | ->];
        try apply in_class_one in H1; try apply in_class_one in H3;
        ascii_codes; octet_from_bounds.
  - intros H. apply is_octet_iff in H as (Hlen & Hall & Hval).
    destruct s as [|c1 [|c2 [|c3 [|c4 s]]]]; cbn [String.length] in Hlen;
      try lia; cbn [all_chars] in Hall; cbn [decimal_value] in Hval.
    + apply andb_true_iff in Hall as [H1 _]. apply is_digit_bounds in H1.
      right; right. apply lang_seq_nil; [right; reflexivity|].
      apply lang_seq_cons; [|right; reflexivity].
      apply lang_class_intro. ascii_codes. lia.
    + apply andb_true_iff in Hall as [H1 Hall].
      apply andb_true_iff in Hall as [H2 _].
      apply is_digit_bounds in H1, H2.
      right; right. apply lang_seq_nil; [right; reflexivity|].
      apply lang_seq_cons; [apply lang_class_intro; ascii_codes; lia|].
      left. apply lang_class_intro. ascii_codes. lia.
    + apply andb_true_iff in Hall as [H1 Hall].
      apply andb_true_iff in Hall as [H2 Hall].
      apply andb_true_iff in Hall as [H3 _].
      apply is_digit_bounds in H1, H2, H3.
      destruct (le_lt_dec (nat_of_ascii c1) 49) as [Hc1|Hc1].
      { right; right.
        apply lang_seq_cons; [left; apply lang_class_intro; ascii_codes; lia|].
        apply lang_seq_cons; [apply lang_class_intro; ascii_codes; lia|].
        left. apply lang_class_intro. ascii_codes. lia. }
      destruct (le_lt_dec (nat_of_ascii c2) 52) as [Hc2|Hc2].
      { right; left.
        apply lang_seq_cons; [apply lang_class_intro; ascii_codes; lia|].
        apply lang_seq_cons; [apply lang_class_intro; ascii_codes; lia|].
        apply lang_class_intro. ascii_codes. lia. }
      left.
      apply lang_seq_cons; [apply lang_class_intro; ascii_codes; lia|].
      apply lang_seq_cons; [apply lang_class_intro; ascii_codes; lia|].
      apply lang_class_intro. ascii_codes. lia.
Qed.

Lemma is_octet_sep_free s : is_octet s = true -> sep_free "." s = true.
Proof.
  intros H. apply is_octet_iff in H as (_ & Hall & _).
  unfold sep_free. revert Hall. apply all_chars_impl.
  intros c Hc. apply is_digit_bounds in Hc.
  apply negb_true_iff, Ascii.eqb_neq. intros ->. revert Hc. ascii_codes. lia.
Qed.

(** [is_ipv4] accepts exactly four dot-separated octets 0-255. *)
Lemma is_ipv4_dotted_quad s : is_ipv4 s = dotted_quad s.
Proof.
  apply eq_true_iff_eq. unfold is_ipv4, dotted_quad.
  rewrite regex_match_lang. unfold ipv4_regex.
  apply (lang_separated octet_regex is_octet "." lang_octet is_octet_sep_free 3).
Qed.

Lemma in_class_hex c :
  in_class c [("0", "9"); ("a", "f"); ("A", "F")]%char = is_hex_digit c.
Proof.
  unfold in_class, is_hex_digit, is_digit; cbn [existsb].
  rewrite orb_false_r, orb_assoc. reflexivity.
Qed.

Lemma is_hex_digit_bounds c :
  is_hex_digit c = true ->
  (48 <= nat_of_ascii c <= 57)%nat \/ (97 <= nat_of_ascii c <= 102)%nat
  \/ (65 <= nat_of_ascii c <= 70)%nat.
Proof.
  unfold is_hex_digit, is_digit. rewrite !orb_true_iff, !in_range_bounds.
  ascii_codes. tauto.
Qed.

(** The group of the IPv6 pattern accepts one to four hexadecimal
    digits. *)
Lemma regex_match_hex_group s :
  regex_match s (between 1 4 hex_class) = is_hex_group s.
Proof.
  unfold is_hex_group, hex_class.
  destruct s as [|c1 [|c2 [|c3 [|c4 [|c5 s]]]]];
    cbn [String.length all_chars Nat.leb andb].
  6: { destruct (regex_match _ _) eqn:Hm; [|reflexivity].
       apply regex_match_lang, lang_length in Hm.
       cbn in Hm. lia. }
  all: repeat (cbn -[in_class is_hex_digit]; rewrite ?in_class_hex;
               match goal with
               | |- context [is_hex_digit ?c] => destruct (is_hex_digit c)
               end);
       reflexivity.
Qed.

Lemma lang_hex_group s :
  lang (between 1 4 hex_class) s <-> is_hex_group s = true.
Proof. rewrite <- regex_match_lang, regex_match_hex_group. reflexivity. Qed.

Lemma is_hex_group_sep_free s : is_hex_group s = true -> sep_free ":" s = true.
Proof.
  unfold is_hex_group. intros H. apply andb_true_iff in H as [_ Hall].
  unfold sep_free. revert Hall. apply all_chars_impl.
  intros c Hc. apply is_hex_digit_bounds in Hc.
  apply negb_true_iff, Ascii.eqb_neq. intros ->. revert Hc. ascii_codes. lia.
Qed.

(** [is_ipv6] accepts exactly eight colon-separated groups of one to
    four hexadecimal digits. *)
Lemma is_ipv6_colon_groups s : is_ipv6 s = colon_groups s.
Proof.
  apply eq_true_iff_eq. unfold is_ipv6, colon_groups.
  rewrite regex_match_lang. unfold ipv6_regex.
  apply (lang_separated (between 1 4 hex_class) is_hex_group ":"
           lang_hex_group is_hex_group_sep_free 7).
Qed.

End PatternFacts.

(** ** Addresses and URIs of the static paths *)

Section UriFacts.

Import LbReservation.

Implicit Types (cp : ControlPlane) (reply : ReserveLoadBalancerReply).

Lemma sprintf_url_fits text : fits_url text -> sprintf_url text = Some text.
Proof.
  unfold fits_url, sprintf_url. intros Hfit.
  destruct (Nat.ltb_spec (String.length text) url_size) as [_|Hge];
    [reflexivity | lia].
Qed.

Lemma cp_ip_addr_literal cp cpIP useIPv6 :
  is_ipv4 cpIP || is_ipv6 cpIP = true ->
  cp_ip_addr cp cpIP useIPv6 = (cpIP, []).
Proof. intros Hlit. unfold cp_ip_addr. rewrite Hlit. reflexivity. Qed.

Lemma cp_ip_addr_resolved cp cpIP useIPv6 :
  is_ipv4 cpIP || is_ipv6 cpIP = false ->
  let ipV4 := fst (snd (fst (resolve_host cp cpIP "" ""))) in
  let ipV6 := snd (snd (fst (resolve_host cp cpIP "" ""))) in
  cp_ip_addr cp cpIP useIPv6 =
  (if useIPv6 && negb (String.eqb ipV6 "") then ipV6
   else if negb (String.eqb ipV4 "") then ipV4
   else cpIP,
   [Resolve (c_str cpIP)]).
Proof.
  intros Hlit ipV4 ipV6. subst ipV4 ipV6. unfold cp_ip_addr. rewrite Hlit.
  cbn [negb]. unfold resolve_host; cbv zeta.
  destruct (getaddrinfo cp (c_str cpIP)) as [result|]; cbn [fst snd].
  - destruct (scan_addrinfo result "" "") as [v4 v6]; cbn [fst snd].
    destruct (useIPv6 && negb (String.eqb v6 "")); [reflexivity|].
    destruct (negb (String.eqb v4 "")); reflexivity.
  - rewrite andb_false_r. reflexivity.
Qed.

Lemma sync_ip_short reply fallback :
  rep_syncipaddress reply = ""
  \/ (String.length (rep_syncipaddress reply) < 16)%nat ->
  sync_ip reply fallback = fallback.
Proof.
  intros Hshort. unfold sync_ip; cbv zeta.
  assert (Hlen : (String.length (rep_syncipaddress reply) < 16)%nat).
  { destruct Hshort as [-> | H]; [cbn; lia | exact H]. }
  apply Nat.ltb_lt in Hlen. rewrite Hlen, orb_true_r. reflexivity.
Qed.

Lemma sync_ip_long reply fallback :
  (16 <= String.length (rep_syncipaddress reply))%nat ->
  sync_ip reply fallback = rep_syncipaddress reply.
Proof.
  intros Hlong. unfold sync_ip; cbv zeta.
  assert (Hne : String.eqb (rep_syncipaddress reply) "" = false).
  { apply String.eqb_neq. intros Heq. rewrite Heq in Hlong. cbn in Hlong. lia. }
  apply Nat.ltb_ge in Hlong. rewrite Hne, Hlong. reflexivity.
Qed.

Example sync_ip_ipv6_replaced :
  sync_ip (with_sync "1:2:3:4:5:6:7:8") "192.168.0.3" = "192.168.0.3".
Proof. reflexivity. Qed.

Example sync_ip_long_kept :
  sync_ip (with_sync "2001:db8:1:2:3:4:5:6") "192.168.0.3"
  = "2001:db8:1:2:3:4:5:6".
Proof. reflexivity. Qed.

(** The static [ReserveLoadBalancer] in one equation. *)
Lemma ReserveLoadBalancer_static_eq cp cpIP cpPort0 lbName0 adminToken0
    until useIPv6 :
  let target := cpIP +:+ ":" +:+ to_string (to_uint16 cpPort0) in
  let request := ReserveRequest_of adminToken0 lbName0 (to_int64 until) in
  let status := fst (cp_ReserveLoadBalancer cp target request) in
  let reply := snd (cp_ReserveLoadBalancer cp target request) in
  let ipAddr := fst (cp_ip_addr cp cpIP useIPv6) in
  ReserveLoadBalancer_static cp cpIP cpPort0 lbName0 adminToken0 until useIPv6 =
  (sprintf_url
     (if ok status then
        format_reserve_uri (rep_token reply) ipAddr (to_uint16 cpPort0)
          (rep_lbid reply)
          (if useIPv6 then rep_dataipv6address reply
           else rep_dataipv4address reply)
          19522 (sync_ip reply ipAddr) (rep_syncudpport reply)
      else format_error (error_message status)),
   CallReserveLoadBalancer target request :: snd (cp_ip_addr cp cpIP useIPv6)).
Proof.
  intros target request status reply ipAddr.
  subst status reply ipAddr. unfold ReserveLoadBalancer_static; cbv zeta.
  fold target. fold request.
  destruct (cp_ReserveLoadBalancer cp target request) as [status reply].
  destruct (cp_ip_addr cp cpIP useIPv6) as [ipAddr resolved].
  cbn [fst snd]. destruct (ok status), useIPv6; reflexivity.
Qed.

(** [GetLbUri] in one equation. *)
Lemma GetLbUri_eq cp cpIP cpPort0 lbId0 adminToken0 useIPv6 :
  let target := cpIP +:+ ":" +:+ to_string (to_uint16 cpPort0) in
  let request := mkGetLoadBalancerRequest adminToken0 lbId0 in
  let status := fst (cp_GetLoadBalancer cp target request) in
  let reply := snd (cp_GetLoadBalancer cp target request) in
  let ipAddr := fst (cp_ip_addr cp cpIP useIPv6) in
  GetLbUri cp cpIP cpPort0 lbId0 adminToken0 useIPv6 =
  (sprintf_url
     (if ok status then
        format_lookup_uri ipAddr (to_uint16 cpPort0)
          (rep_lbid reply)
          (if useIPv6 then rep_dataipv6address reply
           else rep_dataipv4address reply)
          19522 (sync_ip reply ipAddr) (rep_syncudpport reply)
      else format_error (error_message status)),
   CallGetLoadBalancer target request :: snd (cp_ip_addr cp cpIP useIPv6)).
Proof.
  intros target request status reply ipAddr.
  subst status reply ipAddr. unfold GetLbUri; cbv zeta.
  fold target. fold request.
  destruct (cp_GetLoadBalancer cp target request) as [status reply].
  destruct (cp_ip_addr cp cpIP useIPv6) as [ipAddr resolved].
  cbn [fst snd]. destruct (ok status), useIPv6; reflexivity.
Qed.

Lemma to_uint16_idem z : to_uint16 (to_uint16 z) = to_uint16 z.
Proof. unfold to_uint16. apply Z.mod_mod. lia. Qed.

(** C1, as the specification states it, fails: in the scenario the
    server-supplied sync address "10.0.0.1" has 8 characters, fewer
    than 16, so the URI carries the control-plane address after
    [sync=], not "10.0.0.1". *)
Lemma Reserve_scenario_counterexample :
  fst (ReserveLoadBalancer_static scenario_cp "192.168.0.3" 18347 "test"
         "admin-token" (tv_sec scenario_now + 3600) false)
  = Some "ejfat://tok123@192.168.0.3:18347/lb/lb7?data=10.0.0.5:19522&sync=192.168.0.3:18000"
  /\ fst (ReserveLoadBalancer_static scenario_cp "192.168.0.3" 18347 "test"
            "admin-token" (tv_sec scenario_now + 3600) false)
     <> Some "ejfat://tok123@192.168.0.3:18347/lb/lb7?data=10.0.0.5:19522&sync=10.0.0.1:18000".
Proof.
  split; [vm_compute; reflexivity | vm_compute; discriminate].
Qed.

(** C1, amended: for lbName "test", ipv6 = false and a server replying
    lbId "lb7", dataipv4address "10.0.0.5", syncipaddress "10.0.0.1",
    syncudpport 18000 and token "tok123", the static
    [ReserveLoadBalancer] returns exactly
    [ejfat://tok123@<cpAddr>:<cpPort>/lb/lb7?data=10.0.0.5:19522&sync=<cpAddr>:18000]:
    the data port is the constant 19522 and the sync address is the
    control-plane address written in the URI, the server-supplied one
    being shorter than 16 characters.  [<cpAddr>] is the address the
    function writes as host of the URI, and the text is returned
    whenever it fits the buffer it is formatted in. *)
Theorem Reserve_scenario_uri cp cpIP cpPort0 adminToken0 until data6 :
  let target := cpIP +:+ ":" +:+ to_string (to_uint16 cpPort0) in
  let request := ReserveRequest_of adminToken0 "test" (to_int64 until) in
  let cpAddr := c_str (fst (cp_ip_addr cp cpIP false)) in
  let uri :=
    "ejfat://tok123@" +:+ cpAddr +:+ ":" +:+ to_string (to_uint16 cpPort0)
    +:+ "/lb/lb7?data=10.0.0.5:19522&sync=" +:+ cpAddr +:+ ":18000" in
  ok (fst (cp_ReserveLoadBalancer cp target request)) = true ->
  snd (cp_ReserveLoadBalancer cp target request)
    = mkReserveLoadBalancerReply "tok123" "lb7" "10.0.0.1" 18000 "10.0.0.5" data6 ->
  fits_url uri ->
  fst (ReserveLoadBalancer_static cp cpIP cpPort0 "test" adminToken0 until false)
  = Some uri.
Proof.
  intros target request cpAddr uri Hok Hreply Hfit.
  rewrite ReserveLoadBalancer_static_eq. cbn [fst].
  fold target. fold request. rewrite Hok, Hreply.
  rewrite <- (sprintf_url_fits uri Hfit). f_equal.
  unfold format_reserve_uri. rewrite to_uint16_idem. reflexivity.
Qed.

Lemma Reserve_scenario_uri_witness :
  fst (ReserveLoadBalancer_static scenario_cp "192.168.0.3" 18347 "test"
         "admin-token" (tv_sec scenario_now + 3600) false)
  = Some ("ejfat://tok123@" +:+ "192.168.0.3" +:+ ":" +:+ "18347"
          +:+ "/lb/lb7?data=10.0.0.5:19522&sync=" +:+ "192.168.0.3" +:+ ":18000").
Proof.
  apply (Reserve_scenario_uri scenario_cp "192.168.0.3" 18347 "admin-token"
           (tv_sec scenario_now + 3600) "").
  - reflexivity.
  - reflexivity.
  - unfold fits_url. vm_compute. lia.
Defined.

Lemma prefix_ejfat rest : String.prefix "ejfat://" ("ejfat://" +:+ rest) = true.
Proof.
  change ("ejfat://" +:+ rest) with
    (String "e" (String "j" (String "f" (String "a" (String "t" (String ":"
       (String "/" (String "/" rest)))))))).
  cbn. destruct rest; reflexivity.
Qed.

(** What holds of a failed Reserve as long as the error text fits the
    buffer: the static path returns the text [error = <message>] (the
    message as [%s] prints it), which does not begin with [ejfat://],
    whereas the text returned after a successful exchange does; and the
    member function returns 1, a non-zero code, with the object
    (instance token, LB id, sync endpoint, data endpoints, reserved
    flag and all) exactly as it was. *)
Lemma Reserve_failure_within_buffer cp cpIP cpPort0 lbName0 adminToken0
    until useIPv6 r :
  let target := cpIP +:+ ":" +:+ to_string (to_uint16 cpPort0) in
  let request := ReserveRequest_of adminToken0 lbName0 (to_int64 until) in
  let status := fst (cp_ReserveLoadBalancer cp target request) in
  let request_m :=
    ReserveRequest_of (adminToken r) (lbName r) (untilSeconds r) in
  let status_m := fst (cp_ReserveLoadBalancer cp (stub_ r) request_m) in
  ok status = false ->
  fits_url ("error = " +:+ c_str (error_message status)) ->
  ok status_m = false ->
  fst (ReserveLoadBalancer_static cp cpIP cpPort0 lbName0 adminToken0 until useIPv6)
    = Some ("error = " +:+ c_str (error_message status))
  /\ String.prefix "ejfat://" ("error = " +:+ c_str (error_message status)) = false
  /\ (forall cp1 uri,
        ok (fst (cp_ReserveLoadBalancer cp1 target request)) = true ->
        fst (ReserveLoadBalancer_static cp1 cpIP cpPort0 lbName0 adminToken0
               until useIPv6) = Some uri ->
        String.prefix "ejfat://" uri = true)
  /\ ReserveLoadBalancer cp r =
       (1, r, [CallReserveLoadBalancer (stub_ r) request_m])
  /\ fst (fst (ReserveLoadBalancer cp r)) <> 0
  /\ snd (fst (ReserveLoadBalancer cp r)) = r.
Proof.
  intros target request status request_m status_m Hfail Hfit Hfail_m.
  pose proof (ReserveLoadBalancer_failure cp r Hfail_m) as Hm.
  fold request_m in Hm.
  split.
  { rewrite ReserveLoadBalancer_static_eq. cbn [fst].
    fold target. fold request. fold status. rewrite Hfail.
    apply sprintf_url_fits. exact Hfit. }
  split; [reflexivity|].
  split.
  { intros cp1 uri Hok1. rewrite ReserveLoadBalancer_static_eq. cbn [fst].
    fold target. fold request. rewrite Hok1.
    unfold sprintf_url. destruct (_ <? _)%nat; [|discriminate].
    intros [= <-]. apply prefix_ejfat. }
  rewrite Hm. cbn [fst snd]. repeat split. discriminate.
Qed.

Example Reserve_failure_short_message :
  fst (ReserveLoadBalancer_static failing_cp "192.168.0.3" 18347 "test"
         "admin-token" (tv_sec scenario_now + 3600) false)
    = Some "error = failed to connect to all addresses"
  /\ ReserveLoadBalancer failing_cp
       (fst (run scenario_reservation [DoReserve scenario_cp]))
     = (1, fst (run scenario_reservation [DoReserve scenario_cp]),
        [CallReserveLoadBalancer "192.168.0.3:18347"
           (ReserveRequest_of "admin-token" "test" 1700003600)]).
Proof.
  pose proof (Reserve_failure_within_buffer failing_cp "192.168.0.3" 18347
                "test" "admin-token" (tv_sec scenario_now + 3600) false
                (fst (run scenario_reservation [DoReserve scenario_cp]))) as H.
  cbv zeta in H.
  assert (Hfit : fits_url ("error = " +:+ c_str (error_message UNAVAILABLE)))
    by (unfold fits_url; vm_compute; lia).
  destruct (H eq_refl Hfit eq_refl) as (Hs & _ & _ & Hm & _).
  split; [exact Hs | exact Hm].
Qed.

(** C5 says that every Reserve call whose RPC fails makes the static
    path return the string [error = <message>], never raising.  The
    function formats that string with an unbounded [sprintf] into the
    256-byte buffer [url]; with the failure message below, 327 bytes
    long, the text and its NUL need 336 bytes, [sprintf] writes past
    the end of [url], and the call has no defined result. *)
Theorem Reserve_failure_overflows_url :
  ok DNS_FAILURE = false
  /\ String.length (error_message DNS_FAILURE) = 327%nat
  /\ String.length (format_error (error_message DNS_FAILURE)) = 335%nat
  /\ fst (ReserveLoadBalancer_static unresolved_cp "ejfat-lb.example.org"
            18347 "test" "admin-token" (tv_sec scenario_now + 3600) false)
     = None.
Proof. repeat split; vm_compute; reflexivity. Qed.

Lemma last_cons_default {A} (m : list A) :
  forall x d, List.last (x :: m) d = List.last m x.
Proof.
  induction m as [|y m IH]; intros x d; [reflexivity|].
  change (List.last (x :: y :: m) d) with (List.last (y :: m) d).
  rewrite (IH y d), (IH y x). reflexivity.
Qed.

(** The loop of [resolve_host] leaves in each output the last entry of
    its family, or what the output held when there is none. *)
Lemma scan_addrinfo_last (result : list string) : forall ipv4 ipv6,
  scan_addrinfo result ipv4 ipv6 =
  (List.last (List.filter is_ipv4 result) ipv4,
   List.last (List.filter is_ipv6 result) ipv6).
Proof.
  induction result as [|ipstr result IH]; intros ipv4 ipv6;
    cbn [scan_addrinfo List.filter]; [reflexivity|].
  rewrite IH. destruct (is_ipv4 ipstr), (is_ipv6 ipstr);
    rewrite ?last_cons_default; reflexivity.
Qed.

Lemma last_filter_cases (p : string -> bool) (l : list string) : forall d,
  (existsb p l = false /\ List.last (List.filter p l) d = d)
  \/ (existsb p l = true
      /\ p (List.last (List.filter p l) d) = true
      /\ In (List.last (List.filter p l) d) l).
Proof.
  induction l as [|x l IH]; intros d; cbn [existsb List.filter].
  - left. split; reflexivity.
  - destruct (p x) eqn:Hx; cbn [orb].
    + right. split; [reflexivity|]. rewrite last_cons_default.
      destruct (IH x) as [[_ ->] | (_ & Hp & Hin)].
      * split; [exact Hx | left; reflexivity].
      * split; [exact Hp | right; exact Hin].
    + destruct (IH d) as [[Hnone Hd] | (Hsome & Hp & Hin)].
      * left. split; assumption.
      * right. split; [exact Hsome|]. split; [exact Hp | right; exact Hin].
Qed.

(** An output of [resolve_host] that started empty is empty afterwards
    exactly when no entry of its family was found. *)
Lemma last_filter_empty (p : string -> bool) (l : list string) :
  p "" = false ->
  String.eqb (List.last (List.filter p l) "") "" = negb (existsb p l).
Proof.
  intros Hp. destruct (last_filter_cases p l "") as [[-> ->] | (-> & Hlast & _)].
  - reflexivity.
  - cbn [negb]. apply String.eqb_neq. intros Heq. rewrite Heq, Hp in Hlast.
    discriminate Hlast.
Qed.

(** The entries [getaddrinfo] returns for a host, none when it fails. *)
Lemma resolve_host_outputs cp cpIP :
  let entries :=
    match getaddrinfo cp (c_str cpIP) with Some l => l | None => [] end in
  snd (fst (resolve_host cp cpIP "" "")) =
  (List.last (List.filter is_ipv4 entries) "",
   List.last (List.filter is_ipv6 entries) "").
Proof.
  intros entries. subst entries. unfold resolve_host; cbv zeta.
  destruct (getaddrinfo cp (c_str cpIP)) as [result|]; cbn [fst snd].
  - apply scan_addrinfo_last.
  - reflexivity.
Qed.

Lemma cp_ip_addr_eq cp cpIP (useIPv6 : bool) :
  let entries :=
    match getaddrinfo cp (c_str cpIP) with Some l => l | None => [] end in
  cp_ip_addr cp cpIP useIPv6 =
  if is_ipv4 cpIP || is_ipv6 cpIP then (cpIP, [])
  else (if useIPv6 && existsb is_ipv6 entries
        then List.last (List.filter is_ipv6 entries) ""
        else if existsb is_ipv4 entries
             then List.last (List.filter is_ipv4 entries) ""
             else cpIP,
        [Resolve (c_str cpIP)]).
Proof.
  intros entries.
  destruct (is_ipv4 cpIP || is_ipv6 cpIP) eqn:Hlit.
  - apply cp_ip_addr_literal, Hlit.
  - rewrite (cp_ip_addr_resolved cp cpIP useIPv6 Hlit); cbv zeta.
    rewrite (resolve_host_outputs cp cpIP); cbv zeta. fold entries.
    cbn [fst snd].
    rewrite (last_filter_empty is_ipv6 entries eq_refl).
    rewrite (last_filter_empty is_ipv4 entries eq_refl).
    rewrite !negb_involutive. reflexivity.
Qed.

(** C7: in the static [ReserveLoadBalancer] and [GetLbUri], a
    control-plane address that matches the IPv4 or the IPv6 pattern is
    the address of the URI, unchanged, and the only exchange is the RPC:
    the resolver is not called.  Any other address is resolved once,
    after the RPC, and [entries] is what the resolver returned for it
    (nothing when the lookup failed); the literal found for a family is
    the last entry that the family's pattern accepts, and none is found
    exactly when no entry is accepted.  The URI then takes the IPv6
    literal found when IPv6 was requested and one was found, and
    otherwise the IPv4 literal found if there is one -- which is both
    the requested family for an IPv4 caller and the fallback for an
    IPv6 caller; when none of these is available the address stays as
    supplied.  The IPv4 pattern accepts exactly the strings made of
    four dot-separated octets 0-255 and the IPv6 pattern exactly those
    made of eight colon-separated groups of one to four hexadecimal
    digits.  The returned string is the URI text as [sprintf] leaves it
    in [url], that is the text itself whenever it fits. *)
Theorem control_plane_address cp cpIP cpPort0 lbName0 adminToken0 until
    lbId0 (useIPv6 : bool) :
  let target := cpIP +:+ ":" +:+ to_string (to_uint16 cpPort0) in
  let request := ReserveRequest_of adminToken0 lbName0 (to_int64 until) in
  let request_g := mkGetLoadBalancerRequest adminToken0 lbId0 in
  let reply := snd (cp_ReserveLoadBalancer cp target request) in
  let reply_g := snd (cp_GetLoadBalancer cp target request_g) in
  let entries :=
    match getaddrinfo cp (c_str cpIP) with Some l => l | None => [] end in
  let ipV4 := List.last (List.filter is_ipv4 entries) "" in
  let ipV6 := List.last (List.filter is_ipv6 entries) "" in
  let reserve_uri (ipAddr : string) :=
    format_reserve_uri (rep_token reply) ipAddr (to_uint16 cpPort0)
      (rep_lbid reply)
      (if useIPv6 then rep_dataipv6address reply else rep_dataipv4address reply)
      19522 (sync_ip reply ipAddr) (rep_syncudpport reply) in
  let lookup_uri (ipAddr : string) :=
    format_lookup_uri ipAddr (to_uint16 cpPort0) (rep_lbid reply_g)
      (if useIPv6 then rep_dataipv6address reply_g
       else rep_dataipv4address reply_g)
      19522 (sync_ip reply_g ipAddr) (rep_syncudpport reply_g) in
  let reserve := ReserveLoadBalancer_static cp cpIP cpPort0 lbName0 adminToken0
                   until useIPv6 in
  let lookup := GetLbUri cp cpIP cpPort0 lbId0 adminToken0 useIPv6 in
  ok (fst (cp_ReserveLoadBalancer cp target request)) = true ->
  ok (fst (cp_GetLoadBalancer cp target request_g)) = true ->
  (is_ipv4 cpIP || is_ipv6 cpIP = true ->
     reserve = (sprintf_url (reserve_uri cpIP),
                [CallReserveLoadBalancer target request])
     /\ lookup = (sprintf_url (lookup_uri cpIP),
                  [CallGetLoadBalancer target request_g]))
  /\ (is_ipv4 cpIP || is_ipv6 cpIP = false ->
      forall ipAddr,
        (useIPv6 = true /\ ipV6 <> "" /\ ipAddr = ipV6)
        \/ (useIPv6 = false /\ ipV4 <> "" /\ ipAddr = ipV4)
        \/ (useIPv6 = true /\ ipV6 = "" /\ ipV4 <> "" /\ ipAddr = ipV4)
        \/ ((useIPv6 = false \/ ipV6 = "") /\ ipV4 = "" /\ ipAddr = cpIP) ->
        reserve = (sprintf_url (reserve_uri ipAddr),
                   [CallReserveLoadBalancer target request; Resolve (c_str cpIP)])
        /\ lookup = (sprintf_url (lookup_uri ipAddr),
                     [CallGetLoadBalancer target request_g; Resolve (c_str cpIP)]))
  /\ snd (fst (resolve_host cp cpIP "" "")) = (ipV4, ipV6)
  /\ String.eqb ipV4 "" = negb (existsb is_ipv4 entries)
  /\ String.eqb ipV6 "" = negb (existsb is_ipv6 entries)
  /\ (ipV4 = "" \/ (is_ipv4 ipV4 = true /\ In ipV4 entries))
  /\ (ipV6 = "" \/ (is_ipv6 ipV6 = true /\ In ipV6 entries))
  /\ is_ipv4 cpIP = dotted_quad cpIP
  /\ is_ipv6 cpIP = colon_groups cpIP
  /\ (forall text, fits_url text -> sprintf_url text = Some text).
Proof.
  intros target request request_g reply reply_g entries ipV4 ipV6 reserve_uri
    lookup_uri reserve lookup Hok Hok_g.
  assert (Hres : forall ipAddr evs,
            cp_ip_addr cp cpIP useIPv6 = (ipAddr, evs) ->
            reserve = (sprintf_url (reserve_uri ipAddr),
                       CallReserveLoadBalancer target request :: evs)
            /\ lookup = (sprintf_url (lookup_uri ipAddr),
                         CallGetLoadBalancer target request_g :: evs)).
  { intros ipAddr evs Haddr. subst reserve lookup.
    rewrite ReserveLoadBalancer_static_eq, GetLbUri_eq.
    fold target. fold request. fold request_g. fold reply. fold reply_g.
    rewrite Hok, Hok_g, Haddr. cbn [fst snd]. split; reflexivity. }
  pose proof (last_filter_empty is_ipv4 entries eq_refl) as He4.
  pose proof (last_filter_empty is_ipv6 entries eq_refl) as He6.
  fold ipV4 in He4. fold ipV6 in He6.
  split; [|split; [|split; [exact (resolve_host_outputs cp cpIP)|
          split; [exact He4|split; [exact He6|split; [|split; [|
          split; [apply is_ipv4_dotted_quad|
                  split; [apply is_ipv6_colon_groups|
                          exact sprintf_url_fits]]]]]]]]].
  - intros Hlit. apply Hres, cp_ip_addr_literal, Hlit.
  - intros Hname ipAddr Hsel. apply Hres.
    pose proof (cp_ip_addr_eq cp cpIP useIPv6) as Heq; cbv zeta in Heq.
    fold entries in Heq. fold ipV4 in Heq. fold ipV6 in Heq.
    rewrite Hname in Heq. rewrite Heq. f_equal.
    destruct Hsel as [(-> & Hne & ->) | [(-> & Hne & ->) |
                      [(-> & He & Hne & ->) | (Hv6 & He & ->)]]].
    + apply String.eqb_neq in Hne. rewrite Hne in He6.
      apply (f_equal negb) in He6. rewrite negb_involutive in He6.
      rewrite <- He6. reflexivity.
    + apply String.eqb_neq in Hne. rewrite Hne in He4.
      apply (f_equal negb) in He4. rewrite negb_involutive in He4.
      rewrite <- He4. reflexivity.
    + apply String.eqb_neq in Hne. rewrite Hne in He4.
      apply String.eqb_eq in He. rewrite He in He6.
      apply (f_equal negb) in He4, He6. rewrite negb_involutive in He4, He6.
      rewrite <- He4, <- He6. reflexivity.
    + apply String.eqb_eq in He. rewrite He in He4.
      apply (f_equal negb) in He4. rewrite negb_involutive in He4.
      rewrite <- He4. destruct Hv6 as [-> | Hv6]; [reflexivity|].
      apply String.eqb_eq in Hv6. rewrite Hv6 in He6.
      apply (f_equal negb) in He6. rewrite negb_involutive in He6.
      rewrite <- He6, andb_false_r. reflexivity.
  - destruct (last_filter_cases is_ipv4 entries "") as [[_ H] | (_ & H & Hin)];
      [left; exact H | right; split; [exact H | exact Hin]].
  - destruct (last_filter_cases is_ipv6 entries "") as [[_ H] | (_ & H & Hin)];
      [left; exact H | right; split; [exact H | exact Hin]].
Qed.

Lemma control_plane_address_witness :
  ReserveLoadBalancer_static resolving_cp "192.168.0.3" 18347 "test"
    "admin-token" (tv_sec scenario_now + 3600) true
  = (Some "ejfat://tok123@192.168.0.3:18347/lb/lb7?data=:19522&sync=192.168.0.3:18000",
     [CallReserveLoadBalancer "192.168.0.3:18347"
        (ReserveRequest_of "admin-token" "test" 1700003600)])
  /\ GetLbUri resolving_cp "cp.example.org" 18347 "lb7" "admin-token" true
     = (Some "ejfat://2001:db8:1:2:3:4:5:6:18347/lb/lb7?data=:19522&sync=2001:db8:1:2:3:4:5:6:18000",
        [CallGetLoadBalancer "cp.example.org:18347"
           (mkGetLoadBalancerRequest "admin-token" "lb7");
         Resolve "cp.example.org"])
  /\ GetLbUri ipv4_only_cp "lb.example.org" 18347 "lb7" "admin-token" false
     = (Some "ejfat://10.1.2.3:18347/lb/lb7?data=10.0.0.5:19522&sync=10.1.2.3:18000",
        [CallGetLoadBalancer "lb.example.org:18347"
           (mkGetLoadBalancerRequest "admin-token" "lb7");
         Resolve "lb.example.org"])
  /\ ReserveLoadBalancer_static ipv4_only_cp "lb.example.org" 18347 "test"
       "admin-token" (tv_sec scenario_now + 3600) true
     = (Some "ejfat://tok123@10.1.2.3:18347/lb/lb7?data=:19522&sync=10.1.2.3:18000",
        [CallReserveLoadBalancer "lb.example.org:18347"
           (ReserveRequest_of "admin-token" "test" 1700003600);
         Resolve "lb.example.org"])
  /\ GetLbUri ipv4_only_cp "other.example.org" 18347 "lb7" "admin-token" false
     = (Some "ejfat://other.example.org:18347/lb/lb7?data=10.0.0.5:19522&sync=other.example.org:18000",
        [CallGetLoadBalancer "other.example.org:18347"
           (mkGetLoadBalancerRequest "admin-token" "lb7");
         Resolve "other.example.org"]).
Proof.
  pose proof (control_plane_address resolving_cp "192.168.0.3" 18347 "test"
                "admin-token" (tv_sec scenario_now + 3600) "lb7" true
                eq_refl eq_refl) as (Hlit & _).
  pose proof (control_plane_address resolving_cp "cp.example.org" 18347 "test"
                "admin-token" (tv_sec scenario_now + 3600) "lb7" true
                eq_refl eq_refl) as (_ & Hname6 & _).
  pose proof (control_plane_address ipv4_only_cp "lb.example.org" 18347 "test"
                "admin-token" (tv_sec scenario_now + 3600) "lb7" false
                eq_refl eq_refl) as (_ & Hname4 & _).
  pose proof (control_plane_address ipv4_only_cp "lb.example.org" 18347 "test"
                "admin-token" (tv_sec scenario_now + 3600) "lb7" true
                eq_refl eq_refl) as (_ & Hfallback & _).
  pose proof (control_plane_address ipv4_only_cp "other.example.org" 18347
                "test" "admin-token" (tv_sec scenario_now + 3600) "lb7" false
                eq_refl eq_refl) as (_ & Hkept & _).
  destruct (Hlit eq_refl) as (Hreserve & _).
  destruct (Hname6 eq_refl "2001:db8:1:2:3:4:5:6") as (_ & Hlookup6).
  { left. split; [reflexivity|].
    split; [vm_compute; discriminate | vm_compute; reflexivity]. }
  destruct (Hname4 eq_refl "10.1.2.3") as (_ & Hlookup4).
  { right; left. split; [reflexivity|].
    split; [vm_compute; discriminate | vm_compute; reflexivity]. }
  destruct (Hfallback eq_refl "10.1.2.3") as (Hreserve4 & _).
  { right; right; left. split; [reflexivity|].
    split; [vm_compute; reflexivity|].
    split; [vm_compute; discriminate | vm_compute; reflexivity]. }
  destruct (Hkept eq_refl "other.example.org") as (_ & Hlookup0).
  { right; right; right. split; [left; reflexivity|].
    split; [vm_compute; reflexivity | reflexivity]. }
  split; [|split; [|split; [|split]]].
  - etransitivity; [exact Hreserve | vm_compute; reflexivity].
  - etransitivity; [exact Hlookup6 | vm_compute; reflexivity].
  - etransitivity; [exact Hlookup4 | vm_compute; reflexivity].
  - etransitivity; [exact Hreserve4 | vm_compute; reflexivity].
  - etransitivity; [exact Hlookup0 | vm_compute; reflexivity].
Defined.

(** C10: in the member [ReserveLoadBalancer], the static one and
    [GetLbUri], the work-around replaces the reply's sync address as
    soon as it is empty or shorter than 16 characters, and only then:
    the member function then stores the object's control-plane address
    as sync address, and the static functions write after [sync=] the
    same control-plane address they write as host of the URI.  Every
    address matching the dotted-decimal IPv4 pattern is shorter than 16
    characters, so it is always replaced.  The string returned by a
    static function is the URI text as [sprintf] leaves it in [url],
    that is the text itself whenever it fits. *)
Theorem sync_address_fallback cp r cpIP cpPort0 lbName0 adminToken0 until
    lbId0 (useIPv6 : bool) :
  let request_m :=
    ReserveRequest_of (adminToken r) (lbName r) (untilSeconds r) in
  let reply_m := snd (cp_ReserveLoadBalancer cp (stub_ r) request_m) in
  let target := cpIP +:+ ":" +:+ to_string (to_uint16 cpPort0) in
  let request := ReserveRequest_of adminToken0 lbName0 (to_int64 until) in
  let request_g := mkGetLoadBalancerRequest adminToken0 lbId0 in
  let reply := snd (cp_ReserveLoadBalancer cp target request) in
  let reply_g := snd (cp_GetLoadBalancer cp target request_g) in
  let ipAddr := fst (cp_ip_addr cp cpIP useIPv6) in
  let short (sync : string) :=
    sync = "" \/ (String.length sync < 16)%nat in
  let reserve_uri (syncIP : string) :=
    format_reserve_uri (rep_token reply) ipAddr (to_uint16 cpPort0)
      (rep_lbid reply)
      (if useIPv6 then rep_dataipv6address reply else rep_dataipv4address reply)
      19522 syncIP (rep_syncudpport reply) in
  let lookup_uri (syncIP : string) :=
    format_lookup_uri ipAddr (to_uint16 cpPort0) (rep_lbid reply_g)
      (if useIPv6 then rep_dataipv6address reply_g
       else rep_dataipv4address reply_g)
      19522 syncIP (rep_syncudpport reply_g) in
  let stored := getSyncAddr (snd (fst (ReserveLoadBalancer cp r))) in
  let reserved_uri :=
    fst (ReserveLoadBalancer_static cp cpIP cpPort0 lbName0 adminToken0
           until useIPv6) in
  let looked_up_uri :=
    fst (GetLbUri cp cpIP cpPort0 lbId0 adminToken0 useIPv6) in
  ok (fst (cp_ReserveLoadBalancer cp (stub_ r) request_m)) = true ->
  ok (fst (cp_ReserveLoadBalancer cp target request)) = true ->
  ok (fst (cp_GetLoadBalancer cp target request_g)) = true ->
  (* member function *)
  (short (rep_syncipaddress reply_m) -> stored = cpAddr r)
  /\ (~ short (rep_syncipaddress reply_m) -> stored = rep_syncipaddress reply_m)
  /\ (is_ipv4 (rep_syncipaddress reply_m) = true -> stored = cpAddr r)
  (* static ReserveLoadBalancer *)
  /\ (short (rep_syncipaddress reply) ->
      reserved_uri = sprintf_url (reserve_uri ipAddr))
  /\ (~ short (rep_syncipaddress reply) ->
      reserved_uri = sprintf_url (reserve_uri (rep_syncipaddress reply)))
  /\ (is_ipv4 (rep_syncipaddress reply) = true ->
      reserved_uri = sprintf_url (reserve_uri ipAddr))
  (* GetLbUri *)
  /\ (short (rep_syncipaddress reply_g) ->
      looked_up_uri = sprintf_url (lookup_uri ipAddr))
  /\ (~ short (rep_syncipaddress reply_g) ->
      looked_up_uri = sprintf_url (lookup_uri (rep_syncipaddress reply_g)))
  /\ (is_ipv4 (rep_syncipaddress reply_g) = true ->
      looked_up_uri = sprintf_url (lookup_uri ipAddr))
  /\ (forall text, fits_url text -> sprintf_url text = Some text).
Proof.
  intros request_m reply_m target request request_g reply reply_g ipAddr
    short reserve_uri lookup_uri stored reserved_uri looked_up_uri
    Hok_m Hok Hok_g.
  assert (Hv4 : forall sync, is_ipv4 sync = true -> short sync).
  { intros sync H. right. apply is_ipv4_length in H. lia. }
  assert (Hlong : forall sync, ~ short sync -> (16 <= String.length sync)%nat).
  { intros sync H. unfold short in H. lia. }
  assert (Hm : stored = sync_ip reply_m (cpAddr r)).
  { subst stored. rewrite (ReserveLoadBalancer_success cp r Hok_m). reflexivity. }
  assert (Hs : reserved_uri = sprintf_url (reserve_uri (sync_ip reply ipAddr))).
  { subst reserved_uri. rewrite ReserveLoadBalancer_static_eq. cbn [fst].
    fold target. fold request. rewrite Hok. reflexivity. }
  assert (Hg : looked_up_uri = sprintf_url (lookup_uri (sync_ip reply_g ipAddr))).
  { subst looked_up_uri. rewrite GetLbUri_eq. cbn [fst].
    fold target. fold request_g. rewrite Hok_g. reflexivity. }
  rewrite Hm, Hs, Hg.
  repeat split.
  - intros H. apply sync_ip_short, H.
  - intros H. apply sync_ip_long, Hlong, H.
  - intros H. apply sync_ip_short, Hv4, H.
  - intros H. rewrite (sync_ip_short _ _ H). reflexivity.
  - intros H. rewrite (sync_ip_long _ _ (Hlong _ H)). reflexivity.
  - intros H. rewrite (sync_ip_short _ _ (Hv4 _ H)). reflexivity.
  - intros H. rewrite (sync_ip_short _ _ H). reflexivity.
  - intros H. rewrite (sync_ip_long _ _ (Hlong _ H)). reflexivity.
  - intros H. rewrite (sync_ip_short _ _ (Hv4 _ H)). reflexivity.
  - exact sprintf_url_fits.
Qed.

Lemma sync_address_fallback_witness :
  getSyncAddr (snd (fst (ReserveLoadBalancer scenario_cp scenario_reservation)))
    = "192.168.0.3"
  /\ fst (ReserveLoadBalancer_static scenario_cp "192.168.0.3" 18347 "test"
            "admin-token" (tv_sec scenario_now + 3600) false)
     = Some "ejfat://tok123@192.168.0.3:18347/lb/lb7?data=10.0.0.5:19522&sync=192.168.0.3:18000"
  /\ fst (GetLbUri scenario_cp "192.168.0.3" 18347 "lb7" "admin-token" false)
     = Some "ejfat://192.168.0.3:18347/lb/lb7?data=10.0.0.5:19522&sync=192.168.0.3:18000".
Proof.
  pose proof (sync_address_fallback scenario_cp scenario_reservation
                "192.168.0.3" 18347 "test" "admin-token"
                (tv_sec scenario_now + 3600) "lb7" false
                eq_refl eq_refl eq_refl) as H.
  cbv zeta in H.
  destruct H as (_ & _ & Hm & _ & _ & Hs & _ & _ & Hg & _).
  split; [apply Hm; vm_compute; reflexivity|].
  split.
  - etransitivity; [apply Hs | ]; vm_compute; reflexivity.
  - etransitivity; [apply Hg | ]; vm_compute; reflexivity.
Defined.

End UriFacts.

(** * Further properties of the code *)

(** ** Histories of a backend session client *)

Section ClientHistoryFacts.

Import LbControlPlaneClient ClientHistory.

Implicit Types (c : t) (cp : ControlPlane) (k : call) (ks : list call).

(** No call changes what the client was configured with. *)
Lemma step_configuration c k :
  stub_ (snd (fst (step c k))) = stub_ c
  /\ RegisterRequest_of (snd (fst (step c k))) = RegisterRequest_of c
  /\ lbId (snd (fst (step c k))) = lbId c
  /\ cpAddr (snd (fst (step c k))) = cpAddr c
  /\ cpPort (snd (fst (step c k))) = cpPort c.
Proof.
  destruct k as [fill pidErr ready | cp | cp t1 | cp]; cbn [step].
  - repeat split; reflexivity.
  - unfold Register; cbv zeta.
    destruct (cp_Register cp (stub_ c) (RegisterRequest_of c)) as [status reply].
    destruct (ok status); repeat split; reflexivity.
  - rewrite SendState_unfold. repeat split; reflexivity.
  - rewrite Deregister_unfold. repeat split; reflexivity.
Qed.

Lemma last_registration_configuration c c' ks :
  stub_ c' = stub_ c -> RegisterRequest_of c' = RegisterRequest_of c ->
  last_registration c' ks = last_registration c ks.
Proof.
  intros Hs Hr. induction ks as [|k ks IH]; cbn [last_registration];
    [reflexivity|].
  rewrite IH. destruct (last_registration c ks); [reflexivity|].
  destruct k; cbn [registration_of]; try reflexivity.
  rewrite Hs, Hr. reflexivity.
Qed.

(** What one call does to the credentials, in terms of
    [registration_of]. *)
Lemma step_registration c k :
  (sessionId (snd (fst (step c k))), sessionToken (snd (fst (step c k))))
  = match registration_of c k with
    | Some reply => (regrep_sessionid reply, regrep_token reply)
    | None => (sessionId c, sessionToken c)
    end.
Proof.
  destruct k as [fill pidErr ready | cp | cp t1 | cp];
    cbn [step registration_of].
  - reflexivity.
  - unfold Register; cbv zeta.
    destruct (cp_Register cp (stub_ c) (RegisterRequest_of c)) as [status reply].
    destruct (ok status); reflexivity.
  - rewrite SendState_unfold. reflexivity.
  - rewrite Deregister_unfold. reflexivity.
Qed.

Lemma run_cons c k ks :
  run c (k :: ks) =
  (fst (run (snd (fst (step c k))) ks),
   snd (step c k) ++ snd (run (snd (fst (step c k))) ks)).
Proof.
  cbn [run]. destruct (step c k) as [[rc c'] evs]. cbn [fst snd].
  destruct (run c' ks) as [c'' evs']. reflexivity.
Qed.

Lemma run_configuration ks : forall c,
  stub_ (fst (run c ks)) = stub_ c /\ lbId (fst (run c ks)) = lbId c.
Proof.
  induction ks as [|k ks IH]; intros c; [split; reflexivity|].
  rewrite run_cons. cbn [fst].
  destruct (step_configuration c k) as (Hs & _ & Hl & _).
  destruct (IH (snd (fst (step c k)))) as (IHs & IHl).
  split; congruence.
Qed.

(** X1.  After any history of calls, the session id and session token of a
    client are those of the reply to the last [Register] of the history
    that the control plane accepted, and the ones it started with when
    there is none: a later failed [Register], a [SendState], a
    [Deregister] or an [update] never clears or replaces them, and a
    [Deregister] sent next carries exactly them. *)
Theorem session_is_last_registration c ks cp :
  let c' := fst (run c ks) in
  let session :=
    match last_registration c ks with
    | Some reply => (regrep_sessionid reply, regrep_token reply)
    | None => (sessionId c, sessionToken c)
    end in
  (sessionId c', sessionToken c') = session
  /\ snd (Deregister cp c') =
       [CallDeregister (stub_ c)
          {| dereg_token := snd session; dereg_lbid := lbId c;
             dereg_sessionid := fst session |}].
Proof.
  cbv zeta.
  assert (Hrun : forall ks c,
            (sessionId (fst (run c ks)), sessionToken (fst (run c ks)))
            = match last_registration c ks with
              | Some reply => (regrep_sessionid reply, regrep_token reply)
              | None => (sessionId c, sessionToken c)
              end
            /\ stub_ (fst (run c ks)) = stub_ c
            /\ lbId (fst (run c ks)) = lbId c).
  { clear. induction ks as [|k ks IH]; intros c.
    - repeat split; reflexivity.
    - rewrite run_cons. cbn [fst last_registration].
      destruct (step_configuration c k) as (Hs & Hr & Hl & _).
      destruct (IH (snd (fst (step c k)))) as (IHs & IHstub & IHlb).
      rewrite IHs, IHstub, IHlb, Hs, Hl.
      rewrite (last_registration_configuration c _ ks Hs Hr).
      split; [|split; reflexivity].
      destruct (last_registration c ks); [reflexivity|].
      apply step_registration. }
  destruct (Hrun ks c) as (Hsess & Hstub & Hlb).
  split; [exact Hsess|].
  rewrite Deregister_unfold. cbn [snd]. unfold DeregisterRequest_of.
  rewrite Hstub, Hlb. rewrite <- Hsess. reflexivity.
Qed.

Lemma step_events c k :
  Forall (fun ev => target_of ev = Some (stub_ c)) (snd (step c k))
  /\ List.length (snd (step c k)) = (if is_exchange k then 1 else 0)%nat.
Proof.
  destruct k as [fill pidErr ready | cp | cp t1 | cp];
    cbn [step snd is_exchange].
  - split; [constructor | reflexivity].
  - rewrite Register_events. split; [|reflexivity].
    constructor; [reflexivity | constructor].
  - rewrite SendState_unfold. split; [|reflexivity].
    constructor; [reflexivity | constructor].
  - rewrite Deregister_unfold. split; [|reflexivity].
    constructor; [reflexivity | constructor].
Qed.

(** X2.  Every exchange of a history goes to the channel target fixed by the
    constructor, [cpIP:cpPort], and there is exactly one exchange per
    [Register], [SendState] and [Deregister] call, none for [update]. *)
Theorem exchanges_of_history
    cpIP cpPort0 beIP bePort0 beRange0 cliName token0 lbId0 weight0 ks :
  let c0 := new cpIP cpPort0 beIP bePort0 beRange0 cliName token0 lbId0 weight0 in
  Forall (fun ev => target_of ev
                    = Some (cpIP +:+ ":" +:+ to_string (to_uint16 cpPort0)))
         (snd (run c0 ks))
  /\ List.length (snd (run c0 ks)) = List.length (List.filter is_exchange ks).
Proof.
  intros c0.
  assert (Hrun : forall ks c,
            Forall (fun ev => target_of ev = Some (stub_ c)) (snd (run c ks))
            /\ List.length (snd (run c ks))
               = List.length (List.filter is_exchange ks)).
  { clear. induction ks as [|k ks IH]; intros c.
    - split; [constructor | reflexivity].
    - rewrite run_cons. cbn [snd].
      destruct (step_configuration c k) as (Hs & _).
      destruct (IH (snd (fst (step c k)))) as (IHall & IHlen).
      destruct (step_events c k) as (Hall & Hlen).
      rewrite Hs in IHall. rewrite length_app, IHlen, Hlen.
      split; [apply Forall_app; split; assumption|].
      cbn [List.filter]. destruct (is_exchange k); reflexivity. }
  exact (Hrun ks c0).
Qed.

(** X3.  A [SendState] made after any history sends the telemetry of the
    last [update] of the history (or the values the object started
    with), the credentials of the last accepted [Register], the LB id
    given to the constructor and the clock reading of the call: no
    [Register], [SendState] or [Deregister] alters the telemetry. *)
Theorem SendState_request_after_history c ks cp t1 :
  let telemetry :=
    match last_update ks with
    | Some u => u
    | None => (fillPercent c, pidError c, isReady c)
    end in
  let session :=
    match last_registration c ks with
    | Some reply => (regrep_sessionid reply, regrep_token reply)
    | None => (sessionId c, sessionToken c)
    end in
  snd (SendState cp t1 (fst (run c ks))) =
    [CallSendState (stub_ c)
       {| ss_token := snd session;
          ss_lbid := lbId c;
          ss_sessionid := fst session;
          ss_timestamp := mkTimestamp (tv_sec t1) (tv_nsec t1);
          ss_fillpercent := fst (fst telemetry);
          ss_controlsignal := snd (fst telemetry);
          ss_isready := snd telemetry |}].
Proof.
  cbv zeta.
  assert (Htel : forall ks c,
            (fillPercent (fst (run c ks)), pidError (fst (run c ks)),
             isReady (fst (run c ks)))
            = match last_update ks with
              | Some u => u
              | None => (fillPercent c, pidError c, isReady c)
              end).
  { clear. induction ks as [|k ks IH]; intros c; [reflexivity|].
    rewrite run_cons. cbn [fst last_update]. rewrite IH.
    destruct (last_update ks); [reflexivity|].
    destruct k as [fill pidErr ready | cp | cp t1 | cp]; cbn [step].
    - reflexivity.
    - unfold Register; cbv zeta.
      destruct (cp_Register cp (stub_ c) (RegisterRequest_of c)) as [status reply].
      destruct (ok status); reflexivity.
    - rewrite SendState_unfold. reflexivity.
    - rewrite Deregister_unfold. reflexivity. }
  destruct (session_is_last_registration c ks cp) as [Hsess Hdereg].
  cbv zeta in Hsess, Hdereg.
  destruct (run_configuration ks c) as (Hstub & Hlb).
  rewrite SendState_unfold. cbn [snd]. unfold SendStateRequest_of.
  rewrite Hstub, Hlb. rewrite <- Hsess, <- (Htel ks c). reflexivity.
Qed.

End ClientHistoryFacts.

(** ** The control plane's record of a backend *)

Section BackEndFacts.

Import BackEnd BackEndHistory.

Implicit Types (b : t) (k : call) (ks : list call).

(** X4.  A [BackEnd] built from any Register request a client sends, at any
    point of any history of calls on it, holds what the client's
    constructor was given: name, LB id, token, weight, address, and the
    port and port range as 16-bit values. *)
Theorem BackEnd_of_client_registration
    cpIP cpPort0 beIP bePort0 beRange0 cliName token0 lbId0 weight0
    (ks : list LbControlPlaneClient.call) target req :
  let c0 := LbControlPlaneClient.new cpIP cpPort0 beIP bePort0 beRange0
              cliName token0 lbId0 weight0 in
  In (CallRegister target req) (snd (LbControlPlaneClient.run c0 ks)) ->
  let b := new req in
  getName b = cliName
  /\ getLbId b = lbId0
  /\ getAdminToken b = token0
  /\ getWeight b = weight0
  /\ getIpAddress b = beIP
  /\ getUdpPort b = to_uint16 bePort0
  /\ getUdpPort b = LbControlPlaneClient.bePort c0
  /\ getPortRange b = to_uint16 beRange0
  /\ getSessionId b = ""
  /\ getTime b = 0.
Proof.
  intros c0 Hin b.
  assert (Hreq : forall (ks : list LbControlPlaneClient.call) c,
            In (CallRegister target req) (snd (LbControlPlaneClient.run c ks)) ->
            req = LbControlPlaneClient.RegisterRequest_of c).
  { clear. induction ks as [|k ks IH]; intros c; [intros []|].
    rewrite run_cons. cbn [snd]. intros Hin. apply in_app_or in Hin as [Hin|Hin].
    - destruct k as [fill pidErr ready | cp | cp t1 | cp];
        cbn [LbControlPlaneClient.step] in Hin.
      + destruct Hin.
      + rewrite Register_events in Hin. destruct Hin as [[= _ <-] | []].
        reflexivity.
      + rewrite SendState_unfold in Hin. destruct Hin as [Hin | []].
        discriminate Hin.
      + rewrite Deregister_unfold in Hin. destruct Hin as [Hin | []].
        discriminate Hin.
    - apply IH in Hin. rewrite Hin.
      apply (step_configuration c k). }
  apply Hreq in Hin. subst b. rewrite Hin. subst c0.
  unfold getUdpPort, getPortRange. cbn.
  rewrite to_uint16_idem. repeat split; reflexivity.
Qed.

Lemma BackEnd_of_client_registration_witness :
  getUdpPort
    (new (LbControlPlaneClient.RegisterRequest_of
            (LbControlPlaneClient.new "192.168.0.3" 18347 "192.168.0.10"
               83286 0 "be1" "tok123" "lb7" 1)))
  = 17750.
Proof.
  pose proof (BackEnd_of_client_registration "192.168.0.3" 18347
                "192.168.0.10" 83286 0 "be1" "tok123" "lb7" 1
                [LbControlPlaneClient.DoUpdate 40 3 true;
                 LbControlPlaneClient.DoRegister failing_cp;
                 LbControlPlaneClient.DoRegister scenario_cp]
                "192.168.0.3:18347"
                (LbControlPlaneClient.RegisterRequest_of
                   (LbControlPlaneClient.new "192.168.0.3" 18347
                      "192.168.0.10" 83286 0 "be1" "tok123" "lb7" 1))) as H.
  cbv zeta in H.
  destruct H as (_ & _ & _ & _ & _ & Hport & _).
  - vm_compute. left. reflexivity.
  - etransitivity; [exact Hport | vm_compute; reflexivity].
Defined.

Lemma run_cons_BackEnd b k ks : run b (k :: ks) = run (step b k) ks.
Proof. reflexivity. Qed.

(** X5.  Whatever state messages and activity flags a record receives, what
    registration put in it stays: name, LB id, token, weight, address,
    port and port range never change, the port and port range are
    16-bit values, the instance token stays empty, and the readiness
    flag is never assigned, not even from a state message; and
    [getTime] is always the millisecond form of [getTimestamp]. *)
Theorem BackEnd_registration_is_fixed req ks :
  let b := run (new req) ks in
  getName b = reg_name req
  /\ getLbId b = reg_lbid req
  /\ getAdminToken b = reg_token req
  /\ getWeight b = reg_weight req
  /\ getIpAddress b = reg_ipaddress req
  /\ getUdpPort b = to_uint16 (reg_udpport req)
  /\ getPortRange b = to_uint16 (reg_portrange req)
  /\ 0 <= getUdpPort b < 65536
  /\ 0 <= getPortRange b < 65536
  /\ instanceToken b = ""
  /\ getIsReady b = None
  /\ getTime b = TimestampToMilliseconds (getTimestamp b).
Proof.
  intros b.
  assert (Hinv : forall ks b0,
            let b1 := run b0 ks in
            (name b1, lbId b1, adminToken b1, weight b1, ipAddress b1,
             udpPort b1, portRange b1, instanceToken b1, isReady b1)
            = (name b0, lbId b0, adminToken b0, weight b0, ipAddress b0,
               udpPort b0, portRange b0, instanceToken b0, isReady b0)
            /\ (time b0 = TimestampToMilliseconds (timestamp b0) ->
                time b1 = TimestampToMilliseconds (timestamp b1))).
  { clear. induction ks as [|k ks IH]; intros b0; cbv zeta.
    - split; [reflexivity | auto].
    - rewrite run_cons_BackEnd. destruct (IH (step b0 k)) as [IHf IHt].
      cbv zeta in IHf, IHt. rewrite IHf. split.
      + destruct k; reflexivity.
      + intros H0. apply IHt.
        destruct k as [state [|] now_ms | active]; cbn; auto. }
  destruct (Hinv ks (new req)) as [Hf Ht]. cbv zeta in Hf, Ht.
  fold b in Hf, Ht. injection Hf as Hn Hl Ha Hw Hi Hu Hp Hit Hr.
  unfold getName, getLbId, getAdminToken, getWeight, getIpAddress,
    getUdpPort, getPortRange, getIsReady, getTime, getTimestamp.
  rewrite Hn, Hl, Ha, Hw, Hi, Hu, Hp, Hit, Hr. cbn [new name lbId adminToken
    weight ipAddress udpPort portRange instanceToken isReady].
  pose proof (Z.mod_pos_bound (reg_udpport req) 65536) as Hb1.
  pose proof (Z.mod_pos_bound (reg_portrange req) 65536) as Hb2.
  do 7 (split; [reflexivity|]).
  split; [unfold to_uint16; lia|].
  split; [unfold to_uint16; lia|].
  split; [reflexivity|]. split; [reflexivity|].
  apply Ht. reflexivity.
Qed.

(** X6.  After any history, the session id and the local receipt time of a
    record are those of the last state message, its timestamp and
    [getTime] those of the last state message that had a timestamp,
    and the activity flag the last one set; a message without a
    timestamp refreshes the receipt time and the session id and keeps
    the reported time. *)
Theorem BackEnd_holds_last_state b ks :
  let b' := run b ks in
  (getSessionId b', getLocalTime b')
  = match last_state ks with
    | Some (state, now_ms) => (ss_sessionid state, now_ms)
    | None => (getSessionId b, getLocalTime b)
    end
  /\ (getTimestamp b', getTime b')
     = match last_timestamp ks with
       | Some ts => (ts, TimestampToMilliseconds ts)
       | None => (getTimestamp b, getTime b)
       end
  /\ getIsActive b'
     = match last_active ks with
       | Some active => Some active
       | None => getIsActive b
       end.
Proof.
  cbv zeta. revert b. induction ks as [|k ks IH]; intros b.
  - repeat split; reflexivity.
  - rewrite run_cons_BackEnd. destruct (IH (step b k)) as (IHs & IHt & IHa).
    rewrite IHs, IHt, IHa. cbn [last_state last_timestamp last_active].
    split; [|split].
    + destruct (last_state ks) as [[state now_ms]|]; [reflexivity|].
      destruct k; reflexivity.
    + destruct (last_timestamp ks); [reflexivity|].
      destruct k as [state [|] now_ms | active]; reflexivity.
    + destruct (last_active ks); [reflexivity|].
      destruct k; reflexivity.
Qed.

End BackEndFacts.

(** ** Histories of a reservation object *)

Section ReservationHistoryFacts.

Import LbReservation ReservationHistory.

Implicit Types (r : t) (cp : ControlPlane) (k : call) (ks : list call).

Lemma run_cons_reservation r k ks :
  run r (k :: ks) =
  (fst (run (snd (fst (step r k))) ks),
   snd (step r k) ++ snd (run (snd (fst (step r k))) ks)).
Proof.
  cbn [run]. destruct (step r k) as [[rc r'] evs]. cbn [fst snd].
  destruct (run r' ks) as [r'' evs']. reflexivity.
Qed.

(** The three outcomes of one call, side by side. *)
Lemma step_cases r k :
  step r k =
  match k with
  | DoReserve cp =>
      let request :=
        ReserveRequest_of (adminToken r) (lbName r) (untilSeconds r) in
      let out := cp_ReserveLoadBalancer cp (stub_ r) request in
      (if ok (fst out) then 0 else 1,
       if ok (fst out)
       then set_reservation r (snd out) (sync_ip (snd out) (cpAddr r)) else r,
       [CallReserveLoadBalancer (stub_ r) request])
  | DoFree cp =>
      let request := mkFreeLoadBalancerRequest (adminToken r) (lbId r) in
      (if ok (cp_FreeLoadBalancer cp (stub_ r) request) then 0 else 1, r,
       [CallFreeLoadBalancer (stub_ r) request])
  | DoStatus cp =>
      let request := mkLoadBalancerStatusRequest (adminToken r) (lbId r) in
      let out := cp_LoadBalancerStatus cp (stub_ r) request in
      (if ok (fst out) then 0 else 1,
       if ok (fst out)
       then set_clientStats r (store_workers (clientStats r) (workers (snd out)))
       else r,
       [CallLoadBalancerStatus (stub_ r) request])
  | DoReserved now => (Z.b2z (reserved now r), r, [])
  | DoReservationElapsed now => (Z.b2z (reservationElapsed now r), r, [])
  end.
Proof.
  destruct k as [cp | cp | cp | now | now]; cbn [step]; cbv zeta.
  - unfold ReserveLoadBalancer; cbv zeta.
    destruct (cp_ReserveLoadBalancer _ _ _) as [status reply]. cbn [fst snd].
    destruct (ok status); reflexivity.
  - apply FreeLoadBalancer_unfold.
  - unfold LoadBalancerStatus; cbv zeta.
    destruct (cp_LoadBalancerStatus _ _ _) as [status reply]. cbn [fst snd].
    destruct (ok status); reflexivity.
  - reflexivity.
  - reflexivity.
Qed.

(** No call changes what the object was constructed with. *)
Lemma step_constructed r k :
  let r' := snd (fst (step r k)) in
  stub_ r' = stub_ r /\ cpAddr r' = cpAddr r /\ cpPort r' = cpPort r
  /\ lbName r' = lbName r /\ adminToken r' = adminToken r
  /\ untilSeconds r' = untilSeconds r.
Proof.
  cbv zeta. rewrite step_cases.
  destruct k as [cp | cp | cp | now | now]; cbv zeta; cbn [fst snd];
    try (repeat split; reflexivity);
    match goal with |- context [ok ?s] => destruct (ok s) end;
    repeat split; reflexivity.
Qed.

Lemma run_constructed ks : forall r,
  let r' := fst (run r ks) in
  stub_ r' = stub_ r /\ cpAddr r' = cpAddr r /\ cpPort r' = cpPort r
  /\ lbName r' = lbName r /\ adminToken r' = adminToken r
  /\ untilSeconds r' = untilSeconds r.
Proof.
  induction ks as [|k ks IH]; intros r; cbv zeta.
  - repeat split; reflexivity.
  - rewrite run_cons_reservation. cbn [fst].
    destruct (step_constructed r k) as (H1 & H2 & H3 & H4 & H5 & H6).
    destruct (IH (snd (fst (step r k)))) as (I1 & I2 & I3 & I4 & I5 & I6).
    repeat split; congruence.
Qed.

Lemma last_reservation_constructed r r' ks :
  stub_ r' = stub_ r -> adminToken r' = adminToken r ->
  lbName r' = lbName r -> untilSeconds r' = untilSeconds r ->
  last_reservation r' ks = last_reservation r ks.
Proof.
  intros Hs Ha Hl Hu. induction ks as [|k ks IH]; cbn [last_reservation];
    [reflexivity|].
  rewrite IH. destruct (last_reservation r ks); [reflexivity|].
  destruct k; cbn [reservation_of]; try reflexivity.
  rewrite Hs, Ha, Hl, Hu. reflexivity.
Qed.

Lemma step_granted r k :
  granted (snd (fst (step r k)))
  = match reservation_of r k with
    | Some reply =>
        (true, rep_token reply, rep_lbid reply, sync_ip reply (cpAddr r),
         to_uint16 (rep_syncudpport reply), rep_dataipv4address reply,
         rep_dataipv6address reply)
    | None => granted r
    end.
Proof.
  rewrite step_cases.
  destruct k as [cp | cp | cp | now | now]; cbv zeta;
    cbn [fst snd reservation_of]; try reflexivity.
  - destruct (cp_ReserveLoadBalancer _ _ _) as [status reply]. cbn [fst snd].
    destruct (ok status); reflexivity.
  - destruct (ok _); reflexivity.
Qed.

(** X7.  After any history of calls, what the object holds of a reservation
    (reserved flag, instance token, LB id, sync address and port, data
    addresses) is what the last accepted [ReserveLoadBalancer] of the
    history stored, a later failed one leaving it in place, and what
    the object started with when there is none; frees and status polls
    change none of it.  A [FreeLoadBalancer] or a [LoadBalancerStatus]
    made next sends the constructor's admin token with that LB id,
    which is the empty string while nothing was ever reserved. *)
Theorem reservation_is_last_reserve r ks cp :
  let r' := fst (run r ks) in
  let held :=
    match last_reservation r ks with
    | Some reply =>
        (true, rep_token reply, rep_lbid reply, sync_ip reply (cpAddr r),
         to_uint16 (rep_syncudpport reply), rep_dataipv4address reply,
         rep_dataipv6address reply)
    | None => granted r
    end in
  granted r' = held
  /\ snd (FreeLoadBalancer cp r') =
       [CallFreeLoadBalancer (stub_ r)
          (mkFreeLoadBalancerRequest (adminToken r) (lbId r'))]
  /\ snd (LoadBalancerStatus cp r') =
       [CallLoadBalancerStatus (stub_ r)
          (mkLoadBalancerStatusRequest (adminToken r) (lbId r'))]
  /\ (forall cpIP cpPort0 name admintoken until,
        lbId (new cpIP cpPort0 name admintoken until) = ""
        /\ isReserved (new cpIP cpPort0 name admintoken until) = false).
Proof.
  cbv zeta.
  assert (Hrun : forall ks r,
            granted (fst (run r ks))
            = match last_reservation r ks with
              | Some reply =>
                  (true, rep_token reply, rep_lbid reply,
                   sync_ip reply (cpAddr r),
                   to_uint16 (rep_syncudpport reply),
                   rep_dataipv4address reply, rep_dataipv6address reply)
              | None => granted r
              end).
  { clear. induction ks as [|k ks IH]; intros r; [reflexivity|].
    rewrite run_cons_reservation. cbn [fst last_reservation].
    destruct (step_constructed r k) as (H1 & H2 & H3 & H4 & H5 & H6).
    rewrite IH, (last_reservation_constructed r _ ks H1 H5 H4 H6), H2.
    destruct (last_reservation r ks); [reflexivity|].
    apply step_granted. }
  destruct (run_constructed ks r) as (H1 & H2 & H3 & H4 & H5 & H6).
  split; [apply Hrun|].
  split.
  { rewrite FreeLoadBalancer_unfold. cbn [snd]. rewrite H1, H5. reflexivity. }
  split.
  { pose proof (step_cases (fst (run r ks)) (DoStatus cp)) as Hst.
    cbn [step] in Hst. rewrite Hst. cbv zeta. cbn [snd].
    rewrite H1, H5. reflexivity. }
  intros; split; reflexivity.
Qed.

Lemma step_events_reservation r k :
  Forall (fun ev => target_of ev = Some (stub_ r)
                    /\ forall target req,
                         ev = CallReserveLoadBalancer target req ->
                         req = ReserveRequest_of (adminToken r) (lbName r)
                                 (untilSeconds r))
         (snd (step r k))
  /\ List.length (snd (step r k)) = (if is_exchange k then 1 else 0)%nat.
Proof.
  rewrite step_cases.
  destruct k as [cp | cp | cp | now | now]; cbv zeta; cbn [snd is_exchange];
    (split; [|reflexivity]); repeat constructor;
    try (intros target req [= _ <-]; reflexivity);
    intros target req Heq; discriminate Heq.
Qed.

(** X8.  Every exchange of a history on a reservation object goes to the
    channel target fixed by the constructor, [cpIP:cpPort]; there is
    exactly one exchange per [ReserveLoadBalancer], [FreeLoadBalancer]
    and [LoadBalancerStatus] call and none for the two predicates; and
    every Reserve request of the history is the same: the constructor's
    admin token and LB name, and its expiry instant with zero
    nanoseconds, whatever happened before. *)
Theorem reservation_exchanges cpIP cpPort0 name admintoken until ks :
  let r0 := new cpIP cpPort0 name admintoken until in
  Forall (fun ev =>
            target_of ev = Some (cpIP +:+ ":" +:+ to_string (to_uint16 cpPort0))
            /\ forall target req,
                 ev = CallReserveLoadBalancer target req ->
                 req = {| res_token := admintoken; res_name := name;
                          res_until := mkTimestamp (to_int64 until) 0 |})
         (snd (run r0 ks))
  /\ List.length (snd (run r0 ks)) = List.length (List.filter is_exchange ks).
Proof.
  intros r0.
  assert (Hrun : forall ks r,
            Forall (fun ev => target_of ev = Some (stub_ r)
                              /\ forall target req,
                                   ev = CallReserveLoadBalancer target req ->
                                   req = ReserveRequest_of (adminToken r)
                                           (lbName r) (untilSeconds r))
                   (snd (run r ks))
            /\ List.length (snd (run r ks))
               = List.length (List.filter is_exchange ks)).
  { clear. induction ks as [|k ks IH]; intros r.
    - split; [constructor | reflexivity].
    - rewrite run_cons_reservation. cbn [snd].
      destruct (step_constructed r k) as (H1 & H2 & H3 & H4 & H5 & H6).
      destruct (IH (snd (fst (step r k)))) as (IHall & IHlen).
      destruct (step_events_reservation r k) as (Hall & Hlen).
      rewrite H1, H4, H5, H6 in IHall. rewrite length_app, IHlen, Hlen.
      split; [apply Forall_app; split; assumption|].
      cbn [List.filter]. destruct (is_exchange k); reflexivity. }
  exact (Hrun ks r0).
Qed.

(** X9.  The expiry instant is fixed by the constructor and nothing moves
    it: once [reservationElapsed] has answered true, it answers true at
    every later clock reading and [reserved] answers false, whatever
    calls are made in between, a new successful [ReserveLoadBalancer]
    included. *)
Theorem reservation_never_revives cpIP cpPort0 name admintoken until
    ks1 ks2 t1 t2 :
  let r1 := fst (run (new cpIP cpPort0 name admintoken until) ks1) in
  let r2 := fst (run r1 ks2) in
  tv_sec t1 <= tv_sec t2 ->
  reservationElapsed t1 r1 = true ->
  reservationElapsed t2 r2 = true /\ reserved t2 r2 = false.
Proof.
  intros r1 r2 Hle Hel.
  destruct (run_constructed ks2 r1) as (_ & _ & _ & _ & _ & Hu).
  fold r2 in Hu.
  assert (Hel2 : reservationElapsed t2 r2 = true).
  { unfold reservationElapsed in *. rewrite Hu.
    destruct (tv_sec t1 >? untilSeconds r1) eqn:H1; [|discriminate Hel].
    apply Z.gtb_lt in H1.
    destruct (tv_sec t2 >? untilSeconds r1) eqn:H2; [reflexivity|].
    rewrite Z.gtb_ltb in H2. apply Z.ltb_ge in H2. lia. }
  split; [exact Hel2|]. unfold reserved. rewrite Hel2. apply andb_false_r.
Qed.

Lemma reservation_never_revives_witness :
  reserved (mkTimespec 1700003700 0)
    (fst (run (fst (run scenario_reservation [DoReserve scenario_cp]))
              [DoFree scenario_cp; DoReserve scenario_cp]))
  = false.
Proof.
  apply (reservation_never_revives "192.168.0.3" 18347 "test" "admin-token"
           (tv_sec scenario_now + 3600) [DoReserve scenario_cp]
           [DoFree scenario_cp; DoReserve scenario_cp]
           (mkTimespec 1700003601 0) (mkTimespec 1700003700 0)).
  - vm_compute. discriminate.
  - vm_compute. reflexivity.
Defined.

Lemma dom_store_workers ws : forall m : gmap string LbClientStatus,
  dom (store_workers m ws) = dom m ∪ list_to_set (map w_name ws).
Proof.
  induction ws as [|w ws IH]; intros m; cbn [store_workers fold_left map].
  - rewrite list_to_set_nil, union_empty_r_L. reflexivity.
  - fold (store_workers (store_worker m w) ws).
    rewrite IH, store_worker_insert, dom_insert_L, list_to_set_cons.
    rewrite (comm_L (∪) {[w_name w]} (dom m)), <- (assoc_L (∪)). reflexivity.
Qed.

(** X10.  A [LoadBalancerStatus] call touches nothing but the Client Stats
    map; when the exchange fails it returns 1 and the map is untouched
    too; when it succeeds the names of the map are the names it had
    together with the names of the reply, so an empty reply changes no
    name, and the map grows by at most the number of reported workers. *)
Theorem LoadBalancerStatus_frame cp r :
  let status :=
    fst (cp_LoadBalancerStatus cp (stub_ r)
           (mkLoadBalancerStatusRequest (adminToken r) (lbId r))) in
  let ws :=
    workers (snd (cp_LoadBalancerStatus cp (stub_ r)
                    (mkLoadBalancerStatusRequest (adminToken r) (lbId r)))) in
  let r' := snd (fst (LoadBalancerStatus cp r)) in
  set_clientStats r' (clientStats r) = set_clientStats r (clientStats r)
  /\ fst (fst (LoadBalancerStatus cp r)) = (if ok status then 0 else 1)
  /\ (if ok status
      then dom (clientStats r')
           = dom (clientStats r) ∪ list_to_set (map w_name ws)
      else r' = r)
  /\ (size (clientStats r') <= size (clientStats r) + List.length ws)%nat.
Proof.
  intros status ws r'.
  pose proof (step_cases r (DoStatus cp)) as Hst. cbn [step] in Hst.
  cbv zeta in Hst. fold status in Hst. fold ws in Hst.
  assert (Hr' : r' = if ok status
                     then set_clientStats r (store_workers (clientStats r) ws)
                     else r)
    by (subst r'; rewrite Hst; reflexivity).
  assert (Hsize : forall ws (m : gmap string LbClientStatus),
            (size (store_workers m ws) <= size m + List.length ws)%nat).
  { clear. induction ws as [|w ws IH]; intros m;
      cbn [store_workers fold_left List.length]; [lia|].
    fold (store_workers (store_worker m w) ws).
    specialize (IH (store_worker m w)). rewrite store_worker_insert in IH |- *.
    pose proof (map_size_insert (w_name w) (snapshot_of w) m) as Hins.
    destruct (m !! w_name w); cbn [id] in Hins; lia. }
  rewrite Hst. cbn [fst snd]. fold r'. rewrite Hr'.
  destruct (ok status).
  - split; [reflexivity|]. split; [reflexivity|].
    split; [apply dom_store_workers|]. apply Hsize.
  - split; [reflexivity|]. split; [reflexivity|]. split; [reflexivity|]. lia.
Qed.

(** X11.  The Client Stats map only ever gains names: through any history of
    calls every name present stays present, and a history without a
    [LoadBalancerStatus] call leaves the map exactly as it was -- a new
    reservation or a free does not reset the statistics gathered for
    the previous one. *)
Theorem clientStats_only_grows r ks :
  dom (clientStats r) ⊆ dom (clientStats (fst (run r ks)))
  /\ clientStats
       (fst (run r (List.filter (fun k => negb (is_Status k)) ks)))
     = clientStats r.
Proof.
  split.
  - revert r. induction ks as [|k ks IH]; intros r; [reflexivity|].
    rewrite run_cons_reservation. cbn [fst].
    etransitivity; [|apply IH].
    rewrite step_cases.
    destruct k as [cp | cp | cp | now | now]; cbv zeta; cbn [fst snd];
      try reflexivity.
    + destruct (ok _); reflexivity.
    + destruct (ok _); [|reflexivity].
      cbn [clientStats set_clientStats]. rewrite dom_store_workers.
      apply union_subseteq_l.
  - revert r. induction ks as [|k ks IH]; intros r; [reflexivity|].
    destruct k as [cp | cp | cp | now | now];
      cbn [List.filter is_Status negb]; try apply IH;
      rewrite run_cons_reservation; cbn [fst]; rewrite IH, step_cases;
      cbv zeta; cbn [fst snd]; try reflexivity.
    destruct (ok _); reflexivity.
Qed.

(** X12.  On an object built by the constructor, at any point of any history,
    the static [FreeLoadBalancer] and [LoadBalancerStatus] called with
    the object's own control-plane address and port, LB id, admin token
    and map do exactly what the member functions do: same exchange,
    same result code, same map afterwards. *)
Theorem static_agrees_with_member cpIP cpPort0 name admintoken until ks cp :
  let r := fst (run (new cpIP cpPort0 name admintoken until) ks) in
  FreeLoadBalancer_static cp (cpAddr r) (cpPort r) (lbId r) (adminToken r)
    = (fst (fst (FreeLoadBalancer cp r)), snd (FreeLoadBalancer cp r))
  /\ LoadBalancerStatus_static cp (cpAddr r) (cpPort r) (lbId r)
       (adminToken r) (clientStats r)
     = (fst (fst (LoadBalancerStatus cp r)),
        clientStats (snd (fst (LoadBalancerStatus cp r))),
        snd (LoadBalancerStatus cp r)).
Proof.
  intros r.
  destruct (run_constructed ks (new cpIP cpPort0 name admintoken until))
    as (H1 & H2 & H3 & _).
  fold r in H1, H2, H3.
  assert (Htarget : cpAddr r +:+ ":" +:+ to_string (to_uint16 (cpPort r))
                    = stub_ r).
  { rewrite H1, H2, H3. cbn [new stub_ cpAddr cpPort].
    rewrite to_uint16_idem. reflexivity. }
  split.
  - unfold FreeLoadBalancer_static; cbv zeta. rewrite Htarget.
    rewrite FreeLoadBalancer_unfold. cbn [fst snd].
    destruct (ok _); reflexivity.
  - unfold LoadBalancerStatus_static; cbv zeta. rewrite Htarget.
    pose proof (step_cases r (DoStatus cp)) as Hst. cbn [step] in Hst.
    rewrite Hst. cbv zeta. cbn [fst snd].
    destruct (cp_LoadBalancerStatus _ _ _) as [status reply]. cbn [fst snd].
    destruct (ok status); reflexivity.
Qed.

End ReservationHistoryFacts.

(** * Address literals and host-name resolution *)

Section AddressFacts.

Implicit Types (r : regex) (s g : string) (c sep : ascii) (l : list string)
  (p q : ascii -> bool).

Lemma lang_min_length r :
  forall s, lang r s -> (min_len r <= String.length s)%nat.
Proof.
  induction r as [| |ranges|r1 IH1 r2 IH2|r1 IH1 r2 IH2]; intros s;
    cbn [lang min_len].
  - intros [].
  - intros ->. cbn. lia.
  - intros (c & -> & _). cbn. lia.
  - intros (s1 & s2 & -> & H1 & H2). rewrite length_append.
    specialize (IH1 _ H1). specialize (IH2 _ H2). lia.
  - intros [H | H]; [specialize (IH1 _ H) | specialize (IH2 _ H)]; lia.
Qed.

(** A string whose pieces between separators consist of characters of
    [p] consists of characters of [p], if the separator is one. *)
Lemma all_chars_split_on p sep s :
  p sep = true ->
  forallb (all_chars p) (split_on sep s) = true ->
  all_chars p s = true.
Proof.
  intros Hsep. induction s as [|c s IH]; cbn [split_on all_chars];
    [reflexivity|].
  destruct (Ascii.eqb_spec c sep) as [->|Hne].
  - cbn [forallb all_chars]. intros H. rewrite Hsep, (IH H). reflexivity.
  - destruct (split_on sep s) as [|piece pieces] eqn:Hs.
    + exfalso. exact (split_on_nonempty sep s Hs).
    + cbn [forallb all_chars] in *. intros H.
      apply andb_true_iff in H as [H1 H2].
      apply andb_true_iff in H1 as [Hc Hpiece].
      rewrite Hc, IH; [reflexivity|]. rewrite Hpiece, H2. reflexivity.
Qed.

Lemma forallb_impl {A} (f g : A -> bool) (xs : list A) :
  (forall x, f x = true -> g x = true) ->
  forallb f xs = true -> forallb g xs = true.
Proof.
  intros Hfg. induction xs as [|x xs IH]; cbn [forallb]; [reflexivity|].
  intros H. apply andb_true_iff in H as [Hx Hxs].
  rewrite (Hfg x Hx), (IH Hxs). reflexivity.
Qed.

Lemma is_ipv4_chars s : is_ipv4 s = true -> all_chars is_ipv4_char s = true.
Proof.
  rewrite is_ipv4_dotted_quad. unfold dotted_quad, separated.
  intros H. apply andb_true_iff in H as [_ Hall].
  apply (all_chars_split_on is_ipv4_char "."); [reflexivity|].
  revert Hall. apply forallb_impl. intros g Hg.
  apply is_octet_iff in Hg as (_ & Hdigits & _).
  revert Hdigits. apply all_chars_impl.
  intros c Hc. unfold is_ipv4_char. rewrite Hc. reflexivity.
Qed.

Lemma is_ipv6_chars s : is_ipv6 s = true -> all_chars is_ipv6_char s = true.
Proof.
  rewrite is_ipv6_colon_groups. unfold colon_groups, separated.
  intros H. apply andb_true_iff in H as [_ Hall].
  apply (all_chars_split_on is_ipv6_char ":"); [reflexivity|].
  revert Hall. apply forallb_impl. intros g Hg.
  unfold is_hex_group in Hg. apply andb_true_iff in Hg as [_ Hhex].
  revert Hhex. apply all_chars_impl.
  intros c Hc. unfold is_ipv6_char. rewrite Hc. reflexivity.
Qed.

Lemma c_str_no_NUL s :
  all_chars (fun c => negb (Ascii.eqb c zero)) s = true -> c_str s = s.
Proof.
  induction s as [|c s IH]; cbn [all_chars c_str]; [reflexivity|].
  intros H. apply andb_true_iff in H as [Hc Hs].
  apply negb_true_iff in Hc. rewrite Hc, (IH Hs). reflexivity.
Qed.

Lemma is_ipv4_char_codes c :
  is_ipv4_char c = true ->
  (48 <= nat_of_ascii c <= 57)%nat \/ nat_of_ascii c = 46%nat.
Proof.
  unfold is_ipv4_char. rewrite orb_true_iff, is_digit_bounds.
  intros [H | H]; [left; exact H | right].
  apply Ascii.eqb_eq in H. subst c. reflexivity.
Qed.

Lemma is_ipv6_char_codes c :
  is_ipv6_char c = true ->
  (48 <= nat_of_ascii c <= 58)%nat \/ (97 <= nat_of_ascii c <= 102)%nat
  \/ (65 <= nat_of_ascii c <= 70)%nat.
Proof.
  unfold is_ipv6_char. rewrite orb_true_iff.
  intros [H | H].
  - apply is_hex_digit_bounds in H. lia.
  - apply Ascii.eqb_eq in H. subst c. left.
    change (nat_of_ascii ":") with 58%nat. lia.
Qed.

Lemma code_neq c c' : nat_of_ascii c <> nat_of_ascii c' ->
  negb (Ascii.eqb c c') = true.
Proof.
  intros H. apply negb_true_iff, Ascii.eqb_neq. intros ->. apply H. reflexivity.
Qed.

Lemma is_ipv4_c_str s : is_ipv4 s = true -> c_str s = s.
Proof.
  intros H. apply c_str_no_NUL. apply is_ipv4_chars in H. revert H.
  apply all_chars_impl. intros c Hc. apply is_ipv4_char_codes in Hc.
  apply code_neq. change (nat_of_ascii zero) with 0%nat. lia.
Qed.

Lemma is_ipv6_c_str s : is_ipv6 s = true -> c_str s = s.
Proof.
  intros H. apply c_str_no_NUL. apply is_ipv6_chars in H. revert H.
  apply all_chars_impl. intros c Hc. apply is_ipv6_char_codes in Hc.
  apply code_neq. change (nat_of_ascii zero) with 0%nat. lia.
Qed.

(** No string is both an IPv4 and an IPv6 literal: the first has dots,
    the second has none. *)
Lemma is_ipv6_not_ipv4 s : is_ipv6 s = true -> is_ipv4 s = false.
Proof.
  intros H6. rewrite is_ipv4_dotted_quad. unfold dotted_quad, separated.
  assert (Hfree : sep_free "." s = true).
  { apply is_ipv6_chars in H6. unfold sep_free. revert H6.
    apply all_chars_impl. intros c Hc. apply is_ipv6_char_codes in Hc.
    apply code_neq. change (nat_of_ascii ".") with 46%nat. lia. }
  rewrite (split_on_free "." s Hfree). reflexivity.
Qed.

Lemma is_ipv4_not_ipv6 s : is_ipv4 s = true -> is_ipv6 s = false.
Proof.
  intros H4. destruct (is_ipv6 s) eqn:H6; [|reflexivity].
  rewrite (is_ipv6_not_ipv4 s H6) in H4. discriminate H4.
Qed.

Lemma is_ipv4_min_length s : is_ipv4 s = true -> (7 <= String.length s)%nat.
Proof.
  intros H. apply regex_match_lang, lang_min_length in H. exact H.
Qed.

Lemma is_ipv6_min_length s : is_ipv6 s = true -> (15 <= String.length s)%nat.
Proof.
  intros H. apply regex_match_lang, lang_min_length in H. exact H.
Qed.

(** X13.  What the two patterns of lb_cplane.cc accept.  A string
    accepted by [is_ipv4] or by [is_ipv6] is accepted by only one of
    them, contains no NUL byte (so [c_str()] and [%s] read it whole), and
    has between 7 and 39 characters; an IPv4 literal is made of decimal
    digits and dots and has at most 15 characters; an IPv6 literal is
    made of hexadecimal digits and colons and has at least 15. *)
Theorem address_literal_text s :
  is_ipv4 s || is_ipv6 s = true ->
  is_ipv4 s && is_ipv6 s = false
  /\ c_str s = s
  /\ (7 <= String.length s <= 39)%nat
  /\ (if is_ipv4 s
      then all_chars is_ipv4_char s = true /\ (String.length s <= 15)%nat
      else all_chars is_ipv6_char s = true /\ (15 <= String.length s)%nat).
Proof.
  intros H. destruct (is_ipv4 s) eqn:H4.
  - clear H. rewrite (is_ipv4_not_ipv6 s H4). split; [reflexivity|].
    split; [exact (is_ipv4_c_str s H4)|].
    pose proof (is_ipv4_min_length s H4). pose proof (is_ipv4_length s H4).
    split; [lia|]. split; [exact (is_ipv4_chars s H4) | lia].
  - cbn [orb] in H. split; [reflexivity|].
    split; [exact (is_ipv6_c_str s H)|].
    pose proof (is_ipv6_min_length s H). pose proof (is_ipv6_length s H).
    split; [lia|]. split; [exact (is_ipv6_chars s H) | lia].
Qed.

Lemma address_literal_text_witness :
  is_ipv4 "192.168.0.3" && is_ipv6 "192.168.0.3" = false
  /\ c_str "192.168.0.3" = "192.168.0.3"
  /\ (7 <= String.length "192.168.0.3" <= 39)%nat
  /\ (if is_ipv4 "192.168.0.3"
      then all_chars is_ipv4_char "192.168.0.3" = true
           /\ (String.length "192.168.0.3" <= 15)%nat
      else all_chars is_ipv6_char "192.168.0.3" = true
           /\ (15 <= String.length "192.168.0.3")%nat).
Proof.
  apply (address_literal_text "192.168.0.3"). vm_compute. reflexivity.
Defined.

End AddressFacts.

Section ResolverFacts.

Import LbReservation.

Implicit Types (cp : ControlPlane) (l result : list string)
  (p : string -> bool).

(** X14.  [resolve_host] performs one lookup, of the host name as a C
    string.  When the lookup fails it returns false and leaves both
    outputs as they were; otherwise it returns true and each output
    holds the last entry of the list that its pattern accepts, and is
    left as it was when the list has none.  So an output is always
    either what the caller passed in or an address literal of its
    family. *)
Theorem resolve_host_keeps_last_match cp host_name ipv4 ipv6 :
  let out := snd (fst (resolve_host cp host_name ipv4 ipv6)) in
  resolve_host cp host_name ipv4 ipv6 =
  (match getaddrinfo cp (c_str host_name) with
   | None => (false, (ipv4, ipv6))
   | Some result =>
       (true, (List.last (List.filter is_ipv4 result) ipv4,
               List.last (List.filter is_ipv6 result) ipv6))
   end, [Resolve (c_str host_name)])
  /\ (fst out = ipv4 \/ is_ipv4 (fst out) = true)
  /\ (snd out = ipv6 \/ is_ipv6 (snd out) = true).
Proof.
  intros out. subst out. unfold resolve_host; cbv zeta.
  destruct (getaddrinfo cp (c_str host_name)) as [result|]; cbn [fst snd].
  - rewrite scan_addrinfo_last. cbn [fst snd]. split; [reflexivity|].
    split.
    + destruct (last_filter_cases is_ipv4 result ipv4)
        as [[_ H] | (_ & H & _)]; [left | right]; exact H.
    + destruct (last_filter_cases is_ipv6 result ipv6)
        as [[_ H] | (_ & H & _)]; [left | right]; exact H.
  - split; [reflexivity|]. split; left; reflexivity.
Qed.

(** X15.  The control-plane address the static functions write into a
    URI.  An address literal is used as given and nothing is looked up.
    Anything else is looked up once, as a C string, and the address is
    the last IPv6 entry found if IPv6 was asked for and there is one,
    else the last IPv4 entry if there is one, else the name as given.
    So the address is either the caller's text or an entry of the
    lookup that is an address literal, free of NUL bytes; and unless
    IPv6 was asked for or passed in, it is never an IPv6 literal. *)
Theorem cp_ip_addr_choice cp cpIP (useIPv6 : bool) :
  let entries :=
    match getaddrinfo cp (c_str cpIP) with Some l => l | None => [] end in
  let ipAddr := fst (cp_ip_addr cp cpIP useIPv6) in
  cp_ip_addr cp cpIP useIPv6 =
  (if is_ipv4 cpIP || is_ipv6 cpIP then (cpIP, [])
   else (if useIPv6 && existsb is_ipv6 entries
         then List.last (List.filter is_ipv6 entries) ""
         else if existsb is_ipv4 entries
              then List.last (List.filter is_ipv4 entries) ""
              else cpIP,
         [Resolve (c_str cpIP)]))
  /\ (ipAddr = cpIP
      \/ (In ipAddr entries /\ c_str ipAddr = ipAddr
          /\ (is_ipv4 ipAddr = true
              \/ (useIPv6 = true /\ is_ipv6 ipAddr = true))))
  /\ useIPv6 || is_ipv6 cpIP || negb (is_ipv6 ipAddr) = true.
Proof.
  intros entries ipAddr. subst ipAddr.
  pose proof (cp_ip_addr_eq cp cpIP useIPv6) as Heq; cbv zeta in Heq.
  fold entries in Heq. split; [exact Heq|]. rewrite Heq. clear Heq.
  destruct (is_ipv4 cpIP || is_ipv6 cpIP) eqn:Hlit; cbn [fst].
  { split; [left; reflexivity|].
    destruct useIPv6; [reflexivity|]. cbn [orb].
    destruct (is_ipv6 cpIP); reflexivity. }
  apply orb_false_iff in Hlit as [H4 H6]. rewrite H6, orb_false_r.
  destruct (last_filter_cases is_ipv6 entries "")
    as [[Hn6 _] | (Hs6 & Hp6 & Hin6)];
  destruct (last_filter_cases is_ipv4 entries "")
    as [[Hn4 _] | (Hs4 & Hp4 & Hin4)];
  rewrite ?Hn6, ?Hs6, ?Hn4, ?Hs4, ?andb_false_r, ?andb_true_r.
  - split; [left; reflexivity|]. rewrite H6. apply orb_true_r.
  - split.
    + right. split; [exact Hin4|]. split; [apply is_ipv4_c_str, Hp4|].
      left. exact Hp4.
    + rewrite (is_ipv4_not_ipv6 _ Hp4). apply orb_true_r.
  - destruct useIPv6.
    + split; [|reflexivity].
      right. split; [exact Hin6|]. split; [apply is_ipv6_c_str, Hp6|].
      right. split; [reflexivity | exact Hp6].
    + split; [left; reflexivity|]. rewrite H6. reflexivity.
  - destruct useIPv6.
    + split; [|reflexivity].
      right. split; [exact Hin6|]. split; [apply is_ipv6_c_str, Hp6|].
      right. split; [reflexivity | exact Hp6].
    + split.
      * right. split; [exact Hin4|]. split; [apply is_ipv4_c_str, Hp4|].
        left. exact Hp4.
      * rewrite (is_ipv4_not_ipv6 _ Hp4). reflexivity.
Qed.

End ResolverFacts.

(** * The URIs of the static functions *)

Section StaticUriFacts.

Import LbReservation.

Implicit Types (cp : ControlPlane) (reply : ReserveLoadBalancerReply).

(** Checking a property of the integers below a bound by running
    through them. *)
Lemma range_check (p : Z -> bool) (n : positive) :
  let next := fun st : Z * bool => (fst st + 1, snd st && p (fst st)) in
  fst (Pos.iter next (0, true) n) = Z.pos n
  /\ (snd (Pos.iter next (0, true) n) = true ->
      forall x, 0 <= x < Z.pos n -> p x = true).
Proof.
  intros next. induction n as [|n [Hfst Hsnd]] using Pos.peano_ind.
  - cbn. split; [reflexivity|]. intros H x Hx.
    assert (x = 0) as -> by lia. exact H.
  - rewrite Pos.iter_succ. unfold next at 1 3; cbn [fst snd]. rewrite Hfst.
    split; [lia|]. intros H x Hx. apply andb_true_iff in H as [H1 H2].
    destruct (Z.eq_dec x (Z.pos n)) as [->|Hne]; [exact H2|].
    apply Hsnd; [exact H1 | lia].
Qed.

(** [%hu] prints at most five digits. *)
Lemma to_string_uint16_length z :
  0 <= z < 65536 -> (String.length (to_string z) <= 5)%nat.
Proof.
  intros Hz. apply Nat.leb_le.
  apply (proj2 (range_check
                  (fun z => (String.length (to_string z) <=? 5)%nat) 65536));
    [vm_compute; reflexivity | exact Hz].
Qed.

Lemma to_uint16_range z : 0 <= to_uint16 z < 65536.
Proof. unfold to_uint16. apply Z.mod_pos_bound. lia. Qed.

Lemma to_int32_small z : 0 <= z < 65536 -> to_int32 z = z.
Proof.
  intros Hz. unfold to_int32, to_uint32; cbv zeta.
  rewrite Z.mod_small by lia.
  destruct (Z.ltb_spec z 2147483648); [reflexivity | lia].
Qed.

Lemma c_str_length s : (String.length (c_str s) <= String.length s)%nat.
Proof.
  induction s as [|c s IH]; cbn [c_str]; [lia|].
  destruct (Ascii.eqb c zero); cbn [String.length]; lia.
Qed.

Lemma format_reserve_uri_length tok ipAddr cpPort0 lbid dataAddr syncIP syncPort :
  0 <= syncPort < 65536 ->
  (String.length (format_reserve_uri tok ipAddr (to_uint16 cpPort0) lbid
                    dataAddr 19522 syncIP syncPort)
   <= 43 + String.length tok + String.length ipAddr + String.length lbid
      + String.length dataAddr + String.length syncIP)%nat.
Proof.
  intros Hport. unfold format_reserve_uri.
  rewrite to_uint16_idem, (to_int32_small syncPort Hport).
  change (to_string (to_int32 19522)) with "19522".
  pose proof (to_string_uint16_length _ (to_uint16_range cpPort0)).
  pose proof (to_string_uint16_length _ Hport).
  pose proof (c_str_length tok). pose proof (c_str_length ipAddr).
  pose proof (c_str_length lbid). pose proof (c_str_length dataAddr).
  pose proof (c_str_length syncIP).
  rewrite !length_append. cbn [String.length]. lia.
Qed.

Lemma format_lookup_uri_length ipAddr cpPort0 lbid dataAddr syncIP syncPort :
  0 <= syncPort < 65536 ->
  (String.length (format_lookup_uri ipAddr (to_uint16 cpPort0) lbid
                    dataAddr 19522 syncIP syncPort)
   <= 42 + String.length ipAddr + String.length lbid
      + String.length dataAddr + String.length syncIP)%nat.
Proof.
  intros Hport. unfold format_lookup_uri.
  rewrite to_uint16_idem, (to_int32_small syncPort Hport).
  change (to_string (to_int32 19522)) with "19522".
  pose proof (to_string_uint16_length _ (to_uint16_range cpPort0)).
  pose proof (to_string_uint16_length _ Hport).
  pose proof (c_str_length ipAddr).
  pose proof (c_str_length lbid). pose proof (c_str_length dataAddr).
  pose proof (c_str_length syncIP).
  rewrite !length_append. cbn [String.length]. lia.
Qed.

(** The address written into a URI is the caller's text or an address
    literal, so it is no longer than the longer of the two. *)
Lemma cp_ip_addr_length cp cpIP (useIPv6 : bool) :
  (String.length (fst (cp_ip_addr cp cpIP useIPv6))
   <= Nat.max (String.length cpIP) 39)%nat.
Proof.
  rewrite cp_ip_addr_eq; cbv zeta.
  set (entries := match getaddrinfo cp (c_str cpIP) with
                  | Some l => l | None => [] end).
  destruct (is_ipv4 cpIP || is_ipv6 cpIP); cbn [fst]; [lia|].
  destruct (last_filter_cases is_ipv6 entries "")
    as [[-> _] | (-> & Hp6 & _)];
  destruct (last_filter_cases is_ipv4 entries "")
    as [[-> _] | (-> & Hp4 & _)];
  rewrite ?andb_false_r, ?andb_true_r;
  try (apply is_ipv4_length in Hp4); try (apply is_ipv6_length in Hp6);
  destruct useIPv6; lia.
Qed.

Lemma sync_ip_length reply fallback :
  (String.length (sync_ip reply fallback)
   <= Nat.max (String.length (rep_syncipaddress reply))
              (String.length fallback))%nat.
Proof.
  unfold sync_ip; cbv zeta.
  destruct (String.eqb _ "" || _); lia.
Qed.

Lemma prefix_error_of_ejfat rest :
  String.prefix "error = " ("ejfat://" +:+ rest) = false.
Proof.
  change ("ejfat://" +:+ rest) with
    (String "e" (String "j" (String "f" (String "a" (String "t" (String ":"
       (String "/" (String "/" rest)))))))).
  reflexivity.
Qed.

Lemma prefix_error rest : String.prefix "error = " ("error = " +:+ rest) = true.
Proof.
  change ("error = " +:+ rest) with
    (String "e" (String "r" (String "r" (String "o" (String "r" (String " "
       (String "=" (String " " rest)))))))).
  cbn. destruct rest; reflexivity.
Qed.

Lemma prefix_ejfat_of_error rest :
  String.prefix "ejfat://" ("error = " +:+ rest) = false.
Proof.
  change ("error = " +:+ rest) with
    (String "e" (String "r" (String "r" (String "o" (String "r" (String " "
       (String "=" (String " " rest)))))))).
  reflexivity.
Qed.

Lemma sprintf_url_Some text uri :
  sprintf_url text = Some uri -> uri = text /\ (String.length uri <= 255)%nat.
Proof.
  unfold sprintf_url, url_size.
  destruct (Nat.ltb_spec (String.length text) 256) as [Hlt|]; [|discriminate].
  intros [= <-]. split; [reflexivity | lia].
Qed.

(** X16.  What the two static URI functions do whatever the control
    plane answers.  Each performs exactly one RPC, to the target
    [cpIP:cpPort], and then, unless [cpIP] is an address literal, one
    host lookup - also when the RPC failed and the address is not used.
    The text returned begins with [ejfat://] exactly when the RPC
    succeeded, and with [error = ] exactly when it failed, and has at
    most 255 characters. *)
Theorem static_uri_exchanges cp cpIP cpPort0 lbName0 lbId0 adminToken0 until
    (useIPv6 : bool) :
  let target := cpIP +:+ ":" +:+ to_string (to_uint16 cpPort0) in
  let reserve := ReserveRequest_of adminToken0 lbName0 (to_int64 until) in
  let lookup := mkGetLoadBalancerRequest adminToken0 lbId0 in
  let resolved :=
    if is_ipv4 cpIP || is_ipv6 cpIP then [] else [Resolve (c_str cpIP)] in
  let reserved_uri :=
    ReserveLoadBalancer_static cp cpIP cpPort0 lbName0 adminToken0 until useIPv6 in
  let looked_up := GetLbUri cp cpIP cpPort0 lbId0 adminToken0 useIPv6 in
  snd reserved_uri = CallReserveLoadBalancer target reserve :: resolved
  /\ snd looked_up = CallGetLoadBalancer target lookup :: resolved
  /\ match fst reserved_uri with
     | Some uri =>
         String.prefix "ejfat://" uri
           = ok (fst (cp_ReserveLoadBalancer cp target reserve))
         /\ String.prefix "error = " uri
           = negb (ok (fst (cp_ReserveLoadBalancer cp target reserve)))
         /\ (String.length uri <= 255)%nat
     | None => True
     end
  /\ match fst looked_up with
     | Some uri =>
         String.prefix "ejfat://" uri
           = ok (fst (cp_GetLoadBalancer cp target lookup))
         /\ String.prefix "error = " uri
           = negb (ok (fst (cp_GetLoadBalancer cp target lookup)))
         /\ (String.length uri <= 255)%nat
     | None => True
     end.
Proof.
  intros target reserve lookup resolved reserved_uri looked_up.
  subst reserved_uri looked_up.
  rewrite ReserveLoadBalancer_static_eq, GetLbUri_eq; cbv zeta.
  fold target. fold reserve. fold lookup. cbn [fst snd].
  assert (Hres : snd (cp_ip_addr cp cpIP useIPv6) = resolved).
  { subst resolved. rewrite cp_ip_addr_eq; cbv zeta.
    destruct (is_ipv4 cpIP || is_ipv6 cpIP); reflexivity. }
  rewrite Hres. split; [reflexivity|]. split; [reflexivity|]. split.
  - destruct (sprintf_url _) as [uri|] eqn:Huri; [|exact I].
    apply sprintf_url_Some in Huri as [-> Hlen].
    split; [|split; [|exact Hlen]];
      destruct (ok (fst (cp_ReserveLoadBalancer cp target reserve))).
    + apply prefix_ejfat.
    + apply prefix_ejfat_of_error.
    + apply prefix_error_of_ejfat.
    + apply prefix_error.
  - destruct (sprintf_url _) as [uri|] eqn:Huri; [|exact I].
    apply sprintf_url_Some in Huri as [-> Hlen].
    split; [|split; [|exact Hlen]];
      destruct (ok (fst (cp_GetLoadBalancer cp target lookup))).
    + apply prefix_ejfat.
    + apply prefix_ejfat_of_error.
    + apply prefix_error_of_ejfat.
    + apply prefix_error.
Qed.


Lemma sprintf_url_short text :
  (String.length text <= 255)%nat -> sprintf_url text = Some text.
Proof. intros H. apply sprintf_url_fits. unfold fits_url, url_size. lia. Qed.

Lemma format_error_length msg :
  String.length (format_error msg) = (8 + String.length (c_str msg))%nat.
Proof. unfold format_error. rewrite length_append. reflexivity. Qed.

(** X17.  When the static [ReserveLoadBalancer] has a defined result.
    The text is formatted into 256 bytes.  After a successful exchange
    whose sync port is a 16-bit number, the fixed parts of the URI and
    the three numbers take at most 43 bytes, the control-plane address
    at most the longer of [cpIP] and 39, and the sync address at most
    the longer of that and the address of the reply: if those with the
    token, the LB id and the data address stay within 212 bytes, the
    function returns the URI.  After a failed exchange it returns
    [error = ] and the message if the message has at most 247 bytes. *)
Theorem ReserveLoadBalancer_static_defined cp cpIP cpPort0 lbName0
    adminToken0 until (useIPv6 : bool) :
  let target := cpIP +:+ ":" +:+ to_string (to_uint16 cpPort0) in
  let request := ReserveRequest_of adminToken0 lbName0 (to_int64 until) in
  let status := fst (cp_ReserveLoadBalancer cp target request) in
  let reply := snd (cp_ReserveLoadBalancer cp target request) in
  let dataAddr :=
    if useIPv6 then rep_dataipv6address reply else rep_dataipv4address reply in
  let ipAddr := fst (cp_ip_addr cp cpIP useIPv6) in
  let longest := Nat.max (String.length cpIP) 39 in
  (if ok status
   then 0 <= rep_syncudpport reply < 65536
        /\ (String.length (rep_token reply) + String.length (rep_lbid reply)
            + String.length dataAddr + longest
            + Nat.max (String.length (rep_syncipaddress reply)) longest
            <= 212)%nat
   else (String.length (error_message status) <= 247)%nat) ->
  fst (ReserveLoadBalancer_static cp cpIP cpPort0 lbName0 adminToken0 until
         useIPv6)
  = Some (if ok status
          then format_reserve_uri (rep_token reply) ipAddr (to_uint16 cpPort0)
                 (rep_lbid reply) dataAddr 19522 (sync_ip reply ipAddr)
                 (rep_syncudpport reply)
          else format_error (error_message status)).
Proof.
  intros target request status reply dataAddr ipAddr longest Hsize.
  rewrite ReserveLoadBalancer_static_eq; cbv zeta.
  fold target. fold request. fold status. fold reply. fold ipAddr.
  fold dataAddr. cbn [fst].
  apply sprintf_url_short. destruct (ok status).
  - destruct Hsize as [Hport Hsize].
    pose proof (format_reserve_uri_length (rep_token reply) ipAddr cpPort0
                  (rep_lbid reply) dataAddr (sync_ip reply ipAddr)
                  (rep_syncudpport reply) Hport) as Hlen.
    pose proof (cp_ip_addr_length cp cpIP useIPv6) as Hip. fold ipAddr in Hip.
    pose proof (sync_ip_length reply ipAddr) as Hsync.
    subst longest. lia.
  - rewrite format_error_length.
    pose proof (c_str_length (error_message status)). lia.
Qed.

Lemma ReserveLoadBalancer_static_defined_witness :
  fst (ReserveLoadBalancer_static resolving_cp "cp.example.org" 18347 "test"
         "admin-token" 1700003600 true)
  = Some "ejfat://tok123@2001:db8:1:2:3:4:5:6:18347/lb/lb7?data=:19522&sync=2001:db8:1:2:3:4:5:6:18000".
Proof.
  etransitivity.
  - apply (ReserveLoadBalancer_static_defined resolving_cp "cp.example.org"
             18347 "test" "admin-token" 1700003600 true).
    change (0 <= 18000 < 65536 /\ (6 + 3 + 0 + 39 + 39 <= 212)%nat).
    split; lia.
  - vm_compute. reflexivity.
Defined.

(** X18.  When [GetLbUri] has a defined result: as for the static
    [ReserveLoadBalancer], with 213 bytes for the variable parts, the
    URI having no token and no [@]. *)
Theorem GetLbUri_defined cp cpIP cpPort0 lbId0 adminToken0 (useIPv6 : bool) :
  let target := cpIP +:+ ":" +:+ to_string (to_uint16 cpPort0) in
  let request := mkGetLoadBalancerRequest adminToken0 lbId0 in
  let status := fst (cp_GetLoadBalancer cp target request) in
  let reply := snd (cp_GetLoadBalancer cp target request) in
  let dataAddr :=
    if useIPv6 then rep_dataipv6address reply else rep_dataipv4address reply in
  let ipAddr := fst (cp_ip_addr cp cpIP useIPv6) in
  let longest := Nat.max (String.length cpIP) 39 in
  (if ok status
   then 0 <= rep_syncudpport reply < 65536
        /\ (String.length (rep_lbid reply) + String.length dataAddr + longest
            + Nat.max (String.length (rep_syncipaddress reply)) longest
            <= 213)%nat
   else (String.length (error_message status) <= 247)%nat) ->
  fst (GetLbUri cp cpIP cpPort0 lbId0 adminToken0 useIPv6)
  = Some (if ok status
          then format_lookup_uri ipAddr (to_uint16 cpPort0)
                 (rep_lbid reply) dataAddr 19522 (sync_ip reply ipAddr)
                 (rep_syncudpport reply)
          else format_error (error_message status)).
Proof.
  intros target request status reply dataAddr ipAddr longest Hsize.
  rewrite GetLbUri_eq; cbv zeta.
  fold target. fold request. fold status. fold reply. fold ipAddr.
  fold dataAddr. cbn [fst].
  apply sprintf_url_short. destruct (ok status).
  - destruct Hsize as [Hport Hsize].
    pose proof (format_lookup_uri_length ipAddr cpPort0
                  (rep_lbid reply) dataAddr (sync_ip reply ipAddr)
                  (rep_syncudpport reply) Hport) as Hlen.
    pose proof (cp_ip_addr_length cp cpIP useIPv6) as Hip. fold ipAddr in Hip.
    pose proof (sync_ip_length reply ipAddr) as Hsync.
    subst longest. lia.
  - rewrite format_error_length.
    pose proof (c_str_length (error_message status)). lia.
Qed.

Lemma GetLbUri_defined_witness :
  fst (GetLbUri failing_cp "192.168.0.3" 18347 "lb7" "admin-token" false)
  = Some ("error = " +:+ error_message UNAVAILABLE).
Proof.
  etransitivity.
  - apply (GetLbUri_defined failing_cp "192.168.0.3" 18347 "lb7"
             "admin-token" false).
    change (34 <= 247)%nat. lia.
  - vm_compute. reflexivity.
Defined.

(** X19.  The static [ReserveLoadBalancer] against the member function.
    For a control plane given as an address literal and a 16-bit sync
    port in the reply, both perform the same single exchange, and the
    URI the static function formats is the one made of what the member
    function leaves in the object: instance token, control-plane
    address and port, LB id, data address, data port, sync address and
    sync port.  When the exchange fails the member function returns 1
    and the static one the error text. *)
Theorem static_reserve_matches_member cp cpIP cpPort0 name admintoken until
    (useIPv6 : bool) :
  let r0 := new cpIP cpPort0 name admintoken until in
  let rc := fst (fst (ReserveLoadBalancer cp r0)) in
  let r := snd (fst (ReserveLoadBalancer cp r0)) in
  let answer :=
    cp_ReserveLoadBalancer cp (stub_ r0)
      (ReserveRequest_of admintoken name (to_int64 until)) in
  let static :=
    ReserveLoadBalancer_static cp cpIP cpPort0 name admintoken until useIPv6 in
  is_ipv4 cpIP || is_ipv6 cpIP = true ->
  0 <= rep_syncudpport (snd answer) < 65536 ->
  snd static = snd (ReserveLoadBalancer cp r0)
  /\ rc = (if ok (fst answer) then 0 else 1)
  /\ fst static =
     sprintf_url
       (if rc =? 0
        then format_reserve_uri (instanceToken r) (cpAddr r) (cpPort r) (lbId r)
               (if useIPv6 then dataIpv6Address r else dataIpv4Address r)
               (getDataPort r) (getSyncAddr r) (syncUdpPort r)
        else format_error (error_message (fst answer))).
Proof.
  intros r0 rc r answer static Hlit Hport.
  subst static rc r. rewrite ReserveLoadBalancer_static_eq; cbv zeta.
  rewrite (cp_ip_addr_literal cp cpIP useIPv6 Hlit). cbn [fst snd].
  unfold ReserveLoadBalancer; cbv zeta.
  change (ReserveRequest_of (adminToken r0) (lbName r0) (untilSeconds r0))
    with (ReserveRequest_of admintoken name (to_int64 until)).
  change (cpIP +:+ ":" +:+ to_string (to_uint16 cpPort0)) with (stub_ r0).
  fold answer. destruct answer as [status reply] eqn:Hanswer.
  cbn [fst snd] in *.
  destruct (ok status); cbn [negb fst snd].
  - split; [reflexivity|]. split; [reflexivity|].
    change (0 =? 0) with true. cbv iota.
    unfold set_reservation, getSyncAddr, getDataPort; cbn.
    unfold format_reserve_uri.
    rewrite (to_int32_small _ Hport), (to_int32_small _ (to_uint16_range _)).
    rewrite to_uint16_idem.
    unfold to_uint16 at 3. rewrite (Z.mod_small _ _ Hport).
    destruct useIPv6; reflexivity.
  - split; [reflexivity|]. split; reflexivity.
Qed.

Lemma static_reserve_matches_member_witness :
  fst (ReserveLoadBalancer_static scenario_cp "192.168.0.3" 18347 "test"
         "admin-token" 1700003600 false)
  = Some "ejfat://tok123@192.168.0.3:18347/lb/lb7?data=10.0.0.5:19522&sync=192.168.0.3:18000".
Proof.
  pose proof (static_reserve_matches_member scenario_cp "192.168.0.3" 18347
                "test" "admin-token" 1700003600 false) as H.
  cbv zeta in H.
  destruct H as (_ & _ & H);
    [vm_compute; reflexivity | change (0 <= 18000 < 65536); lia |].
  etransitivity; [exact H | vm_compute; reflexivity].
Defined.

(** X20.  [GetLbUri] against the static [ReserveLoadBalancer].  When the
    control plane answers both calls successfully and with the same
    reply, the two URIs are made of the same text after [ejfat://],
    except that the reservation URI has the instance token and [@] in
    front of it; and whenever the reservation URI fits the buffer, so
    does the other. *)
Theorem GetLbUri_is_reserve_uri_without_token cp cpIP cpPort0 lbName0 lbId0
    adminToken0 until (useIPv6 : bool) :
  let target := cpIP +:+ ":" +:+ to_string (to_uint16 cpPort0) in
  let reserve :=
    cp_ReserveLoadBalancer cp target
      (ReserveRequest_of adminToken0 lbName0 (to_int64 until)) in
  let lookup :=
    cp_GetLoadBalancer cp target (mkGetLoadBalancerRequest adminToken0 lbId0) in
  ok (fst reserve) = true ->
  ok (fst lookup) = true ->
  snd lookup = snd reserve ->
  exists rest,
    fst (ReserveLoadBalancer_static cp cpIP cpPort0 lbName0 adminToken0 until
           useIPv6)
    = sprintf_url ("ejfat://" +:+ c_str (rep_token (snd reserve)) +:+ "@"
                   +:+ rest)
    /\ fst (GetLbUri cp cpIP cpPort0 lbId0 adminToken0 useIPv6)
       = sprintf_url ("ejfat://" +:+ rest)
    /\ (fst (ReserveLoadBalancer_static cp cpIP cpPort0 lbName0 adminToken0
               until useIPv6) = None
        \/ fst (GetLbUri cp cpIP cpPort0 lbId0 adminToken0 useIPv6)
           = Some ("ejfat://" +:+ rest)).
Proof.
  intros target reserve lookup Hr Hl Hsame.
  rewrite ReserveLoadBalancer_static_eq, GetLbUri_eq; cbv zeta.
  fold target. fold reserve. fold lookup. cbn [fst].
  rewrite Hr, Hl, Hsame.
  set (reply := snd reserve). set (ipAddr := fst (cp_ip_addr cp cpIP useIPv6)).
  set (dataAddr := if useIPv6 then rep_dataipv6address reply
                   else rep_dataipv4address reply).
  exists (c_str ipAddr +:+ ":" +:+ to_string (to_uint16 (to_uint16 cpPort0))
          +:+ "/lb/" +:+ c_str (rep_lbid reply)
          +:+ "?data=" +:+ c_str dataAddr +:+ ":" +:+ to_string (to_int32 19522)
          +:+ "&sync=" +:+ c_str (sync_ip reply ipAddr) +:+ ":"
          +:+ to_string (to_int32 (rep_syncudpport reply))).
  split; [reflexivity|]. split; [reflexivity|].
  unfold format_reserve_uri, format_lookup_uri.
  set (rest := c_str ipAddr +:+ _).
  unfold sprintf_url, url_size.
  destruct (Nat.ltb_spec
              (String.length ("ejfat://" +:+ c_str (rep_token reply) +:+ "@"
                              +:+ rest)) 256) as [Hlt|Hge];
    [right | left; reflexivity].
  rewrite !length_append in Hlt. cbn [String.length] in Hlt.
  destruct (Nat.ltb_spec (String.length ("ejfat://" +:+ rest)) 256)
    as [_|Hge]; [reflexivity|].
  rewrite length_append in Hge. cbn [String.length] in Hge. lia.
Qed.

Lemma GetLbUri_is_reserve_uri_without_token_witness :
  exists rest,
    fst (ReserveLoadBalancer_static scenario_cp "192.168.0.3" 18347 "test"
           "admin-token" 1700003600 false)
    = sprintf_url ("ejfat://" +:+ "tok123" +:+ "@" +:+ rest)
    /\ fst (GetLbUri scenario_cp "192.168.0.3" 18347 "lb7" "admin-token" false)
       = sprintf_url ("ejfat://" +:+ rest).
Proof.
  destruct (GetLbUri_is_reserve_uri_without_token scenario_cp "192.168.0.3"
              18347 "test" "lb7" "admin-token" 1700003600 false
              eq_refl eq_refl eq_refl) as (rest & H1 & H2 & _).
  exists rest. split; [exact H1 | exact H2].
Defined.



End StaticUriFacts.

(** * The client of the earlier revision *)

Section LegacyClientFacts.

Import LbControlPlaneClient.

Implicit Types (c : t) (cp : ControlPlane) (ks : list Legacy.call).

Lemma Legacy_step_upgrade c (k : Legacy.call) :
  Legacy.step c k = step c (Legacy.upgrade k).
Proof. destruct k; reflexivity. Qed.

Lemma Legacy_run_cons c (k : Legacy.call) ks :
  Legacy.run c (k :: ks) =
  (fst (Legacy.run (snd (fst (Legacy.step c k))) ks),
   snd (Legacy.step c k) ++ snd (Legacy.run (snd (fst (Legacy.step c k))) ks)).
Proof.
  cbn [Legacy.run]. destruct (Legacy.step c k) as [[rc c'] evs].
  cbn [fst snd]. destruct (Legacy.run c' ks) as [c'' evs']. reflexivity.
Qed.

(** A call of the earlier revision leaves a ready client ready, and
    what it sends says so. *)
Lemma Legacy_step_ready c (k : Legacy.call) :
  isReady c = true ->
  isReady (snd (fst (Legacy.step c k))) = true
  /\ forallb Legacy.reports_ready (snd (Legacy.step c k)) = true.
Proof.
  intros Hready. destruct k as [fill pidErr | cp | cp t1 | cp];
    cbn [Legacy.step].
  - split; reflexivity.
  - rewrite Register_events. split; [|reflexivity].
    unfold Register; cbv zeta.
    destruct (cp_Register cp (stub_ c) (RegisterRequest_of c)) as [status reply].
    destruct (ok status); exact Hready.
  - rewrite SendState_unfold. cbn [fst snd forallb Legacy.reports_ready].
    split; [exact Hready|]. unfold SendStateRequest_of; cbn.
    rewrite Hready. reflexivity.
  - rewrite Deregister_unfold. split; [exact Hready | reflexivity].
Qed.

Lemma Legacy_run_ready ks : forall c,
  isReady c = true -> forallb Legacy.reports_ready (snd (Legacy.run c ks)) = true.
Proof.
  induction ks as [|k ks IH]; intros c Hready; [reflexivity|].
  rewrite Legacy_run_cons. cbn [snd]. rewrite forallb_app.
  destruct (Legacy_step_ready c k Hready) as [Hc Hevs].
  rewrite Hevs, (IH _ Hc). reflexivity.
Qed.

(** X22.  The client of the earlier revision, whose [update] took no
    readiness argument.  Any history of calls on it does exactly what
    the same history does on the current client when every [update] is
    given readiness true, the value the current declaration defaults
    to: same object, same exchanges.  And once [update] has been called,
    every state report the earlier client sends says the backend is
    ready, whatever fill level it was given. *)
Theorem Legacy_client_always_ready c fill pidErr ks :
  Legacy.run c ks = run c (map Legacy.upgrade ks)
  /\ forallb Legacy.reports_ready
       (snd (Legacy.run (Legacy.update c fill pidErr) ks)) = true.
Proof.
  split.
  - revert c. induction ks as [|k ks IH]; intros c; [reflexivity|].
    cbn [map]. rewrite Legacy_run_cons, run_cons, <- Legacy_step_upgrade.
    rewrite IH. reflexivity.
  - apply Legacy_run_ready. reflexivity.
Qed.

End LegacyClientFacts.
